(** * The JSON-file-backed Todo store: a shallow embedding and its properties

    The development follows [storage.ts] (class [TodoStorage]), the utilities
    of [types.ts] (class [TodoUtils], the zod schemas) and the retry helper of
    [errors.ts] (class [RetryHandler]).

    TypeScript types are erased at run time and the migration code manipulates
    values of type [any], so the store is modelled at the level of JavaScript
    run-time values: a todo held in memory is a [value], and the typed record
    [Todo] of [types.ts] is embedded into values by [of_Todo]. *)

From Stdlib Require Import ZArith String Ascii List Bool Lia DecimalString.
From stdpp Require Import gmap strings list.
Import ListNotations.

Local Open Scope string_scope.
Local Open Scope list_scope.
Local Open Scope Z_scope.

Local Set Warnings "-register-all".

(** ** JavaScript values *)

Module JS.

(** Numbers are restricted to integers: the only numbers the store computes
    are counts, and the only thing it asks of a number read from a file is
    whether it is zero (truthiness) and, in the schema, whether it is a
    non-negative integer. *)
Inductive value : Type :=
| VUndefined
| VNull
| VBool (b : bool)
| VNum (n : Z)
| VStr (s : string)
| VArr (xs : list value)
| VObj (props : list (string * value)).

(** Truthiness, as used by [||], [&&], [!], [Boolean(x)] and [if]. *)
Definition truthy (v : value) : bool :=
  match v with
  | VUndefined | VNull => false
  | VBool b => b
  | VNum n => negb (n =? 0)
  | VStr s => negb (String.eqb s "")
  | VArr _ | VObj _ => true
  end.

(** [a || b] where [b] is a pure expression. *)
Definition or_else (a b : value) : value := if truthy a then a else b.

(** Own property of an object literal; a key that is absent reads as
    [undefined]. *)
Fixpoint lookup_prop (props : list (string * value)) (k : string) : value :=
  match props with
  | [] => VUndefined
  | (k', v) :: rest => if String.eqb k' k then v else lookup_prop rest k
  end.

(** [v.k] for the property names the store reads ([id], [title],
    [description], [completed], [createdAt], [updatedAt], [dueDate],
    [priority], [tags], [todos], [metadata]).  None of them is an own or
    inherited property of a number, boolean, string or array, so those read
    as [undefined]; reading a property of [null] or [undefined] is a
    [TypeError], rendered as [None]. *)
Definition get_prop (v : value) (k : string) : option value :=
  match v with
  | VUndefined | VNull => None
  | VObj props => Some (lookup_prop props k)
  | VBool _ | VNum _ | VStr _ | VArr _ => Some VUndefined
  end.

(** [o[k] = v] on an object literal: an existing key keeps its position. *)
Fixpoint set_prop (props : list (string * value)) (k : string) (v : value)
  : list (string * value) :=
  match props with
  | [] => [(k, v)]
  | (k', v') :: rest =>
      if String.eqb k' k then (k, v) :: rest else (k', v') :: set_prop rest k v
  end.

(** Decimal rendering of a natural number, as in template literals. *)
Definition string_of_nat (n : nat) : string :=
  NilZero.string_of_uint (Nat.to_uint n).

Definition string_of_Z (z : Z) : string :=
  NilZero.string_of_int (Z.to_int z).

Fixpoint index_from {A} (i : nat) (xs : list A) : list (string * A) :=
  match xs with
  | [] => []
  | x :: rest => (string_of_nat i, x) :: index_from (S i) rest
  end.

Definition chars (s : string) : list value :=
  map (fun c => VStr (String c EmptyString)) (list_ascii_of_string s).

(** The own enumerable properties copied by an object spread [{...v}]. *)
Definition own_props (v : value) : list (string * value) :=
  match v with
  | VObj props => props
  | VArr xs => index_from 0 xs
  | VStr s => index_from 0 (chars s)
  | VUndefined | VNull | VBool _ | VNum _ => []
  end.

(** [{...a, ...b}]: the properties of [b] are assigned over those of [a]. *)
Definition assign_all (base over : list (string * value)) : list (string * value) :=
  fold_left (fun acc kv => set_prop acc (fst kv) (snd kv)) over base.

(** [ToString], used when a value serves as a property key. *)
Fixpoint to_string (v : value) : string :=
  match v with
  | VUndefined => "undefined"
  | VNull => "null"
  | VBool true => "true"
  | VBool false => "false"
  | VNum n => string_of_Z n
  | VStr s => s
  | VArr xs =>
      (fix join (first : bool) (l : list value) : string :=
         match l with
         | [] => ""
         | x :: rest =>
             (if first then "" else ",") +:+
             match x with
             | VUndefined | VNull => ""
             | _ => to_string x
             end +:+ join false rest
         end) true xs
  | VObj _ => "[object Object]"
  end.

(** [a === b].  Arrays and objects compare by identity; the store only ever
    compares an [id] property with a string, and two separately built
    arrays or objects are never identical. *)
Definition strict_eq (a b : value) : bool :=
  match a, b with
  | VUndefined, VUndefined | VNull, VNull => true
  | VBool x, VBool y => Bool.eqb x y
  | VNum x, VNum y => x =? y
  | VStr x, VStr y => String.eqb x y
  | _, _ => false
  end.

(** The value read back by [JSON.parse] from the text that [JSON.stringify]
    writes: properties holding [undefined] are dropped, and [undefined]
    array elements become [null]. *)
Fixpoint json_roundtrip (v : value) : value :=
  match v with
  | VArr xs =>
      VArr (map (fun x => match x with
                          | VUndefined => VNull
                          | _ => json_roundtrip x
                          end) xs)
  | VObj props =>
      VObj ((fix go (l : list (string * value)) : list (string * value) :=
               match l with
               | [] => []
               | (k, x) :: rest =>
                   match x with
                   | VUndefined => go rest
                   | _ => (k, json_roundtrip x) :: go rest
                   end
               end) props)
  | _ => v
  end.

End JS.
Export JS.

(** ** The platform: clock, identifiers, dates, path and string formats

    [TodoUtils.generateId] is [crypto.randomUUID()], [getCurrentTimestamp] is
    [new Date().toISOString()], [isOverdue] compares [new Date(s)] with
    [new Date()], [initialize] calls [path.dirname], and the schemas use zod's
    [uuid()], [datetime()] and [date()] string formats.  None of these is code
    of the repository; they are the parameters of the development.  [clock n]
    is the instant (milliseconds since the epoch) returned by the [n]-th
    reading of the clock among those whose value the store keeps or compares
    (the readings made by the logger and by the error constructors only end
    up in log lines and error objects, and are not counted);
    [randomUUID n] is the [n]-th generated identifier. *)
Class Runtime := {
  clock : nat -> Z;
  toISOString : Z -> string;
  Date_parse : string -> option Z;
  Date_parse_empty : Date_parse "" = None;
  randomUUID : nat -> string;
  dirname : string -> string;
  zod_uuid : string -> bool;
  zod_datetime : string -> bool;
  zod_date : string -> bool
}.

(** ** types.ts: the data model *)

Inductive TodoPriority := low | medium | high.

Record Todo := mkTodo {
  id : string;
  title : string;
  description : string;
  completed : bool;
  createdAt : string;
  updatedAt : string;
  dueDate : option string;
  priority : TodoPriority;
  tags : list string
}.

Definition priority_name (p : TodoPriority) : string :=
  match p with low => "low" | medium => "medium" | high => "high" end.

(** A well-typed [Todo] as the object it is at run time (property order as
    in [TodoUtils.createTodo]). *)
Definition of_Todo (t : Todo) : value :=
  VObj [ ("id", VStr (id t));
         ("title", VStr (title t));
         ("description", VStr (description t));
         ("completed", VBool (completed t));
         ("createdAt", VStr (createdAt t));
         ("updatedAt", VStr (updatedAt t));
         ("dueDate", match dueDate t with Some d => VStr d | None => VUndefined end);
         ("priority", VStr (priority_name (priority t)));
         ("tags", VArr (map VStr (tags t))) ].

Record Metadata := mkMetadata {
  version : string;
  lastModified : string;
  totalCount : Z;
  completedCount : Z
}.

(** [TodoList].  At run time [todos] is always an array and [metadata]
    always holds two strings and two numbers (every place that builds a
    [TodoList] does so), but the elements of [todos] are whatever the
    migration let through. *)
Record TodoList := mkTodoList {
  todos : list value;
  metadata : Metadata
}.

Definition Metadata_to_value (m : Metadata) : value :=
  VObj [ ("version", VStr (version m));
         ("lastModified", VStr (lastModified m));
         ("totalCount", VNum (totalCount m));
         ("completedCount", VNum (completedCount m)) ].

Definition TodoList_to_value (l : TodoList) : value :=
  VObj [ ("todos", VArr (todos l)); ("metadata", Metadata_to_value (metadata l)) ].

(** ** types.ts: the zod schemas

    [TodoSchema.parse] and [TodoListSchema.parse] return the parsed value or
    throw a [ZodError]; the store catches every such error on the spot, so a
    throw is rendered as [None].  Objects are parsed in zod's default mode:
    unknown keys are stripped, and the output lists the schema's keys in
    order. *)
Section Schemas.
Context {RT : Runtime}.

Definition has_key (props : list (string * value)) (k : string) : bool :=
  existsb (fun kv => String.eqb (fst kv) k) props.

(** [z.string()] followed by checks. *)
Definition z_string (check : string -> bool) (v : value) : option value :=
  match v with
  | VStr s => if check s then Some v else None
  | _ => None
  end.

Definition z_boolean (v : value) : option value :=
  match v with VBool _ => Some v | _ => None end.

(** [inner.default(d)]: [undefined] is replaced by [d] before parsing. *)
Definition z_default (d : value) (inner : value -> option value) (v : value)
  : option value :=
  match v with VUndefined => inner d | _ => inner v end.

(** [inner.optional()]. *)
Definition z_optional (inner : value -> option value) (v : value) : option value :=
  match v with VUndefined => Some VUndefined | _ => inner v end.

(** [z.array(elem)], with an optional [.max(n)]. *)
Definition z_array (elem : value -> option value) (max : option nat) (v : value)
  : option value :=
  match v with
  | VArr xs =>
      ys ← mapM elem xs;
      match max with
      | Some n => if (List.length xs <=? n)%nat then Some (VArr ys) else None
      | None => Some (VArr ys)
      end
  | _ => None
  end.

(** [z.number().int().min(0)]. *)
Definition z_count (v : value) : option Z :=
  match v with
  | VNum n => if 0 <=? n then Some n else None
  | _ => None
  end.

Definition min_max (lo hi : nat) (s : string) : bool :=
  (lo <=? String.length s)%nat && (String.length s <=? hi)%nat.

Definition max_length (hi : nat) (s : string) : bool :=
  (String.length s <=? hi)%nat.

Definition TodoPrioritySchema : value -> option value :=
  z_string (fun s => String.eqb s "low" || String.eqb s "medium" || String.eqb s "high").

Definition TodoSchema (v : value) : option value :=
  match v with
  | VObj props =>
      let field := lookup_prop props in
      id' ← z_string zod_uuid (field "id");
      title' ← z_string (min_max 1 200) (field "title");
      description' ← z_default (VStr "") (z_string (max_length 1000)) (field "description");
      completed' ← z_default (VBool false) z_boolean (field "completed");
      createdAt' ← z_string zod_datetime (field "createdAt");
      updatedAt' ← z_string zod_datetime (field "updatedAt");
      dueDate' ← z_optional (z_string zod_date) (field "dueDate");
      priority' ← z_default (VStr "medium") TodoPrioritySchema (field "priority");
      tags' ← z_default (VArr [])
                (z_array (z_string (max_length 50)) (Some 10%nat)) (field "tags");
      Some (VObj ([ ("id", id'); ("title", title'); ("description", description');
                    ("completed", completed'); ("createdAt", createdAt');
                    ("updatedAt", updatedAt') ]
                  ++ (if has_key props "dueDate" then [("dueDate", dueDate')] else [])
                  ++ [ ("priority", priority'); ("tags", tags') ]))
  | _ => None
  end.

Definition MetadataSchema (v : value) : option Metadata :=
  match v with
  | VObj props =>
      let field := lookup_prop props in
      version' ← z_default (VStr "1.0.0") (z_string (fun _ => true)) (field "version");
      lastModified' ← z_string zod_datetime (field "lastModified");
      totalCount' ← z_count (field "totalCount");
      completedCount' ← z_count (field "completedCount");
      match version', lastModified' with
      | VStr ver, VStr lm => Some (mkMetadata ver lm totalCount' completedCount')
      | _, _ => None
      end
  | _ => None
  end.

Definition TodoListSchema (v : value) : option TodoList :=
  match v with
  | VObj props =>
      todos' ← z_default (VArr []) (z_array TodoSchema None) (lookup_prop props "todos");
      metadata' ← MetadataSchema (lookup_prop props "metadata");
      match todos' with
      | VArr ts => Some (mkTodoList ts metadata')
      | _ => None
      end
  | _ => None
  end.

(** [CreateTodoInputSchema.parse(input)]: every field but [title] is
    optional, and an optional key appears in the output when it is a key of
    the input. *)
Definition CreateTodoInputSchema (v : value) : option value :=
  match v with
  | VObj props =>
      let field := lookup_prop props in
      title' ← z_string (min_max 1 200) (field "title");
      description' ← z_optional (z_string (max_length 1000)) (field "description");
      dueDate' ← z_optional (z_string zod_date) (field "dueDate");
      priority' ← z_optional TodoPrioritySchema (field "priority");
      tags' ← z_optional (z_array (z_string (max_length 50)) (Some 10%nat)) (field "tags");
      Some (VObj ([ ("title", title') ]
                  ++ (if has_key props "description"
                      then [("description", description')] else [])
                  ++ (if has_key props "dueDate" then [("dueDate", dueDate')] else [])
                  ++ (if has_key props "priority" then [("priority", priority')] else [])
                  ++ (if has_key props "tags" then [("tags", tags')] else [])))
  | _ => None
  end.

End Schemas.

(** ** errors.ts: the error classes

    Only what callers can observe through [instanceof], [message] and [code]
    is kept; the [details], [timestamp] and [requestId] fields are left out,
    and so are the calls to [logger], which only print. *)
Inductive FileOperation := op_read | op_write | op_backup.

Inductive error : Type :=
| StorageError (message : string)
| FileError (message : string) (operation : FileOperation) (path : string)
| ValidationError (message : string)
| NotFoundError (resource identifier : string)
| SystemError (code : option string) (message : string)
| SyntaxError (message : string)
| TypeError (message : string)
| Error (message : string).

(** [SystemError] is what a rejected [fs] promise carries (a Node
    [ErrnoException]); [SyntaxError] comes from [JSON.parse], [TypeError]
    from reading a property of [null] or [undefined], and [Error] is a plain
    [new Error(message)]. *)
Definition error_message (e : error) : string :=
  match e with
  | StorageError m | FileError m _ _ | ValidationError m
  | SystemError _ m | SyntaxError m | TypeError m | Error m => m
  | NotFoundError resource identifier => resource +:+ " not found: " +:+ identifier
  end.

(** [(error as NodeJS.ErrnoException).code]: the [ErrorCode] of a
    [TodoError], the errno of a file-system error, [undefined] otherwise. *)
Definition error_code (e : error) : option string :=
  match e with
  | StorageError _ => Some "STORAGE_ERROR"
  | FileError _ op_read _ => Some "FILE_READ_ERROR"
  | FileError _ op_write _ => Some "FILE_WRITE_ERROR"
  | FileError _ op_backup _ => Some "BACKUP_ERROR"
  | ValidationError _ => Some "VALIDATION_ERROR"
  | NotFoundError resource _ =>
      Some (if String.eqb resource "todo" then "TODO_NOT_FOUND" else "RESOURCE_NOT_FOUND")
  | SystemError code _ => code
  | SyntaxError _ | TypeError _ | Error _ => None
  end.

(** [error.code === c] *)
Definition has_code (e : error) (c : string) : bool :=
  match error_code e with
  | Some c' => String.eqb c' c
  | None => false
  end.

Definition is_StorageError (e : error) : bool :=
  match e with StorageError _ => true | _ => false end.
Definition is_ValidationError (e : error) : bool :=
  match e with ValidationError _ => true | _ => false end.
Definition is_NotFoundError (e : error) : bool :=
  match e with NotFoundError _ _ => true | _ => false end.
Definition is_FileError (e : error) : bool :=
  match e with FileError _ _ _ => true | _ => false end.

(** ** The world outside the store

    A file holds text.  The text is kept as the value it denotes
    ([JsonText v] is any text that [JSON.parse] maps to [v]) or, when it is
    not JSON, as the message of the [SyntaxError] that [JSON.parse] raises on
    it.  Every call into [fs] consumes one entry of [faults]: [Some f] makes
    the call fail with [f], [None] (or an exhausted list) lets it go through.
    [sleeps] records the delays passed to [setTimeout], oldest first. *)
Inductive file :=
| JsonText (v : value)
| BadText (syntax_error : string).

Record io_fault := mkFault { errno : option string; fault_message : string }.

Record World := mkWorld {
  fs : gmap string file;
  faults : list (option io_fault);
  ticks : nat;
  uuids : nat;
  sleeps : list Z
}.

(** The fields of a [TodoStorage] instance. *)
Record TodoStorage := mkTodoStorage {
  filePath : string;
  data : TodoList;
  isInitialized : bool
}.

Record State := mkState { this : TodoStorage; world : World }.

(** ** Computations: state threading with exceptions

    An [async] method is run to completion before the next one starts (the
    store relies on its callers for that), so [await] is sequencing.  A
    thrown error keeps the state reached so far. *)
Inductive outcome (A : Type) :=
| Return (a : A)
| Throw (e : error).
Arguments Return {A} a.
Arguments Throw {A} e.

Definition M (A : Type) : Type := State -> outcome A * State.

Definition ret {A} (a : A) : M A := fun s => (Return a, s).
Definition throw {A} (e : error) : M A := fun s => (Throw e, s).
Definition bind {A B} (m : M A) (k : A -> M B) : M B :=
  fun s => match m s with
           | (Return a, s') => k a s'
           | (Throw e, s') => (Throw e, s')
           end.
Definition try_catch {A} (m : M A) (handler : error -> M A) : M A :=
  fun s => match m s with
           | (Return a, s') => (Return a, s')
           | (Throw e, s') => handler e s'
           end.

Declare Scope js_scope.
Delimit Scope js_scope with js.
Notation "x <- m ;; k" := (bind m (fun x => k))
  (at level 20, m at level 99, k at level 200, only parsing) : js_scope.
Notation "m ;; k" := (bind m (fun _ => k))
  (at level 100, k at level 200, only parsing, right associativity) : js_scope.
Bind Scope js_scope with M.
Local Open Scope js_scope.

Definition get_this : M TodoStorage := fun s => (Return (this s), s).
Definition get_world : M World := fun s => (Return (world s), s).
Definition put_this (t : TodoStorage) : M unit :=
  fun s => (Return tt, mkState t (world s)).
Definition put_world (w : World) : M unit :=
  fun s => (Return tt, mkState (this s) w).

(** [this.data = d] and [this.isInitialized = b]. *)
Definition set_data (d : TodoList) : M unit :=
  t <- get_this ;; put_this (mkTodoStorage (filePath t) d (isInitialized t)).
Definition set_isInitialized (b : bool) : M unit :=
  t <- get_this ;; put_this (mkTodoStorage (filePath t) (data t) b).

(** [v.k], throwing the [TypeError] of V8 on [null] and [undefined]. *)
Definition prop (v : value) (k : string) : M value :=
  match get_prop v k with
  | Some x => ret x
  | None =>
      throw (TypeError ("Cannot read properties of " +:+ to_string v +:+
                        " (reading '" +:+ k +:+ "')"))
  end.

(** [Array.prototype.map] with an effectful callback. *)
Fixpoint mapM' {A B} (f : A -> M B) (l : list A) : M (list B) :=
  match l with
  | [] => ret []
  | x :: rest => y <- f x ;; ys <- mapM' f rest ;; ret (y :: ys)
  end.

(** *** The file system and the timer *)

Definition next_fault (w : World) : option io_fault * World :=
  match faults w with
  | [] => (None, w)
  | f :: rest => (f, mkWorld (fs w) rest (ticks w) (uuids w) (sleeps w))
  end.

Definition fault_error (f : io_fault) : error :=
  SystemError (errno f) (fault_message f).

(** [fs.mkdir(dir, { recursive: true })]; directories are not tracked. *)
Definition mkdir (dir : string) : M unit :=
  w <- get_world ;;
  let '(f, w') := next_fault w in
  put_world w' ;;
  match f with
  | Some f => throw (fault_error f)
  | None => ret tt
  end.

(** [fs.readFile(path, 'utf-8')]. *)
Definition readFile (path : string) : M file :=
  w <- get_world ;;
  let '(f, w') := next_fault w in
  put_world w' ;;
  match f with
  | Some f => throw (fault_error f)
  | None =>
      match fs w' !! path with
      | Some content => ret content
      | None =>
          throw (SystemError (Some "ENOENT")
                   ("ENOENT: no such file or directory, open '" +:+ path +:+ "'"))
      end
  end.

(** [fs.writeFile(path, text, 'utf-8')]. *)
Definition writeFile (path : string) (content : file) : M unit :=
  w <- get_world ;;
  let '(f, w') := next_fault w in
  match f with
  | Some f => put_world w' ;; throw (fault_error f)
  | None =>
      put_world (mkWorld (<[path := content]> (fs w')) (faults w')
                   (ticks w') (uuids w') (sleeps w'))
  end.

(** [await new Promise(resolve => setTimeout(resolve, delay))]. *)
Definition sleep (delay : Z) : M unit :=
  w <- get_world ;;
  put_world (mkWorld (fs w) (faults w) (ticks w) (uuids w) (sleeps w ++ [delay])).

(** [JSON.parse(text)] and [JSON.stringify(v, null, 2)]. *)
Definition JSON_parse (text : file) : M value :=
  match text with
  | JsonText v => ret v
  | BadText msg => throw (SyntaxError msg)
  end.

Definition JSON_stringify (v : value) : file := JsonText (json_roundtrip v).

(** ** types.ts: class [TodoUtils] *)

Module Stats.
(** The result of [TodoUtils.getStats].  [byPriority] is an object indexed
    by whatever [todo.priority] converts to; a counter that is [NaN] is
    [None]. *)
Record t := mk {
  total : Z;
  completed : Z;
  overdue : Z;
  byPriority : list (string * option Z)
}.

Fixpoint counter (counters : list (string * option Z)) (k : string)
  : option (option Z) :=
  match counters with
  | [] => None
  | (k', n) :: rest => if String.eqb k' k then Some n else counter rest k
  end.

Fixpoint set_counter (counters : list (string * option Z)) (k : string)
  (n : option Z) : list (string * option Z) :=
  match counters with
  | [] => [(k, n)]
  | (k', n') :: rest =>
      if String.eqb k' k then (k, n) :: rest else (k', n') :: set_counter rest k n
  end.

(** [counters[k]++]: a missing counter is [undefined], and
    [undefined + 1] is [NaN]. *)
Definition increment (counters : list (string * option Z)) (k : string)
  : list (string * option Z) :=
  set_counter counters k
    match counter counters k with
    | Some (Some n) => Some (n + 1)
    | Some None | None => None
    end.

End Stats.

Module TodoUtils.
Section WithRuntime.
Context {RT : Runtime}.

(** [new Date()], as a time value. *)
Definition Date_now : M Z :=
  w <- get_world ;;
  put_world (mkWorld (fs w) (faults w) (S (ticks w)) (uuids w) (sleeps w)) ;;
  ret (clock (ticks w)).

(** [new Date(v).getTime()], [None] for an invalid date. *)
Definition Date_of (v : value) : option Z :=
  match v with
  | VStr s => Date_parse s
  | VNum n => if Z.abs n <=? 8640000000000000 then Some n else None
  | VBool b => Some (if b then 1 else 0)
  | VNull => Some 0
  | VUndefined => None
  | VArr _ | VObj _ => Date_parse (to_string v)
  end.

Definition generateId : M string :=
  w <- get_world ;;
  put_world (mkWorld (fs w) (faults w) (ticks w) (S (uuids w)) (sleeps w)) ;;
  ret (randomUUID (uuids w)).

Definition getCurrentTimestamp : M string :=
  now <- Date_now ;; ret (toISOString now).

(** [{ ...existingTodo, ...updates, updatedAt: this.getCurrentTimestamp() }] *)
Definition updateTodo (existingTodo updates : value) : M value :=
  let merged := assign_all (own_props existingTodo) (own_props updates) in
  now <- getCurrentTimestamp ;;
  ret (VObj (set_prop merged "updatedAt" (VStr now))).

(** [!!(todo.dueDate && new Date(todo.dueDate) < new Date() && !todo.completed)] *)
Definition isOverdue (todo : value) : M bool :=
  due <- prop todo "dueDate" ;;
  if truthy due then
    let d := Date_of due in
    now <- Date_now ;;
    if match d with Some t => t <? now | None => false end then
      c <- prop todo "completed" ;;
      ret (negb (truthy c))
    else ret false
  else ret false.

(** The body of the [forEach] callback of [getStats]. *)
Definition count_todo (stats : Stats.t) (todo : value) : M Stats.t :=
  c <- prop todo "completed" ;;
  let completed' :=
    if truthy c then Stats.completed stats + 1 else Stats.completed stats in
  late <- isOverdue todo ;;
  let overdue' := if late then Stats.overdue stats + 1 else Stats.overdue stats in
  p <- prop todo "priority" ;;
  ret (Stats.mk (Stats.total stats) completed' overdue'
         (Stats.increment (Stats.byPriority stats) (to_string p))).

Fixpoint forEach (todos : list value) (stats : Stats.t) : M Stats.t :=
  match todos with
  | [] => ret stats
  | todo :: rest => stats' <- count_todo stats todo ;; forEach rest stats'
  end.

Definition getStats (todos : list value) : M Stats.t :=
  forEach todos
    (Stats.mk (Z.of_nat (List.length todos)) 0 0
       [("low", Some 0); ("medium", Some 0); ("high", Some 0)]).

(** [TodoSchema.parse(input)], [None] when it throws. *)
Definition validateTodo (input : value) : option value := TodoSchema input.

(** [createTodo]: the timestamp is taken first, then the properties of the
    object literal are evaluated in order, the identifier before the reads
    of [input]. *)
Definition createTodo (input : value) : M value :=
  now <- getCurrentTimestamp ;;
  id' <- generateId ;;
  title' <- prop input "title" ;;
  description' <- prop input "description" ;;
  dueDate' <- prop input "dueDate" ;;
  priority' <- prop input "priority" ;;
  tags' <- prop input "tags" ;;
  ret (VObj [ ("id", VStr id');
              ("title", title');
              ("description", or_else description' (VStr ""));
              ("completed", VBool false);
              ("createdAt", VStr now);
              ("updatedAt", VStr now);
              ("dueDate", dueDate');
              ("priority", or_else priority' (VStr "medium"));
              ("tags", or_else tags' (VArr [])) ]).

(** [CreateTodoInputSchema.parse(input)], [None] when it throws. *)
Definition validateCreateInput (input : value) : option value :=
  CreateTodoInputSchema input.

End WithRuntime.
End TodoUtils.

(** ** errors.ts: class [RetryHandler] *)

Module RetryHandler.

(** The statement after the loop of [withRetry]. *)
Definition fail_after {T} (maxRetries : nat) (lastError : option error) : M T :=
  match lastError with
  | Some e =>
      throw (StorageError ("Operation failed after " +:+ string_of_nat maxRetries +:+
                           " attempts: " +:+ error_message e))
  | None =>
      throw (TypeError "Cannot read properties of undefined (reading 'message')")
  end.

(** The loop [for (let attempt = 1; attempt <= maxRetries; attempt++)],
    entered with [remaining = maxRetries - attempt + 1] iterations to go. *)
Fixpoint attempts {T} (operation : M T) (maxRetries : nat) (delayMs : Z)
  (remaining attempt : nat) (lastError : option error) : M T :=
  match remaining with
  | O => fail_after maxRetries lastError
  | S remaining' =>
      try_catch operation (fun error =>
        if is_ValidationError error || is_NotFoundError error then throw error
        else if (attempt =? maxRetries)%nat then fail_after maxRetries (Some error)
        else
          sleep (delayMs * 2 ^ (Z.of_nat attempt - 1)) ;;
          attempts operation maxRetries delayMs remaining' (S attempt) (Some error))
  end.

Definition withRetry {T} (operation : M T) (maxRetries : nat) (delayMs : Z) : M T :=
  attempts operation maxRetries delayMs maxRetries 1 None.

End RetryHandler.

(** ** storage.ts: class [TodoStorage] *)

(** [s.replace(pattern, replacement)] with a string pattern: the first
    occurrence only.  (The replacement built by [createBackup] holds no [$]
    pattern.) *)
Fixpoint replace_first (pattern replacement s : string) : string :=
  if String.prefix pattern s then
    replacement +:+
    String.substring (String.length pattern)
      (String.length s - String.length pattern) s
  else
    match s with
    | EmptyString => EmptyString
    | String c rest => String c (replace_first pattern replacement rest)
    end.

(** [s.replace(/[:.]/g, '-')] *)
Fixpoint replace_colons_dots (s : string) : string :=
  match s with
  | EmptyString => EmptyString
  | String c rest =>
      String (if Ascii.eqb c ":" || Ascii.eqb c "." then "-"%char else c)
        (replace_colons_dots rest)
  end.

(** [Object.keys(v)], evaluated for a log entry: it throws on [null] and
    [undefined]. *)
Definition Object_keys (v : value) : M (list string) :=
  match v with
  | VUndefined | VNull => throw (TypeError "Cannot convert undefined or null to object")
  | _ => ret (map fst (own_props v))
  end.

(** Index of the first element satisfying an effectful predicate
    ([Array.prototype.findIndex]); the predicate is not run past a match. *)
Fixpoint findIndexM {A} (p : A -> M bool) (l : list A) (i : nat) : M (option nat) :=
  match l with
  | [] => ret None
  | x :: rest =>
      b <- p x ;;
      if b then ret (Some i) else findIndexM p rest (S i)
  end.

(** [Array.prototype.filter] with an effectful predicate. *)
Fixpoint filterM {A} (p : A -> M bool) (l : list A) : M (list A) :=
  match l with
  | [] => ret []
  | x :: rest =>
      b <- p x ;;
      ys <- filterM p rest ;;
      ret (if b then x :: ys else ys)
  end.

(** ** types.ts: [TodoUtils.filterTodos] and the comparator of [TodoUtils.sortTodos] *)

Module Filter.
(** A [TodoFilter], as [TodoFilterSchema] types it: every criterion is
    optional. *)
Record t := mk {
  completed : option bool;
  priority : option TodoPriority;
  overdue : option bool;
  tags : option (list string)
}.
End Filter.

(** [Array.prototype.some] with an effectful predicate; it stops at the
    first element that satisfies it. *)
Fixpoint someM {A} (p : A -> M bool) (l : list A) : M bool :=
  match l with
  | [] => ret false
  | x :: rest => b <- p x ;; if b then ret true else someM p rest
  end.

(** [v.includes(tag)] for a string [tag]: membership in an array, substring
    of a string, and a [TypeError] on anything else. *)
Definition includes (v : value) (tag : string) : M bool :=
  match v with
  | VArr xs => ret (existsb (fun x => strict_eq x (VStr tag)) xs)
  | VStr s =>
      ret ((fix occurs_in (s : string) : bool :=
              String.prefix tag s ||
              match s with
              | EmptyString => false
              | String _ rest => occurs_in rest
              end) s)
  | VUndefined | VNull =>
      throw (TypeError ("Cannot read properties of " +:+ to_string v +:+
                        " (reading 'includes')"))
  | VBool _ | VNum _ | VObj _ =>
      throw (TypeError "todo.tags.includes is not a function")
  end.

Module TodoLists.
Section WithRuntime.
Context {RT : Runtime}.

(** The callback of [todos.filter] in [filterTodos].  The overdue test is
    the expression of [TodoUtils.isOverdue], written out a second time in
    the source. *)
Definition keeps (filter : Filter.t) (todo : value) : M bool :=
  completed_ok <-
    match Filter.completed filter with
    | Some wanted => c <- prop todo "completed" ;; ret (strict_eq c (VBool wanted))
    | None => ret true
    end ;;
  if negb completed_ok then ret false else
  priority_ok <-
    match Filter.priority filter with
    | Some wanted =>
        p <- prop todo "priority" ;; ret (strict_eq p (VStr (priority_name wanted)))
    | None => ret true
    end ;;
  if negb priority_ok then ret false else
  overdue_ok <-
    match Filter.overdue filter with
    | Some wanted => late <- TodoUtils.isOverdue todo ;; ret (Bool.eqb wanted late)
    | None => ret true
    end ;;
  if negb overdue_ok then ret false else
  match Filter.tags filter with
  | Some (first :: others) =>
      someM (fun tag => ts <- prop todo "tags" ;; includes ts tag) (first :: others)
  | Some [] | None => ret true
  end.

Definition filterTodos (todos : list value) (filter : Filter.t) : M (list value) :=
  filterM (keeps filter) todos.

(** [priorityOrder[p]] *)
Definition priorityOrder (p : TodoPriority) : Z :=
  match p with high => 3 | medium => 2 | low => 1 end.

(** [t.dueDate] when it is truthy. *)
Definition due (t : Todo) : option string :=
  match dueDate t with
  | Some d => if String.eqb d "" then None else Some d
  | None => None
  end.

(** [new Date(x).getTime() - new Date(y).getTime()], [None] for [NaN]. *)
Definition time_difference (x y : string) : option Z :=
  match Date_parse x, Date_parse y with
  | Some a, Some b => Some (a - b)
  | _, _ => None
  end.

(** The comparator that [sortTodos] passes to [Array.prototype.sort], on
    well-typed todos; [None] is [NaN]. *)
Definition sortTodos_compare (a b : Todo) : option Z :=
  if negb (Bool.eqb (completed a) (completed b)) then
    Some (if completed a then 1 else -1)
  else
    let priorityDiff := priorityOrder (priority b) - priorityOrder (priority a) in
    if negb (priorityDiff =? 0) then Some priorityDiff
    else
      match due a, due b with
      | Some da, Some db => time_difference da db
      | Some _, None => Some (-1)
      | None, Some _ => Some 1
      | None, None => time_difference (createdAt b) (createdAt a)
      end.

End WithRuntime.
End TodoLists.

Module TodoStorage.
Section WithRuntime.
Context {RT : Runtime}.

(** [new TodoStorage(filePath)], built in world [w]: the constructor reads
    the clock once. *)
Definition constructor (filePath : string) (w : World) : State :=
  mkState
    (mkTodoStorage filePath
       (mkTodoList [] (mkMetadata "1.0.0" (toISOString (clock (ticks w))) 0 0))
       false)
    (mkWorld (fs w) (faults w) (S (ticks w)) (uuids w) (sleeps w)).

Definition ensureInitialized : M unit :=
  t <- get_this ;;
  if isInitialized t then ret tt
  else throw (StorageError "Storage not initialized. Call initialize() first.").

Definition updateMetadata : M unit :=
  t <- get_this ;;
  stats <- TodoUtils.getStats (todos (data t)) ;;
  now <- TodoUtils.getCurrentTimestamp ;;
  set_data (mkTodoList (todos (data t))
              (mkMetadata (version (metadata (data t))) now
                 (Stats.total stats) (Stats.completed stats))).

Definition saveToFile : M unit :=
  try_catch
    (updateMetadata ;;
     t <- get_this ;;
     let jsonData := JSON_stringify (TodoList_to_value (data t)) in
     RetryHandler.withRetry (writeFile (filePath t) jsonData) 3 500)
    (fun error =>
       t <- get_this ;;
       throw (FileError ("Failed to save todos to file: " +:+ error_message error)
                op_write (filePath t))).

(** [todo => todo.completed], as a predicate. *)
Definition is_completed (todo : value) : M bool :=
  c <- prop todo "completed" ;; ret (truthy c).

(** The callback of [rawData.map] in the array migration. *)
Definition migrate_element (todo : value) : M value :=
  i <- prop todo "id" ;;
  id' <- (if truthy i then ret i else g <- TodoUtils.generateId ;; ret (VStr g)) ;;
  ti <- prop todo "title" ;;
  de <- prop todo "description" ;;
  co <- prop todo "completed" ;;
  cr <- prop todo "createdAt" ;;
  createdAt' <- (if truthy cr then ret cr
                 else now <- TodoUtils.getCurrentTimestamp ;; ret (VStr now)) ;;
  up <- prop todo "updatedAt" ;;
  updatedAt' <- (if truthy up then ret up
                 else now <- TodoUtils.getCurrentTimestamp ;; ret (VStr now)) ;;
  du <- prop todo "dueDate" ;;
  pr <- prop todo "priority" ;;
  ta <- prop todo "tags" ;;
  ret (VObj [ ("id", id');
              ("title", or_else ti (VStr "Untitled"));
              ("description", or_else de (VStr ""));
              ("completed", VBool (truthy co));
              ("createdAt", createdAt');
              ("updatedAt", updatedAt');
              ("dueDate", or_else du VUndefined);
              ("priority", or_else pr (VStr "medium"));
              ("tags", match ta with VArr _ => ta | _ => VArr [] end) ]).

(** [migrateData].  In both migrations [migratedData] is assigned to
    [this.data] before [saveToFile] runs, so the object returned is the one
    whose [metadata] field [updateMetadata] has just replaced: the result is
    read back from [this.data]. *)
Definition migrateData (rawData : value) : M TodoList :=
  match rawData with
  | VArr elements =>
      try_catch
        (todos' <- mapM' migrate_element elements ;;
         now <- TodoUtils.getCurrentTimestamp ;;
         completed' <- filterM is_completed elements ;;
         set_data (mkTodoList todos'
                     (mkMetadata "1.0.0" now (Z.of_nat (List.length elements))
                        (Z.of_nat (List.length completed')))) ;;
         saveToFile ;;
         t <- get_this ;;
         ret (data t))
        (fun _ => throw (ValidationError "Failed to migrate array format data"))
  | _ =>
      todos0 <- prop rawData "todos" ;;
      metadata0 <- (if truthy todos0 then prop rawData "metadata" else ret VUndefined) ;;
      if truthy todos0 && negb (truthy metadata0) then
        try_catch
          (now <- TodoUtils.getCurrentTimestamp ;;
           match todos0 with
           | VArr elements =>
               completed' <- filterM is_completed elements ;;
               set_data (mkTodoList elements
                           (mkMetadata "1.0.0" now (Z.of_nat (List.length elements))
                              (Z.of_nat (List.length completed')))) ;;
               saveToFile ;;
               t <- get_this ;;
               ret (data t)
           | _ => throw (TypeError "rawData.todos.filter is not a function")
           end)
          (fun _ => throw (ValidationError "Failed to add metadata to existing todo data"))
      else
        throw (ValidationError "Unable to migrate todo data - unsupported format")
  end.

Definition validateAndMigrate (rawData : value) : M TodoList :=
  match TodoListSchema rawData with
  | Some validated => ret validated
  | None => migrateData rawData
  end.

Definition loadFromFile : M unit :=
  t <- get_this ;;
  fileContent <- readFile (filePath t) ;;
  rawData <- try_catch (JSON_parse fileContent)
               (fun _ => throw (FileError "Invalid JSON in storage file"
                                  op_read (filePath t))) ;;
  validatedData <- validateAndMigrate rawData ;;
  set_data validatedData.

Definition initialize : M unit :=
  try_catch
    (t <- get_this ;;
     mkdir (dirname (filePath t)) ;;
     try_catch
       (loadFromFile ;; set_isInitialized true)
       (fun error =>
          if has_code error "ENOENT" then
            saveToFile ;; set_isInitialized true
          else
            RetryHandler.withRetry loadFromFile 3 1000 ;;
            set_isInitialized true))
    (fun error =>
       throw (StorageError ("Failed to initialize storage: " +:+ error_message error))).

(** [todo => todo.id === id] *)
Definition has_id (id : value) (todo : value) : M bool :=
  i <- prop todo "id" ;; ret (strict_eq i id).

Definition getAllTodos : M (list value) :=
  ensureInitialized ;;
  t <- get_this ;;
  ret (todos (data t)).

Definition getTodoById (id : string) : M value :=
  ensureInitialized ;;
  t <- get_this ;;
  found <- findIndexM (has_id (VStr id)) (todos (data t)) 0 ;;
  match found with
  | Some i => ret (or_else (List.nth i (todos (data t)) VUndefined) VNull)
  | None => ret VNull
  end.

Definition addTodo (todo : value) : M value :=
  ensureInitialized ;;
  match TodoUtils.validateTodo todo with
  | Some _ => ret tt
  | None => _ <- prop todo "id" ;; throw (ValidationError "Invalid todo data")
  end ;;
  id <- prop todo "id" ;;
  t <- get_this ;;
  found <- findIndexM (has_id id) (todos (data t)) 0 ;;
  match found with
  | Some _ =>
      throw (ValidationError ("Todo with ID " +:+ to_string id +:+ " already exists"))
  | None =>
      set_data (mkTodoList (todos (data t) ++ [todo]) (metadata (data t))) ;;
      saveToFile ;;
      ret todo
  end.

Definition updateTodo (id : string) (updates : value) : M value :=
  ensureInitialized ;;
  t <- get_this ;;
  found <- findIndexM (has_id (VStr id)) (todos (data t)) 0 ;;
  match found with
  | None => throw (NotFoundError "todo" id)
  | Some todoIndex =>
      let existingTodo := List.nth todoIndex (todos (data t)) VUndefined in
      updatedTodo <- TodoUtils.updateTodo existingTodo updates ;;
      match TodoUtils.validateTodo updatedTodo with
      | Some _ => ret tt
      | None =>
          _ <- Object_keys updates ;;
          throw (ValidationError "Updated todo data is invalid")
      end ;;
      set_data (mkTodoList (<[todoIndex := updatedTodo]> (todos (data t)))
                  (metadata (data t))) ;;
      saveToFile ;;
      _ <- Object_keys updates ;;
      ret updatedTodo
  end.

Definition deleteTodo (id : string) : M bool :=
  ensureInitialized ;;
  t <- get_this ;;
  found <- findIndexM (has_id (VStr id)) (todos (data t)) 0 ;;
  match found with
  | None => ret false
  | Some todoIndex =>
      set_data (mkTodoList (List.firstn todoIndex (todos (data t)) ++
                            List.skipn (S todoIndex) (todos (data t)))
                  (metadata (data t))) ;;
      saveToFile ;;
      ret true
  end.

Definition getTodoList : M TodoList :=
  ensureInitialized ;;
  updateMetadata ;;
  t <- get_this ;;
  ret (data t).

Definition clearAllTodos : M unit :=
  ensureInitialized ;;
  t <- get_this ;;
  set_data (mkTodoList [] (metadata (data t))) ;;
  saveToFile.

Definition getStats : M Stats.t :=
  ensureInitialized ;;
  t <- get_this ;;
  TodoUtils.getStats (todos (data t)).

Definition createBackup : M string :=
  ensureInitialized ;;
  now <- TodoUtils.Date_now ;;
  let timestamp := replace_colons_dots (toISOString now) in
  t <- get_this ;;
  let backupPath :=
    replace_first ".json" ("_backup_" +:+ timestamp +:+ ".json") (filePath t) in
  try_catch
    (let jsonData := JSON_stringify (TodoList_to_value (data t)) in
     writeFile backupPath jsonData ;;
     ret backupPath)
    (fun error => throw (Error ("Failed to create backup: " +:+ error_message error))).

Definition restoreFromBackup (backupPath : string) : M unit :=
  try_catch
    (fileContent <- readFile backupPath ;;
     rawData <- JSON_parse fileContent ;;
     validatedData <- validateAndMigrate rawData ;;
     set_data validatedData ;;
     saveToFile)
    (fun error => throw (Error ("Failed to restore from backup: " +:+ error_message error))).

Definition getFilePath : M string :=
  t <- get_this ;; ret (filePath t).

End WithRuntime.
End TodoStorage.

(** ** A reference platform

    A concrete [Runtime] on which the store can be run: a clock that starts
    on 2026-11-03T00:00:00.000Z and advances by one second per reading,
    ISO-8601 formatting and parsing of UTC dates (years 0000 to 9999),
    identifiers in the 8-4-4-4-12 hexadecimal layout, and the three string
    formats checked by shape. *)
Module Reference.

Definition is_digit (c : ascii) : bool :=
  (48 <=? nat_of_ascii c)%nat && (nat_of_ascii c <=? 57)%nat.

Definition is_hex (c : ascii) : bool :=
  is_digit c
  || ((65 <=? nat_of_ascii c)%nat && (nat_of_ascii c <=? 70)%nat)
  || ((97 <=? nat_of_ascii c)%nat && (nat_of_ascii c <=? 102)%nat).

(** [shape p s]: [s] has the layout [p], where ["d"] stands for a digit,
    ["h"] for a hexadecimal digit and any other character for itself. *)
Fixpoint shape (p s : string) : bool :=
  match p, s with
  | EmptyString, EmptyString => true
  | String pc p', String c s' =>
      (if Ascii.eqb pc "d" then is_digit c
       else if Ascii.eqb pc "h" then is_hex c
       else Ascii.eqb pc c) && shape p' s'
  | _, _ => false
  end.

Fixpoint number (s : string) (acc : Z) : Z :=
  match s with
  | EmptyString => acc
  | String c rest => number rest (10 * acc + Z.of_nat (nat_of_ascii c - 48))
  end.

Definition field (from len : nat) (s : string) : Z :=
  number (String.substring from len s) 0.

Definition is_leap (y : Z) : bool :=
  ((y mod 4 =? 0) && negb (y mod 100 =? 0)) || (y mod 400 =? 0).

Definition days_in_month (y m : Z) : Z :=
  if m =? 2 then (if is_leap y then 29 else 28)
  else if (m =? 4) || (m =? 6) || (m =? 9) || (m =? 11) then 30 else 31.

Definition days_from_civil (y m d : Z) : Z :=
  let y := if m <=? 2 then y - 1 else y in
  let era := y / 400 in
  let yoe := y - era * 400 in
  let doy := (153 * (if 2 <? m then m - 3 else m + 9) + 2) / 5 + d - 1 in
  let doe := yoe * 365 + yoe / 4 - yoe / 100 + doy in
  era * 146097 + doe - 719468.

Definition civil_from_days (z : Z) : Z * Z * Z :=
  let z := z + 719468 in
  let era := z / 146097 in
  let doe := z - era * 146097 in
  let yoe := (doe - doe / 1460 + doe / 36524 - doe / 146096) / 365 in
  let doy := doe - (365 * yoe + yoe / 4 - yoe / 100) in
  let mp := (5 * doy + 2) / 153 in
  let d := doy - (153 * mp + 2) / 5 + 1 in
  let m := if mp <? 10 then mp + 3 else mp - 9 in
  ((if m <=? 2 then yoe + era * 400 + 1 else yoe + era * 400), m, d).

Fixpoint zeros (n : nat) : string :=
  match n with O => "" | S n' => String "0" (zeros n') end.

Definition pad (width : nat) (n : Z) : string :=
  let digits := string_of_Z n in
  zeros (width - String.length digits) +:+ digits.

Definition format_iso (ms : Z) : string :=
  let '(y, m, d) := civil_from_days (ms / 86400000) in
  let r := ms mod 86400000 in
  pad 4 y +:+ "-" +:+ pad 2 m +:+ "-" +:+ pad 2 d +:+ "T" +:+
  pad 2 (r / 3600000) +:+ ":" +:+ pad 2 (r / 60000 mod 60) +:+ ":" +:+
  pad 2 (r / 1000 mod 60) +:+ "." +:+ pad 3 (r mod 1000) +:+ "Z".

Definition valid_date (s : string) : bool :=
  shape "dddd-dd-dd" s &&
  (1 <=? field 5 2 s) && (field 5 2 s <=? 12) &&
  (1 <=? field 8 2 s) && (field 8 2 s <=? days_in_month (field 0 4 s) (field 5 2 s)).

Definition valid_time (s : string) : bool :=
  (shape "dd:dd:ddZ" s || shape "dd:dd:dd.dddZ" s) &&
  (field 0 2 s <=? 23) && (field 3 2 s <=? 59) && (field 6 2 s <=? 59).

Definition is_date (s : string) : bool := valid_date s.

Definition is_datetime (s : string) : bool :=
  valid_date (String.substring 0 10 s) &&
  match String.get 10 s with Some c => Ascii.eqb c "T" | None => false end &&
  valid_time (String.substring 11 (String.length s - 11) s).

Definition is_uuid (s : string) : bool :=
  shape "hhhhhhhh-hhhh-hhhh-hhhh-hhhhhhhhhhhh" s.

(** [Date.parse] on the two ISO layouts the store writes. *)
Definition parse (s : string) : option Z :=
  if is_date s then
    Some (days_from_civil (field 0 4 s) (field 5 2 s) (field 8 2 s) * 86400000)
  else if is_datetime s then
    Some (days_from_civil (field 0 4 s) (field 5 2 s) (field 8 2 s) * 86400000
          + field 11 2 s * 3600000 + field 14 2 s * 60000 + field 17 2 s * 1000
          + (if (String.length s =? 24)%nat then field 20 3 s else 0))
  else None.

Definition uuid (n : nat) : string :=
  "00000000-0000-4000-8000-" +:+ pad 12 (Z.of_nat n).

(** [path.dirname] on a POSIX path without trailing slash. *)
Fixpoint dir_of (s : string) : option string :=
  match s with
  | EmptyString => None
  | String c rest =>
      match dir_of rest with
      | Some d => Some (String c d)
      | None => if Ascii.eqb c "/" then Some EmptyString else None
      end
  end.

Definition posix_dirname (s : string) : string :=
  match dir_of s with
  | Some EmptyString => "/"
  | Some d => d
  | None => "."
  end.

#[export] Instance runtime : Runtime := {|
  clock n := 1793664000000 + 1000 * Z.of_nat n;
  toISOString := format_iso;
  Date_parse := parse;
  Date_parse_empty := eq_refl;
  randomUUID := uuid;
  dirname := posix_dirname;
  zod_uuid := is_uuid;
  zod_datetime := is_datetime;
  zod_date := is_date
|}.

Definition empty_world : World := mkWorld ∅ [] 0 0 [].

End Reference.

(** * The vocabulary of the properties

    Predicates and auxiliary functions in which the properties below are
    stated.  None of them is part of the program. *)

Section Vocabulary.
Context {RT : Runtime}.

(** [only_ticks s s']: nothing changed between [s] and [s'] except that the
    clock may have been read. *)
Definition only_ticks (s s' : State) : Prop :=
  this s' = this s /\
  fs (world s') = fs (world s) /\
  faults (world s') = faults (world s) /\
  uuids (world s') = uuids (world s) /\
  sleeps (world s') = sleeps (world s) /\
  (ticks (world s) <= ticks (world s'))%nat.

(** Number of elements of [l] satisfying [p], as a JavaScript number. *)
Definition count {A} (p : A -> bool) (l : list A) : Z :=
  Z.of_nat (List.length (List.filter p l)).





(** [null] and [undefined] are the values whose properties cannot be read. *)
Definition nullish (v : value) : bool :=
  match v with VUndefined | VNull => true | _ => false end.

(** [todo.completed] is truthy. *)
Definition is_done (todo : value) : bool :=
  match get_prop todo "completed" with Some c => truthy c | None => false end.

(** [todo.dueDate] is truthy: [isOverdue] reads the clock. *)
Definition reads_clock (todo : value) : bool :=
  match get_prop todo "dueDate" with Some d => truthy d | None => false end.

(** The state after [n] more readings of the clock. *)
Definition advance (n : nat) (s : State) : State :=
  mkState (this s)
    (mkWorld (fs (world s)) (faults (world s)) (ticks (world s) + n)
       (uuids (world s)) (sleeps (world s))).

(** Number of clock readings taken by [getStats] on [l]. *)
Fixpoint clock_reads (l : list value) : nat :=
  match l with
  | [] => 0
  | todo :: rest => ((if reads_clock todo then 1 else 0) + clock_reads rest)%nat
  end.

(** The metadata counts agree with the todos held. *)
Definition live_counts (l : TodoList) : Prop :=
  totalCount (metadata l) = Z.of_nat (List.length (todos l)) /\
  completedCount (metadata l) = count is_done (todos l).

(** [this.data] once [updateMetadata] has run in state [s]. *)
Definition refreshed (s : State) : TodoList :=
  let l := todos (data (this s)) in
  mkTodoList l
    (mkMetadata (version (metadata (data (this s))))
       (toISOString (clock (ticks (world s) + clock_reads l)))
       (Z.of_nat (List.length l)) (count is_done l)).

(** The state after [this.data = d]. *)
Definition with_data (d : TodoList) (s : State) : State :=
  mkState (mkTodoStorage (filePath (this s)) d (isInitialized (this s))) (world s).

(** [steady s s']: the store still has its path and its [isInitialized]
    flag, if no fault was pending none is now, and the clock and the
    identifier generator have only moved forward. *)
Definition steady (s s' : State) : Prop :=
  filePath (this s') = filePath (this s) /\
  isInitialized (this s') = isInitialized (this s) /\
  (faults (world s) = [] -> faults (world s') = []) /\
  (ticks (world s) <= ticks (world s'))%nat /\
  (uuids (world s) <= uuids (world s'))%nat.

(** Every run of [m] relates its initial and final states by [steady]. *)
Definition preserves {A} (m : M A) : Prop :=
  forall s r s', m s = (r, s') -> steady s s'.

(** A saved list: what [saveToFile] has just written from memory. *)
Definition saved (v : TodoList) (s : State) : Prop :=
  v = data (this s) /\
  Forall (fun x => nullish x = false) (todos v) /\
  live_counts v /\
  fs (world s) !! filePath (this s) = Some (JSON_stringify (TodoList_to_value v)).

(** The error thrown by [ensureInitialized]. *)
Definition not_initialized : error :=
  StorageError "Storage not initialized. Call initialize() first.".

(** The nine operations that begin with [this.ensureInitialized()] all fail
    in state [s], leaving it as it is. *)
Definition guarded_operations_fail {RT : Runtime} (s : State) : Prop :=
  TodoStorage.getAllTodos s = (Throw not_initialized, s) /\
  (forall id, TodoStorage.getTodoById id s = (Throw not_initialized, s)) /\
  (forall todo, TodoStorage.addTodo todo s = (Throw not_initialized, s)) /\
  (forall id updates, TodoStorage.updateTodo id updates s = (Throw not_initialized, s)) /\
  (forall id, TodoStorage.deleteTodo id s = (Throw not_initialized, s)) /\
  TodoStorage.clearAllTodos s = (Throw not_initialized, s) /\
  TodoStorage.getStats s = (Throw not_initialized, s) /\
  TodoStorage.getTodoList s = (Throw not_initialized, s) /\
  TodoStorage.createBackup s = (Throw not_initialized, s).

(** The [id] of a stored element, when it is a string. *)
Definition id_string (v : value) : option string :=
  match get_prop v "id" with Some (VStr i) => Some i | _ => None end.

(** The string identifiers held, in storage order. *)
Definition id_strings (l : list value) : list string := omap id_string l.

(** No two stored todos share an identifier. *)
Definition unique_ids (l : list value) : Prop := NoDup (id_strings l).

(** The store after a sequence of [addTodo] calls, results ignored. *)
Fixpoint run_adds {RT : Runtime} (calls : list value) (s : State) : State :=
  match calls with
  | [] => s
  | todo :: rest => run_adds rest (snd (TodoStorage.addTodo todo s))
  end.

(** The state once the next [n] pending faults have been consumed and the
    delays [ds] have been slept. *)
Definition after_faults (n : nat) (ds : list Z) (s : State) : State :=
  mkState (this s)
    (mkWorld (fs (world s)) (skipn n (faults (world s))) (ticks (world s))
       (uuids (world s)) (sleeps (world s) ++ ds)).

(** [this.isInitialized = true] *)
Definition initialized (s : State) : State :=
  mkState (mkTodoStorage (filePath (this s)) (data (this s)) true) (world s).

(** [pattern] occurs somewhere in [s]. *)
Fixpoint occurs (pattern s : string) : bool :=
  String.prefix pattern s ||
  match s with
  | EmptyString => false
  | String _ rest => occurs pattern rest
  end.

(** [x.k] on an element whose properties can be read; a missing property
    reads as [undefined]. *)
Definition read (x : value) (k : string) : value :=
  match get_prop x k with Some v => v | None => VUndefined end.

(** [y] is the element [x] coerced into a full todo.  An [id] that is
    missing (or otherwise falsy) is replaced by an identifier generated
    during the migration, the [n]-th of the generator for some
    [u0 <= n < u1]; a missing [title] by ["Untitled"]; a missing
    [description] by the empty string; [completed] is the truthiness of what
    was there; missing [createdAt] and [updatedAt] are replaced by a
    timestamp read from the clock during the migration; a missing
    [dueDate] stays [undefined]; a missing [priority] becomes ["medium"];
    [tags] is kept if it is an array and is the empty array otherwise. *)
Definition coerced (u0 u1 k0 k1 : nat) (x y : value) : Prop :=
  exists id' createdAt' updatedAt',
    y = VObj [ ("id", id');
               ("title", or_else (read x "title") (VStr "Untitled"));
               ("description", or_else (read x "description") (VStr ""));
               ("completed", VBool (truthy (read x "completed")));
               ("createdAt", createdAt');
               ("updatedAt", updatedAt');
               ("dueDate", or_else (read x "dueDate") VUndefined);
               ("priority", or_else (read x "priority") (VStr "medium"));
               ("tags", match read x "tags" with
                        | VArr _ => read x "tags"
                        | _ => VArr []
                        end) ] /\
    (if truthy (read x "id") then id' = read x "id"
     else exists n, (u0 <= n < u1)%nat /\ id' = VStr (randomUUID n)) /\
    (if truthy (read x "createdAt") then createdAt' = read x "createdAt"
     else exists k, (k0 <= k < k1)%nat /\ createdAt' = VStr (toISOString (clock k))) /\
    (if truthy (read x "updatedAt") then updatedAt' = read x "updatedAt"
     else exists k, (k0 <= k < k1)%nat /\ updatedAt' = VStr (toISOString (clock k))).

(** What one run of the [map] callback changes: the two counters. *)
Definition counters_moved (s s' : State) : Prop :=
  this s' = this s /\
  fs (world s') = fs (world s) /\
  faults (world s') = faults (world s) /\
  sleeps (world s') = sleeps (world s) /\
  (ticks (world s) <= ticks (world s'))%nat /\
  (uuids (world s) <= uuids (world s'))%nat.

(** Position of the first element of [l] whose [id] is the string [id]. *)
Fixpoint index_of (id : string) (l : list value) : option nat :=
  match l with
  | [] => None
  | v :: rest =>
      match id_string v with
      | Some j => if String.eqb j id then Some 0%nat else option_map S (index_of id rest)
      | None => option_map S (index_of id rest)
      end
  end.

(** [l] without its element at position [i]. *)
Definition without (i : nat) (l : list value) : list value :=
  List.firstn i l ++ List.skipn (S i) l.




(** [reads_only m]: a run of [m] changes nothing, except that it may read
    the clock. *)
Definition reads_only {A} (m : M A) : Prop :=
  forall s r s', m s = (r, s') -> only_ticks s s'.

(** Every stored element passes [TodoSchema]. *)
Definition all_valid (l : list value) : Prop :=
  Forall (fun v => TodoUtils.validateTodo v <> None) l.

End Vocabulary.

(** * Sample data for the concrete instances *)

Module Sample.

Definition stamp : string := "2026-11-02T09:30:00.000Z".

Definition milk : Todo :=
  mkTodo (Reference.uuid 1) "Buy milk" "" false stamp stamp None medium [].

Definition report : Todo :=
  mkTodo (Reference.uuid 2) "Send report" "Q3 figures" false stamp stamp
    (Some "2026-11-01") high ["work"].

Definition taxes : Todo :=
  mkTodo (Reference.uuid 3) "File taxes" "" true stamp stamp
    (Some "2026-10-15") low [].

(** A second todo carrying the identifier of [report]. *)
Definition report_again : Todo :=
  mkTodo (id report) "Send report again" "" false stamp stamp None low [].

(** A store holding three todos whose metadata counts are stale. *)
Definition ready_store (w : World) : State :=
  mkState
    (mkTodoStorage "/data/todos.json"
       (mkTodoList [of_Todo milk; of_Todo report; of_Todo taxes]
          (mkMetadata "1.0.0" stamp 7 5))
       true)
    w.

End Sample.

Module Backup.

(** A well-formed backup holding one todo, and a store object that has been
    constructed but never initialized. *)
Definition content : value :=
  json_roundtrip
    (TodoList_to_value
       (mkTodoList [of_Todo Sample.milk] (mkMetadata "1.0.0" Sample.stamp 1 0))).

Definition world : World :=
  mkWorld {[ "/backup/path.json" := JsonText content ]} [] 0 0 [].

Definition fresh_store : State :=
  TodoStorage.constructor (RT := Reference.runtime) "/test/todos.json" world.

End Backup.

Module Flaky.

Definition eacces : io_fault :=
  mkFault (Some "EACCES") "EACCES: permission denied, open '/test/todos.json'".

Definition empty_list : value :=
  json_roundtrip
    (TodoList_to_value (mkTodoList [] (mkMetadata "1.0.0" Sample.stamp 0 0))).

(** The store file exists and is valid; [mkdir] goes through and the next
    [n] reads are denied. *)
Definition denied (n : nat) : State :=
  TodoStorage.constructor (RT := Reference.runtime) "/test/todos.json"
    (mkWorld {[ "/test/todos.json" := JsonText empty_list ]}
       (None :: repeat (Some eacces) n) 0 0 []).

(** The store file exists but does not hold JSON. *)
Definition malformed : State :=
  TodoStorage.constructor (RT := Reference.runtime) "/test/todos.json"
    (mkWorld {[ "/test/todos.json" := BadText "Unexpected token i in JSON at position 0" ]}
       [] 0 0 []).

End Flaky.

Module Plain.

(** An initialized store whose path has no [.json] extension. *)
Definition store : State :=
  mkState
    (mkTodoStorage "./todos.db"
       (mkTodoList [of_Todo Sample.milk] (mkMetadata "1.0.0" Sample.stamp 1 0))
       true)
    Reference.empty_world.

(** The same store at the default path. *)
Definition default_store : State :=
  mkState
    (mkTodoStorage "./todos.json"
       (mkTodoList [of_Todo Sample.milk] (mkMetadata "1.0.0" Sample.stamp 1 0))
       true)
    Reference.empty_world.

End Plain.

Module Legacy.

(** The legacy file of the specification's fourth scenario:
    [[{"id":"a","title":"Old","completed":true}]]. *)
Definition file_content : value :=
  VArr [VObj [("id", VStr "a"); ("title", VStr "Old"); ("completed", VBool true)]].

Definition store : State :=
  TodoStorage.constructor (RT := Reference.runtime) "/test/todos.json"
    (mkWorld {[ "/test/todos.json" := JsonText file_content ]} [] 0 0 []).

End Legacy.

Module LegacyValid.

(** A legacy array whose only element carries a UUID. *)
Definition file_content : value :=
  VArr [VObj [("id", VStr (Reference.uuid 9)); ("title", VStr "Old");
              ("completed", VBool true)]].

Definition store : State :=
  TodoStorage.constructor (RT := Reference.runtime) "/test/todos.json"
    (mkWorld {[ "/test/todos.json" := JsonText file_content ]} [] 0 0 []).

End LegacyValid.

Module Inbox.

(** A fourth todo, not in the sample store; an object that is not a todo;
    and two updates. *)
Definition call : Todo :=
  mkTodo (Reference.uuid 4) "Call the bank" "" false Sample.stamp Sample.stamp
    None medium [].

Definition title_only : value := VObj [("title", VStr "Buy milk")].

Definition complete : value := VObj [("completed", VBool true)].

Definition blank_title : value := VObj [("title", VStr "")].

End Inbox.

Module Fresh.

(** A store just constructed, with no file system behind it yet; the same
    with a directory that cannot be created; and the same over a store file
    that holds [Backup.content]. *)
Definition store : State :=
  TodoStorage.constructor (RT := Reference.runtime) "/test/todos.json"
    Reference.empty_world.

Definition no_directory : State :=
  TodoStorage.constructor (RT := Reference.runtime) "/test/todos.json"
    (mkWorld ∅ [Some Flaky.eacces] 0 0 []).

Definition existing : State :=
  TodoStorage.constructor (RT := Reference.runtime) "/test/todos.json"
    (mkWorld {[ "/test/todos.json" := JsonText Backup.content ]} [] 0 0 []).

(** The sample store with its next [n] writes denied. *)
Definition write_denied (n : nat) : State :=
  Sample.ready_store (mkWorld ∅ (repeat (Some Flaky.eacces) n) 0 0 []).

End Fresh.

Module Bare.

(** A file without metadata, whose only element has a title and nothing
    else; and a file that holds a number. *)
Definition props : list (string * value) :=
  [("todos", VArr [VObj [("title", VStr "No id")]])].

Definition number_store : State :=
  TodoStorage.constructor (RT := Reference.runtime) "/test/todos.json"
    (mkWorld {[ "/test/todos.json" := JsonText (VNum 42) ]} [] 0 0 []).

(** A file that holds [null]. *)
Definition null_store : State :=
  TodoStorage.constructor (RT := Reference.runtime) "/test/todos.json"
    (mkWorld {[ "/test/todos.json" := JsonText VNull ]} [] 0 0 []).

End Bare.

Module Stale.

(** A well-formed store file that holds one todo under the counts 7 and
    5. *)
Definition content : value :=
  json_roundtrip
    (TodoList_to_value
       (mkTodoList [of_Todo Sample.milk] (mkMetadata "1.0.0" Sample.stamp 7 5))).

Definition store : State :=
  TodoStorage.constructor (RT := Reference.runtime) "/test/todos.json"
    (mkWorld {[ "/test/todos.json" := JsonText content ]} [] 0 0 []).

End Stale.

Module Filters.

(** Three filters: no criterion; the todos still to do; the overdue todos
    tagged [work]. *)
Definition none : Filter.t := Filter.mk None None None None.


Definition late_work : Filter.t :=
  Filter.mk None None (Some true) (Some ["work"]).

End Filters.

(** * Properties *)

(** ** Frame lemmas: what the utilities leave alone *)

Lemma only_ticks_refl s : only_ticks s s.
Proof. unfold only_ticks; auto 10. Qed.

Lemma only_ticks_trans s1 s2 s3 :
  only_ticks s1 s2 -> only_ticks s2 s3 -> only_ticks s1 s3.
Proof.
  unfold only_ticks; intros (?&?&?&?&?&?) (?&?&?&?&?&?).
  repeat split; try congruence; lia.
Qed.

(** Equalities between results that differ only by arithmetic. *)
Ltac eq_arith :=
  repeat match goal with
         | |- @eq Z _ _ => lia
         | |- @eq nat _ _ => lia
         | |- _ => progress f_equal
         end.

Ltac unfold_monad :=
  unfold bind, ret, throw, try_catch, get_this, get_world, put_this, put_world,
    set_data, set_isInitialized in *.

Section UtilsFacts.

Context {RT : Runtime}.

Lemma prop_frame v k s r s' : prop v k s = (r, s') -> s' = s.
Proof.
  unfold prop. destruct (get_prop v k); unfold_monad; congruence.
Qed.

Lemma prop_of_object props k s :
  prop (VObj props) k s = (Return (lookup_prop props k), s).
Proof. reflexivity. Qed.


Lemma getCurrentTimestamp_spec s :
  TodoUtils.getCurrentTimestamp s =
  (Return (toISOString (clock (ticks (world s)))),
   mkState (this s)
     (mkWorld (fs (world s)) (faults (world s)) (S (ticks (world s)))
        (uuids (world s)) (sleeps (world s)))).
Proof. reflexivity. Qed.

Lemma isOverdue_frame todo s r s' :
  TodoUtils.isOverdue todo s = (r, s') -> only_ticks s s'.
Proof.
  unfold TodoUtils.isOverdue, prop. intros E.
  destruct (get_prop todo "dueDate") as [due|]; unfold_monad; simpl in E;
    [|inversion E; apply only_ticks_refl].
  destruct (truthy due); simpl in E; [|inversion E; apply only_ticks_refl].
  destruct (match TodoUtils.Date_of due with Some t => t <? _ | None => false end);
    [destruct (get_prop todo "completed")|]; simpl in E; inversion E; subst;
    unfold only_ticks; simpl; repeat split; lia.
Qed.

Lemma count_todo_frame st todo s r s' :
  TodoUtils.count_todo st todo s = (r, s') -> only_ticks s s'.
Proof.
  unfold TodoUtils.count_todo. intros E. unfold bind at 1 in E.
  destruct (prop todo "completed" s) as [[c|e] s1] eqn:E1;
    apply prop_frame in E1; subst s1; [|inversion E; apply only_ticks_refl].
  unfold bind at 1 in E.
  destruct (TodoUtils.isOverdue todo s) as [[late|e] s1] eqn:E2;
    apply isOverdue_frame in E2; [|inversion E; subst; exact E2].
  unfold bind at 1 in E.
  destruct (prop todo "priority" s1) as [[p|e] s2] eqn:E3;
    apply prop_frame in E3; subst s2; inversion E; subst; exact E2.
Qed.

Lemma forEach_frame l : forall st s r s',
  TodoUtils.forEach l st s = (r, s') -> only_ticks s s'.
Proof.
  induction l as [|todo l IH]; intros st s r s' E; simpl in E.
  - inversion E; apply only_ticks_refl.
  - unfold bind at 1 in E.
    destruct (TodoUtils.count_todo st todo s) as [[st'|e] s1] eqn:E1;
      apply count_todo_frame in E1.
    + eapply only_ticks_trans; [exact E1|eauto].
    + inversion E; subst; exact E1.
Qed.

Lemma getStats_frame l s r s' :
  TodoUtils.getStats l s = (r, s') -> only_ticks s s'.
Proof. apply forEach_frame. Qed.

End UtilsFacts.

(** ** Statistics *)
Section StatsFacts.

Context {RT : Runtime}.

Lemma count_cons {A} (p : A -> bool) x l :
  count p (x :: l) = (if p x then 1 else 0) + count p l.
Proof. unfold count; simpl. destruct (p x); simpl; lia. Qed.





End StatsFacts.

(** ** Running [getStats] on arbitrary stored values *)
Section DynamicStats.

Context {RT : Runtime}.

Lemma advance_0 s : advance 0 s = s.
Proof. destruct s as [t [f fl k u sl]]; unfold advance; simpl. now rewrite Nat.add_0_r. Qed.

Lemma advance_advance n m s : advance m (advance n s) = advance (n + m) s.
Proof. unfold advance; simpl. now rewrite Nat.add_assoc. Qed.

Lemma get_prop_not_nullish v k : nullish v = false -> exists x, get_prop v k = Some x.
Proof. destruct v; simpl; intros; try discriminate; eauto. Qed.

Lemma get_prop_nullish v k : nullish v = true -> get_prop v k = None.
Proof. destruct v; simpl; intros; try discriminate; reflexivity. Qed.

Lemma count_todo_dynamic st todo s :
  nullish todo = false ->
  exists late bp,
    TodoUtils.count_todo st todo s =
      (Return (Stats.mk (Stats.total st)
                 (Stats.completed st + (if is_done todo then 1 else 0)) late bp),
       advance (if reads_clock todo then 1 else 0) s).
Proof.
  intros Hn. unfold TodoUtils.count_todo, TodoUtils.isOverdue, is_done, reads_clock, prop.
  destruct (get_prop_not_nullish todo "completed" Hn) as [c ->].
  destruct (get_prop_not_nullish todo "dueDate" Hn) as [d ->].
  destruct (get_prop_not_nullish todo "priority" Hn) as [p ->].
  unfold_monad. cbn [TodoUtils.Date_now]. unfold TodoUtils.Date_now. unfold_monad.
  destruct (truthy d); cbn.
  - destruct (match TodoUtils.Date_of d with Some t => t <? _ | None => false end);
      destruct (truthy c); cbn; do 2 eexists; unfold advance; cbn;
      rewrite Nat.add_1_r, ?Z.add_0_r; reflexivity.
  - destruct (truthy c); do 2 eexists; rewrite advance_0, ?Z.add_0_r;
      destruct s; reflexivity.
Qed.

Lemma forEach_dynamic l : forall st s,
  Forall (fun v => nullish v = false) l ->
  exists late bp,
    TodoUtils.forEach l st s =
      (Return (Stats.mk (Stats.total st) (Stats.completed st + count is_done l) late bp),
       advance (clock_reads l) s).
Proof.
  induction l as [|todo l IH]; intros st s Hl.
  - exists (Stats.overdue st), (Stats.byPriority st). simpl.
    rewrite advance_0. unfold count; simpl. rewrite Z.add_0_r. destruct st; reflexivity.
  - inversion Hl as [|? ? Hn Hl']; subst.
    destruct (count_todo_dynamic st todo s Hn) as (late & bp & E).
    destruct (IH (Stats.mk (Stats.total st)
                    (Stats.completed st + (if is_done todo then 1 else 0)) late bp)
                 (advance (if reads_clock todo then 1 else 0) s) Hl')
      as (late' & bp' & E').
    exists late', bp'. simpl. unfold bind at 1. rewrite E, E'.
    rewrite advance_advance, count_cons. cbn [Stats.total Stats.completed].
    eq_arith.
Qed.

Lemma nullish_somewhere l :
  Forall (fun v => nullish v = false) l \/ Exists (fun v => nullish v = true) l.
Proof.
  induction l as [|v l [IH|IH]]; [left; constructor| |right; now constructor 2].
  destruct (nullish v) eqn:E; [right; now constructor|left; now constructor].
Qed.

(** [getStats] throws only when some element is [null] or [undefined], and
    then nothing but the clock has changed. *)
Lemma forEach_throws l st s e s' :
  TodoUtils.forEach l st s = (Throw e, s') ->
  Exists (fun v => nullish v = true) l /\ only_ticks s s'.
Proof.
  intros E. split; [|eapply forEach_frame; eauto].
  destruct (nullish_somewhere l) as [Hl|]; [|assumption].
  destruct (forEach_dynamic l st s Hl) as (? & ? & E'). congruence.
Qed.

End DynamicStats.

(** ** Saving *)
Section SaveFacts.

Context {RT : Runtime}.

(** The outcome of the three write attempts of [saveToFile]: the file is
    written exactly when the call returns; nothing else changes but the
    pending faults and the recorded delays. *)
Lemma write_retry_post path content s r s' :
  RetryHandler.withRetry (writeFile path content) 3 500 s = (r, s') ->
  this s' = this s /\
  ticks (world s') = ticks (world s) /\
  uuids (world s') = uuids (world s) /\
  match r with
  | Return _ => fs (world s') = <[path := content]> (fs (world s))
  | Throw e => is_StorageError e = true /\ fs (world s') = fs (world s)
  end.
Proof.
  destruct s as [t [f fl k u sl]].
  unfold RetryHandler.withRetry, RetryHandler.attempts, writeFile, sleep.
  unfold_monad. unfold next_fault.
  destruct fl as [|[f1|] [|[f2|] [|[f3|] rest]]]; cbn; intros E; inversion E; subst; cbn;
    auto 10.
Qed.

Lemma write_retry_no_fault path content t f k u sl :
  RetryHandler.withRetry (writeFile path content) 3 500
    (mkState t (mkWorld f [] k u sl)) =
  (Return tt, mkState t (mkWorld (<[path := content]> f) [] k u sl)).
Proof. reflexivity. Qed.

Lemma live_counts_refreshed s : live_counts (refreshed s).
Proof. split; reflexivity. Qed.

Lemma updateMetadata_ok s :
  Forall (fun v => nullish v = false) (todos (data (this s))) ->
  TodoStorage.updateMetadata s =
  (Return tt, with_data (refreshed s) (advance (clock_reads (todos (data (this s))) + 1) s)).
Proof.
  intros Hl. unfold TodoStorage.updateMetadata, TodoUtils.getStats.
  unfold bind at 1. unfold get_this at 1. unfold bind at 1.
  destruct (forEach_dynamic (todos (data (this s)))
              (Stats.mk (Z.of_nat (List.length (todos (data (this s))))) 0 0
                 [("low", Some 0); ("medium", Some 0); ("high", Some 0)]) s Hl)
    as (late & bp & ->).
  unfold bind at 1. rewrite getCurrentTimestamp_spec.
  unfold set_data; unfold_monad. cbn.
  unfold with_data, refreshed, advance; cbn. eq_arith.
Qed.

Lemma updateMetadata_throws s e s' :
  TodoStorage.updateMetadata s = (Throw e, s') ->
  Exists (fun v => nullish v = true) (todos (data (this s))) /\ only_ticks s s'.
Proof.
  unfold TodoStorage.updateMetadata, TodoUtils.getStats.
  unfold bind at 1. unfold get_this at 1. unfold bind at 1.
  destruct (TodoUtils.forEach _ _ s) as [[st|e'] s1] eqn:E.
  - unfold bind at 1. rewrite getCurrentTimestamp_spec. unfold set_data; unfold_monad.
    discriminate.
  - intros H; inversion H; subst. eapply forEach_throws; eauto.
Qed.

(** What [saveToFile] guarantees, whatever its outcome. *)
Lemma saveToFile_post s r s' :
  TodoStorage.saveToFile s = (r, s') ->
  filePath (this s') = filePath (this s) /\
  isInitialized (this s') = isInitialized (this s) /\
  todos (data (this s')) = todos (data (this s)) /\
  uuids (world s') = uuids (world s) /\
  match r with
  | Return _ =>
      data (this s') = refreshed s /\
      fs (world s') =
        <[filePath (this s) := JSON_stringify (TodoList_to_value (refreshed s))]>
          (fs (world s))
  | Throw e =>
      (exists m, e = FileError m op_write (filePath (this s))) /\
      fs (world s') = fs (world s) /\
      (data (this s') = data (this s) \/ data (this s') = refreshed s)
  end.
Proof.
  unfold TodoStorage.saveToFile, try_catch. unfold bind at 1.
  destruct (nullish_somewhere (todos (data (this s)))) as [Hl|Hl].
  - rewrite (updateMetadata_ok s Hl). unfold bind at 1. unfold get_this at 1.
    cbn [this with_data data filePath].
    destruct (RetryHandler.withRetry _ 3 500 _) as [[[]|e] s1] eqn:W;
      apply write_retry_post in W; destruct W as (T & _ & U & W); cbn in T, U, W.
    + intros E; inversion E; subst s'. rewrite T; cbn. auto 10.
    + destruct W as [_ W]. unfold_monad. intros E; inversion E; subst; cbn.
      rewrite T; cbn. eauto 10.
  - destruct (TodoStorage.updateMetadata s) as [[[]|e] s1] eqn:U.
    + exfalso. unfold TodoStorage.updateMetadata, TodoUtils.getStats in U.
      unfold bind at 1 in U. unfold get_this at 1 in U. unfold bind at 1 in U.
      destruct (TodoUtils.forEach _ _ s) as [[st|e'] s2] eqn:E; [|discriminate].
      clear U. revert Hl E. generalize (todos (data (this s))) as l.
      intros l Hl. generalize (Stats.mk (Z.of_nat (List.length l)) 0 0
                                [("low", Some 0); ("medium", Some 0); ("high", Some 0)]).
      revert s. induction Hl as [v l Hv|v l Hl IH]; intros s0 st0 E; simpl in E.
      * unfold bind at 1 in E. unfold TodoUtils.count_todo in E. unfold bind at 1 in E.
        unfold prop in E. rewrite (get_prop_nullish v _ Hv) in E. discriminate.
      * unfold bind at 1 in E. destruct (TodoUtils.count_todo st0 v s0) as [[st1|e1] s3];
          [eapply IH; eauto|discriminate].
    + apply updateMetadata_throws in U. destruct U as [_ (T & F & _ & U' & _ & _)].
      unfold_monad. intros E; inversion E; subst; cbn. rewrite T. eauto 10.
Qed.

Lemma saveToFile_no_fault s :
  Forall (fun v => nullish v = false) (todos (data (this s))) ->
  faults (world s) = [] ->
  TodoStorage.saveToFile s =
  (Return tt,
   mkState (mkTodoStorage (filePath (this s)) (refreshed s) (isInitialized (this s)))
     (mkWorld (<[filePath (this s) := JSON_stringify (TodoList_to_value (refreshed s))]>
                 (fs (world s)))
        [] (ticks (world s) + (clock_reads (todos (data (this s))) + 1))
        (uuids (world s)) (sleeps (world s)))).
Proof.
  intros Hl Hf. unfold TodoStorage.saveToFile, try_catch. unfold bind at 1.
  rewrite (updateMetadata_ok s Hl). unfold bind at 1. unfold get_this at 1.
  unfold with_data, advance. cbn [this world data filePath fs faults ticks uuids sleeps].
  rewrite Hf. rewrite write_retry_no_fault. reflexivity.
Qed.

End SaveFacts.

Section SaveRefresh.

Context {RT : Runtime}.


Lemma is_done_of_Todo t : is_done (of_Todo t) = completed t.
Proof. reflexivity. Qed.

Lemma of_Todo_not_nullish ts : Forall (fun v => nullish v = false) (map of_Todo ts).
Proof. induction ts; constructor; auto. Qed.

End SaveRefresh.






(** ** What no operation but [initialize] touches *)

Lemma steady_refl s : steady s s.
Proof. unfold steady; auto. Qed.

Lemma steady_trans s1 s2 s3 : steady s1 s2 -> steady s2 s3 -> steady s1 s3.
Proof.
  unfold steady; intros (?&?&?&?&?) (?&?&?&?&?).
  repeat split; try congruence; auto; lia.
Qed.

Lemma only_ticks_steady s s' : only_ticks s s' -> steady s s'.
Proof.
  unfold only_ticks, steady; intros (T&_&F&U&_&K); rewrite T, F, U; auto.
Qed.

(** Closes a [steady] goal between two explicit states. *)
Ltac steady_now := unfold steady; simpl; repeat split; auto; lia.

Section Preservation.

Context {A B : Type}.

Lemma preserves_ret (a : A) : preserves (ret a).
Proof. intros s r s' E; inversion E; apply steady_refl. Qed.

Lemma preserves_throw (e : error) : preserves (@throw A e).
Proof. intros s r s' E; inversion E; apply steady_refl. Qed.

Lemma preserves_bind (m : M A) (k : A -> M B) :
  preserves m -> (forall a, preserves (k a)) -> preserves (bind m k).
Proof.
  intros Hm Hk s r s' E. unfold bind in E.
  destruct (m s) as [[a|e] s1] eqn:E1; apply Hm in E1.
  - eapply steady_trans; [exact E1|eapply Hk; eauto].
  - inversion E; subst; exact E1.
Qed.

Lemma preserves_try_catch (m : M A) (h : error -> M A) :
  preserves m -> (forall e, preserves (h e)) -> preserves (try_catch m h).
Proof.
  intros Hm Hh s r s' E. unfold try_catch in E.
  destruct (m s) as [[a|e] s1] eqn:E1; apply Hm in E1.
  - inversion E; subst; exact E1.
  - eapply steady_trans; [exact E1|eapply Hh; eauto].
Qed.

End Preservation.

Lemma preserves_get_this : preserves get_this.
Proof. intros s r s' E; inversion E; apply steady_refl. Qed.

Lemma preserves_get_world : preserves get_world.
Proof. intros s r s' E; inversion E; apply steady_refl. Qed.

Lemma preserves_set_data d : preserves (set_data d).
Proof. intros s r s' E; inversion E; steady_now. Qed.

Lemma preserves_prop v k : preserves (prop v k).
Proof. intros s r s' E; apply prop_frame in E; subst; apply steady_refl. Qed.

Lemma preserves_sleep d : preserves (sleep d).
Proof. intros s r s' E; inversion E; steady_now. Qed.

Lemma next_fault_steady w f w' :
  next_fault w = (f, w') -> faults w = [] -> faults w' = [] /\ f = None.
Proof. unfold next_fault. intros E H. rewrite H in E. inversion E; subst; auto. Qed.

Lemma next_fault_counters w f w' :
  next_fault w = (f, w') -> ticks w' = ticks w /\ uuids w' = uuids w.
Proof. unfold next_fault. destruct (faults w); intros E; inversion E; auto. Qed.

Lemma preserves_mkdir d : preserves (mkdir d).
Proof.
  intros s r s' E. unfold mkdir in E. unfold_monad.
  destruct (next_fault (world s)) as [f w'] eqn:N. simpl in E.
  assert (H : faults (world s) = [] -> faults w' = []) by (intros H; eapply next_fault_steady; eauto).
  destruct (next_fault_counters _ _ _ N) as [Ht Hu];
  destruct f; inversion E; subst; steady_now.
Qed.

Lemma preserves_readFile p : preserves (readFile p).
Proof.
  intros s r s' E. unfold readFile in E. unfold_monad.
  destruct (next_fault (world s)) as [f w'] eqn:N. simpl in E.
  assert (H : faults (world s) = [] -> faults w' = []) by (intros H; eapply next_fault_steady; eauto).
  destruct (next_fault_counters _ _ _ N) as [Ht Hu];
  destruct f; [|destruct (fs w' !! p)]; inversion E; subst; steady_now.
Qed.

Lemma preserves_writeFile p c : preserves (writeFile p c).
Proof.
  intros s r s' E. unfold writeFile in E. unfold_monad.
  destruct (next_fault (world s)) as [f w'] eqn:N. simpl in E.
  assert (H : faults (world s) = [] -> faults w' = []) by (intros H; eapply next_fault_steady; eauto).
  destruct (next_fault_counters _ _ _ N) as [Ht Hu];
  destruct f; inversion E; subst; steady_now.
Qed.

Lemma preserves_JSON_parse t : preserves (JSON_parse t).
Proof. destruct t; [apply preserves_ret|apply preserves_throw]. Qed.

Lemma preserves_Object_keys v : preserves (Object_keys v).
Proof. destruct v; first [apply preserves_ret|apply preserves_throw]. Qed.

Create HintDb frame.

#[export] Hint Resolve preserves_get_this preserves_get_world preserves_set_data
  preserves_prop preserves_sleep preserves_mkdir preserves_readFile
  preserves_writeFile preserves_JSON_parse preserves_Object_keys : frame.

(** Decompose a computation along its binds, handlers and case
    distinctions, closing the leaves with the [frame] hints. *)
Ltac frame :=
  repeat first
    [ apply preserves_ret
    | apply preserves_throw
    | solve [auto with frame]
    | apply preserves_bind; [|intros]
    | apply preserves_try_catch; [|intros]
    | match goal with
      | |- preserves (match ?x with _ => _ end) => destruct x
      | |- preserves (if ?x then _ else _) => destruct x
      end ].

Section SteadyOperations.

Context {RT : Runtime}.

Lemma preserves_Date_now : preserves TodoUtils.Date_now.
Proof. intros s r s' E; inversion E; steady_now. Qed.

Lemma preserves_generateId : preserves TodoUtils.generateId.
Proof. intros s r s' E; inversion E; steady_now. Qed.

Lemma preserves_getCurrentTimestamp : preserves TodoUtils.getCurrentTimestamp.
Proof. intros s r s' E; inversion E; steady_now. Qed.

Lemma preserves_getStats l : preserves (TodoUtils.getStats l).
Proof. intros s r s' E. apply only_ticks_steady. eapply getStats_frame; eauto. Qed.

Lemma preserves_updateTodo_util a b : preserves (TodoUtils.updateTodo a b).
Proof.
  unfold TodoUtils.updateTodo.
  apply preserves_bind; [apply preserves_getCurrentTimestamp|intros; apply preserves_ret].
Qed.

#[local] Hint Resolve preserves_Date_now preserves_generateId preserves_getCurrentTimestamp
  preserves_getStats preserves_updateTodo_util : frame.

Lemma preserves_mapM' {A B} (f : A -> M B) l :
  (forall x, preserves (f x)) -> preserves (mapM' f l).
Proof. intros Hf. induction l; simpl; frame. Qed.

Lemma preserves_filterM {A} (p : A -> M bool) l :
  (forall x, preserves (p x)) -> preserves (filterM p l).
Proof. intros Hp. induction l; simpl; frame. Qed.

Lemma preserves_findIndexM {A} (p : A -> M bool) l :
  (forall x, preserves (p x)) -> forall i, preserves (findIndexM p l i).
Proof. intros Hp. induction l; intros i; simpl; frame. Qed.

Lemma preserves_attempts {T} (op : M T) maxRetries delayMs :
  preserves op ->
  forall remaining attempt lastError,
    preserves (RetryHandler.attempts op maxRetries delayMs remaining attempt lastError).
Proof.
  intros Hop. induction remaining; intros; simpl; unfold RetryHandler.fail_after; frame.
Qed.

Lemma preserves_withRetry {T} (op : M T) maxRetries delayMs :
  preserves op -> preserves (RetryHandler.withRetry op maxRetries delayMs).
Proof. intros; apply preserves_attempts; assumption. Qed.

Lemma preserves_updateMetadata : preserves TodoStorage.updateMetadata.
Proof. unfold TodoStorage.updateMetadata; frame. Qed.

Lemma preserves_saveToFile : preserves TodoStorage.saveToFile.
Proof.
  unfold TodoStorage.saveToFile; frame.
Qed.

Lemma preserves_is_completed v : preserves (TodoStorage.is_completed v).
Proof. unfold TodoStorage.is_completed; frame. Qed.

Lemma preserves_has_id i v : preserves (TodoStorage.has_id i v).
Proof. unfold TodoStorage.has_id; frame. Qed.

Lemma preserves_migrate_element v : preserves (TodoStorage.migrate_element v).
Proof. unfold TodoStorage.migrate_element; frame. Qed.

#[local] Hint Resolve preserves_updateMetadata preserves_saveToFile preserves_is_completed
  preserves_has_id preserves_migrate_element : frame.

Lemma preserves_migrateData raw : preserves (TodoStorage.migrateData raw).
Proof.
  unfold TodoStorage.migrateData.
  destruct raw; frame;
    first [apply preserves_mapM'|apply preserves_filterM]; auto with frame.
Qed.

Lemma preserves_validateAndMigrate raw : preserves (TodoStorage.validateAndMigrate raw).
Proof.
  unfold TodoStorage.validateAndMigrate. destruct (TodoListSchema raw); frame.
  apply preserves_migrateData.
Qed.

Lemma preserves_restoreFromBackup p : preserves (TodoStorage.restoreFromBackup p).
Proof.
  unfold TodoStorage.restoreFromBackup; frame. apply preserves_validateAndMigrate.
Qed.

End SteadyOperations.

(** ** Inverting successful runs *)
Lemma bind_Return {A B} (m : M A) (k : A -> M B) s b s' :
  bind m k s = (Return b, s') ->
  exists a s1, m s = (Return a, s1) /\ k a s1 = (Return b, s').
Proof.
  unfold bind. destruct (m s) as [[a|e] s1]; [eauto|discriminate].
Qed.

Lemma try_catch_Return {A} (m : M A) (h : error -> M A) s a s' :
  (forall e s0 x s1, h e s0 <> (Return x, s1)) ->
  try_catch m h s = (Return a, s') ->
  m s = (Return a, s').
Proof.
  intros Hh. unfold try_catch. destruct (m s) as [[x|e] s1]; [auto|].
  intros E. exfalso. eapply Hh; eauto.
Qed.

(** Every handler of the store rethrows. *)
Ltac rethrows :=
  let E := fresh in
  intros ? ? ? ? E; unfold_monad;
  repeat match type of E with
         | context [match ?x with _ => _ end] => destruct x
         end;
  discriminate.

Section ValidatedData.

Context {RT : Runtime}.

Lemma forEach_nullish l : forall st s st' s',
  Exists (fun v => nullish v = true) l ->
  TodoUtils.forEach l st s <> (Return st', s').
Proof.
  induction l as [|v l IH]; intros st s st' s' Hl E; [inversion Hl|].
  simpl in E. apply bind_Return in E as (st1 & s1 & E1 & E2).
  inversion Hl as [? ? Hv|? ? Hl']; subst.
  - unfold TodoUtils.count_todo in E1. apply bind_Return in E1 as (c & s2 & E1 & _).
    unfold prop in E1. rewrite (get_prop_nullish v _ Hv) in E1. discriminate.
  - eapply IH; eauto.
Qed.

(** A save that returns has run [getStats] to the end, so no stored element
    is [null] or [undefined]. *)
Lemma saveToFile_Return s s' :
  TodoStorage.saveToFile s = (Return tt, s') ->
  Forall (fun v => nullish v = false) (todos (data (this s))).
Proof.
  intros E. destruct (nullish_somewhere (todos (data (this s)))) as [|Hl]; [assumption|].
  exfalso. unfold TodoStorage.saveToFile in E.
  apply try_catch_Return in E; [|rethrows].
  apply bind_Return in E as ([] & s1 & E & _).
  unfold TodoStorage.updateMetadata in E.
  apply bind_Return in E as (t & s2 & Et & E). inversion Et; subst.
  apply bind_Return in E as (st & s3 & E & _).
  eapply forEach_nullish; eauto.
Qed.

Lemma TodoSchema_object v y : TodoSchema v = Some y -> nullish y = false.
Proof.
  unfold TodoSchema. destruct v; try discriminate. intros E.
  repeat match type of E with
         | mbind _ ?x = _ => destruct x; simpl in E; [|discriminate]
         end.
  inversion E; reflexivity.
Qed.

Lemma TodoListSchema_objects raw l :
  TodoListSchema raw = Some l -> Forall (fun v => nullish v = false) (todos l).
Proof.
  unfold TodoListSchema. destruct raw; try discriminate. intros E.
  destruct (z_default _ _ _) as [ts|] eqn:Ets; simpl in E; [|discriminate].
  destruct (MetadataSchema _); simpl in E; [|discriminate].
  destruct ts; inversion E; subst; simpl. clear E.
  assert (H : exists xs', z_array TodoSchema None (VArr xs') = Some (VArr xs)).
  { unfold z_default in Ets. destruct (lookup_prop props "todos"); eauto;
      unfold z_array in Ets; discriminate. }
  destruct H as [xs' H]. unfold z_array in H.
  destruct (mapM TodoSchema xs') as [ys|] eqn:Em; simpl in H; inversion H; subst.
  apply mapM_Some in Em. clear Ets H.
  induction Em; constructor; eauto using TodoSchema_object.
Qed.

End ValidatedData.

Section MigrationResult.

Context {RT : Runtime}.

(** The last three statements of either migration:
    [this.data = migratedData; await this.saveToFile(); return migratedData]. *)
Lemma save_and_return d s v s1 :
  (set_data d ;; TodoStorage.saveToFile ;; t <- get_this ;; ret (data t)) s
    = (Return v, s1) ->
  TodoStorage.saveToFile (with_data d s) = (Return tt, s1) /\ v = data (this s1).
Proof.
  intros E. apply bind_Return in E as ([] & s2 & E1 & E).
  apply bind_Return in E as ([] & s3 & E2 & E).
  inversion E1; subst s2. inversion E; subst. auto.
Qed.

Lemma saveToFile_saved s s1 :
  TodoStorage.saveToFile s = (Return tt, s1) ->
  saved (data (this s1)) s1 /\ todos (data (this s1)) = todos (data (this s)).
Proof.
  intros E. pose proof (saveToFile_Return _ _ E) as Hl.
  apply saveToFile_post in E as (P & _ & T & _ & D & F).
  split; [|exact T]. unfold saved. split; [reflexivity|split; [|split]].
  - now rewrite T.
  - rewrite D. apply live_counts_refreshed.
  - rewrite F, P, D. apply lookup_insert_eq.
Qed.

Lemma migrateData_Return raw s v s1 :
  TodoStorage.migrateData raw s = (Return v, s1) -> saved v s1.
Proof.
  unfold TodoStorage.migrateData. intros E.
  destruct raw as [| | | | |elements|props].
  6:{ apply try_catch_Return in E; [|rethrows].
      apply bind_Return in E as (ts & sA & _ & E).
      apply bind_Return in E as (now & sB & _ & E).
      apply bind_Return in E as (done & sC & _ & E).
      apply save_and_return in E as [E ->]. now apply saveToFile_saved in E. }
  all: apply bind_Return in E as (todos0 & sA & _ & E);
       apply bind_Return in E as (md & sB & _ & E);
       destruct (truthy todos0 && negb (truthy md)); [|discriminate];
       (apply try_catch_Return in E; [|rethrows]);
       apply bind_Return in E as (now & sC & _ & E);
       destruct todos0; try discriminate;
       apply bind_Return in E as (done & sD & _ & E);
       apply save_and_return in E as [E ->]; now apply saveToFile_saved in E.
Qed.

Lemma validateAndMigrate_Return raw s v s1 :
  TodoStorage.validateAndMigrate raw s = (Return v, s1) ->
  Forall (fun x => nullish x = false) (todos v) /\
  ((TodoListSchema raw = Some v /\ s1 = s) \/
   (TodoListSchema raw = None /\ saved v s1)).
Proof.
  unfold TodoStorage.validateAndMigrate.
  destruct (TodoListSchema raw) as [l|] eqn:Z; intros E.
  - inversion E; subst. split; [eapply TodoListSchema_objects; eauto|auto].
  - apply migrateData_Return in E. split; [apply E|auto].
Qed.

End MigrationResult.

(** ** C2 and C10: the initialization guard *)

Lemma uninitialized_guard {RT : Runtime} (s : State) :
  isInitialized (this s) = false -> guarded_operations_fail s.
Proof.
  intros H. unfold guarded_operations_fail.
  unfold TodoStorage.getAllTodos, TodoStorage.getTodoById, TodoStorage.addTodo,
    TodoStorage.updateTodo, TodoStorage.deleteTodo, TodoStorage.clearAllTodos,
    TodoStorage.getStats, TodoStorage.getTodoList, TodoStorage.createBackup,
    TodoStorage.ensureInitialized.
  unfold_monad. rewrite H. repeat split; reflexivity.
Qed.

(** C10.  [restoreFromBackup] never changes the [isInitialized] flag.  Given
    a backup file that parses and that the validate-or-migrate pipeline
    accepts, and no I/O fault, it returns normally, holds the restored todos
    with recomputed metadata, and has written them to the primary store
    path; the flag keeps its prior value.  In particular, on a store that
    was never initialized the call succeeds, and afterwards the nine guarded
    operations still fail with the "not initialized" [StorageError]. *)
Theorem restoreFromBackup_keeps_flag {RT : Runtime} (s : State) (backupPath : string) :
  (forall r s', TodoStorage.restoreFromBackup backupPath s = (r, s') ->
                isInitialized (this s') = isInitialized (this s)) /\
  (forall raw validated s1,
     faults (world s) = [] ->
     fs (world s) !! backupPath = Some (JsonText raw) ->
     TodoStorage.validateAndMigrate raw s = (Return validated, s1) ->
     exists s',
       TodoStorage.restoreFromBackup backupPath s = (Return tt, s') /\
       todos (data (this s')) = todos validated /\
       live_counts (data (this s')) /\
       fs (world s') !! filePath (this s) =
         Some (JSON_stringify (TodoList_to_value (data (this s')))) /\
       isInitialized (this s') = isInitialized (this s) /\
       (isInitialized (this s) = false -> guarded_operations_fail s')).
Proof.
  split.
  - intros r s' E. apply preserves_restoreFromBackup in E. apply E.
  - intros raw v s1 Hf Hb Hv.
    pose proof (validateAndMigrate_Return _ _ _ _ Hv) as [Hl _].
    pose proof (preserves_validateAndMigrate _ _ _ _ Hv) as (P1 & I1 & F1 & _).
    specialize (F1 Hf).
    pose proof (saveToFile_no_fault (with_data v s1) Hl F1) as Hs.
    eexists. split; [|split; [|split; [|split; [|split]]]].
    + unfold TodoStorage.restoreFromBackup, try_catch. unfold bind at 1.
      unfold readFile. unfold_monad. unfold next_fault. rewrite Hf. cbn.
      rewrite Hb. cbn. destruct s as [t w]; cbn in *. rewrite Hv.
      unfold with_data in Hs. cbn in Hs. rewrite Hs. reflexivity.
    + reflexivity.
    + apply live_counts_refreshed.
    + cbn. rewrite P1. apply lookup_insert_eq.
    + exact I1.
    + intros Hu. apply uninitialized_guard. cbn. congruence.
Qed.

(** Restoring into a store that was never initialized. *)
Lemma restoreFromBackup_keeps_flag_witness :
  faults (world Backup.fresh_store) = [] /\
  fs (world Backup.fresh_store) !! "/backup/path.json" = Some (JsonText Backup.content) /\
  isInitialized (this Backup.fresh_store) = false /\
  exists s',
    TodoStorage.restoreFromBackup (RT := Reference.runtime) "/backup/path.json"
      Backup.fresh_store = (Return tt, s') /\
    isInitialized (this s') = false /\
    guarded_operations_fail (RT := Reference.runtime) s'.
Proof.
  split; [reflexivity|split; [reflexivity|split; [reflexivity|]]].
  destruct (restoreFromBackup_keeps_flag (RT := Reference.runtime)
              Backup.fresh_store "/backup/path.json") as [_ H].
  edestruct (H Backup.content) as (s' & E & _ & _ & _ & I & G);
    [reflexivity|reflexivity|vm_compute; reflexivity|].
  exists s'. split; [exact E|split; [exact I|exact (G eq_refl)]].
Defined.

(** C2, at the input where the code departs from it: on a store that was
    constructed but never initialized, [restoreFromBackup] does not fail with
    a [StorageError]; it returns normally, replaces the in-memory todos and
    writes the primary store file, and the store is still uninitialized
    afterwards. *)
Example restoreFromBackup_ignores_guard :
  isInitialized (this Backup.fresh_store) = false /\
  fs (world Backup.fresh_store) !! "/test/todos.json" = None /\
  exists s',
    TodoStorage.restoreFromBackup (RT := Reference.runtime) "/backup/path.json"
      Backup.fresh_store = (Return tt, s') /\
    isInitialized (this s') = false /\
    List.length (todos (data (this s'))) = 1%nat /\
    fs (world s') !! "/test/todos.json" =
      Some (JSON_stringify (TodoList_to_value (data (this s')))).
Proof.
  split; [reflexivity|split; [reflexivity|]].
  eexists. split; [vm_compute; reflexivity|].
  split; [reflexivity|split; [reflexivity|vm_compute; reflexivity]].
Qed.

(** ** C5: identifiers stay unique *)
Section UniqueIds.

Context {RT : Runtime}.

Lemma has_id_spec i v s :
  nullish v = false ->
  TodoStorage.has_id (VStr i) v s =
  (Return (match id_string v with Some j => String.eqb j i | None => false end), s).
Proof.
  intros Hn. unfold TodoStorage.has_id, prop, id_string.
  destruct (get_prop_not_nullish v "id" Hn) as [x ->]. unfold_monad.
  destruct x; reflexivity.
Qed.

Lemma findIndexM_frame id l : forall n s r s',
  findIndexM (TodoStorage.has_id id) l n s = (r, s') -> s' = s.
Proof.
  induction l as [|v l IH]; intros n s r s' E; simpl in E; [inversion E; auto|].
  unfold bind at 1 in E. unfold TodoStorage.has_id at 1 in E. unfold bind at 1 in E.
  destruct (prop v "id" s) as [[x|e] s1] eqn:P; apply prop_frame in P; subst s1.
  - unfold ret at 1 in E. destruct (strict_eq x id); [inversion E; auto|eauto].
  - inversion E; auto.
Qed.

(** If the search reports no match, no stored element carries [i]. *)
Lemma findIndexM_None i l : forall n s s',
  findIndexM (TodoStorage.has_id (VStr i)) l n s = (Return None, s') ->
  ~ In i (id_strings l).
Proof.
  induction l as [|v l IH]; intros n s s' E; simpl in E; [intros []|].
  apply bind_Return in E as (b & s1 & E1 & E).
  unfold TodoStorage.has_id in E1. apply bind_Return in E1 as (x & s2 & P & E1).
  inversion E1; subst. unfold prop in P.
  destruct (get_prop v "id") as [y|] eqn:G; [|discriminate]. inversion P; subst.
  destruct (strict_eq x (VStr i)) eqn:Q; [discriminate|].
  apply IH in E. unfold id_strings; simpl. unfold id_string at 1. rewrite G.
  destruct x; try exact E. simpl in Q. intros [->|H]; [|auto].
  now rewrite String.eqb_refl in Q.
Qed.

(** If some stored element carries [i] and every element can be read, the
    search finds a match. *)
Lemma findIndexM_Some i l : forall n s,
  Forall (fun v => nullish v = false) l ->
  In i (id_strings l) ->
  exists k, findIndexM (TodoStorage.has_id (VStr i)) l n s = (Return (Some k), s).
Proof.
  induction l as [|v l IH]; intros n s Hl Hin; [destruct Hin|].
  inversion Hl as [|? ? Hv Hl']; subst. simpl.
  unfold bind at 1. rewrite (has_id_spec i v s Hv).
  unfold id_strings in Hin; simpl in Hin.
  destruct (id_string v) as [j|].
  - destruct (String.eqb_spec j i) as [->|Hne]; [eexists; reflexivity|].
    destruct Hin as [->|Hin]; [congruence|]. eauto.
  - eauto.
Qed.

Lemma id_strings_app l1 l2 : id_strings (l1 ++ l2) = id_strings l1 ++ id_strings l2.
Proof. unfold id_strings. apply omap_app. Qed.

(** A todo that passes [TodoSchema] is an object whose [id] is a string. *)
Lemma validateTodo_id todo y :
  TodoUtils.validateTodo todo = Some y ->
  exists i, get_prop todo "id" = Some (VStr i).
Proof.
  unfold TodoUtils.validateTodo, TodoSchema. destruct todo; try discriminate. intros E.
  simpl. destruct (lookup_prop props "id"); try discriminate. eauto.
Qed.

(** One call of [addTodo] keeps the identifiers unique, whatever its
    outcome. *)
Lemma addTodo_preserves_unique todo s r s' :
  TodoStorage.addTodo todo s = (r, s') ->
  unique_ids (todos (data (this s))) ->
  unique_ids (todos (data (this s'))).
Proof.
  unfold TodoStorage.addTodo, TodoStorage.ensureInitialized. intros E U.
  unfold bind at 1 in E. unfold bind at 1 in E. unfold get_this at 1 in E.
  destruct (isInitialized (this s)); [|inversion E; subst; exact U].
  unfold ret at 1 in E. unfold bind at 1 in E.
  destruct (TodoUtils.validateTodo todo) as [y|] eqn:V.
  - apply validateTodo_id in V as [i G]. unfold ret at 1 in E.
    unfold bind at 1 in E. unfold prop at 1 in E. rewrite G in E. unfold ret at 1 in E.
    unfold bind at 1 in E. unfold get_this at 1 in E. unfold bind at 1 in E.
    destruct (findIndexM _ _ 0%nat s) as [[[k|]|e] s1] eqn:F;
      pose proof (findIndexM_frame _ _ _ _ _ _ F); subst s1;
      try (inversion E; subst; exact U).
    apply findIndexM_None in F.
    unfold bind at 1 in E. unfold set_data at 1 in E. unfold_monad.
    destruct (TodoStorage.saveToFile _) as [[[]|e] s2] eqn:S;
      apply saveToFile_post in S as (_ & _ & T & _); cbn in T;
      inversion E; subst; unfold unique_ids; rewrite T, id_strings_app;
      cbn; unfold id_string; rewrite G; apply NoDup_app; repeat split; auto;
      try (apply NoDup_singleton);
      intros x Hx1 Hx2; apply list_elem_of_In in Hx1, Hx2;
      destruct Hx2 as [<-|[]]; auto.
  - unfold bind at 1 in E. destruct (prop todo "id" s) as [[x|e] s1] eqn:P;
      apply prop_frame in P; subst s1; inversion E; subst; exact U.
Qed.

End UniqueIds.

(** C5.  Starting from a store whose identifiers are unique (an empty one,
    for instance), they are still unique after any sequence of [addTodo]
    calls.  On an initialized store, an [addTodo] whose [id] is that of a
    stored todo fails with a [ValidationError] and leaves the whole state as
    it was: the stored sequence is unchanged and nothing is written.  When
    the argument is a todo that satisfies the schema the message is
    "Todo with ID <id> already exists". *)
Theorem addTodo_unique_ids {RT : Runtime} (s : State) :
  (forall calls,
     unique_ids (todos (data (this s))) ->
     unique_ids (todos (data (this (run_adds calls s))))) /\
  (forall todo i,
     isInitialized (this s) = true ->
     Forall (fun v => nullish v = false) (todos (data (this s))) ->
     get_prop todo "id" = Some (VStr i) ->
     In i (id_strings (todos (data (this s)))) ->
     (exists message,
        TodoStorage.addTodo todo s = (Throw (ValidationError message), s)) /\
     (TodoUtils.validateTodo todo <> None ->
      TodoStorage.addTodo todo s =
        (Throw (ValidationError ("Todo with ID " +:+ i +:+ " already exists")), s))).
Proof.
  split.
  - intros calls. revert s. induction calls as [|todo calls IH]; intros s U; [exact U|].
    simpl. apply IH. destruct (TodoStorage.addTodo todo s) as [r s'] eqn:E.
    eapply addTodo_preserves_unique; eauto.
  - intros todo i Hinit Hl G Hin.
    destruct (findIndexM_Some i _ 0%nat s Hl Hin) as [k F].
    assert (Hvalid : forall y, TodoUtils.validateTodo todo = Some y ->
              TodoStorage.addTodo todo s =
                (Throw (ValidationError ("Todo with ID " +:+ i +:+ " already exists")), s)).
    { intros y V. unfold TodoStorage.addTodo, TodoStorage.ensureInitialized.
      unfold bind at 1. unfold bind at 1. unfold get_this at 1. rewrite Hinit.
      unfold ret at 1. unfold bind at 1. rewrite V. unfold ret at 1.
      unfold bind at 1. unfold prop at 1. rewrite G. unfold ret at 1.
      unfold bind at 1. unfold get_this at 1. unfold bind at 1. rewrite F.
      reflexivity. }
    split.
    + destruct (TodoUtils.validateTodo todo) as [y|] eqn:V; [eauto|].
      exists "Invalid todo data".
      unfold TodoStorage.addTodo, TodoStorage.ensureInitialized.
      unfold bind at 1. unfold bind at 1. unfold get_this at 1. rewrite Hinit.
      unfold ret at 1. unfold bind at 1. rewrite V.
      unfold bind at 1. unfold prop at 1. rewrite G. reflexivity.
    + intros V. destruct (TodoUtils.validateTodo todo) as [y|]; [eauto|congruence].
Qed.

(** Adding a second todo under the identifier of [Sample.report]. *)
Lemma addTodo_unique_ids_witness :
  unique_ids (todos (data (this (Sample.ready_store Reference.empty_world)))) /\
  isInitialized (this (Sample.ready_store Reference.empty_world)) = true /\
  In (id Sample.report)
    (id_strings (todos (data (this (Sample.ready_store Reference.empty_world))))) /\
  unique_ids
    (todos (data (this (run_adds (RT := Reference.runtime)
                          [of_Todo Sample.report_again; of_Todo Sample.milk]
                          (Sample.ready_store Reference.empty_world))))) /\
  TodoStorage.addTodo (RT := Reference.runtime) (of_Todo Sample.report_again)
    (Sample.ready_store Reference.empty_world) =
    (Throw (ValidationError
              ("Todo with ID " +:+ id Sample.report +:+ " already exists")),
     Sample.ready_store Reference.empty_world).
Proof.
  assert (U : unique_ids (todos (data (this (Sample.ready_store Reference.empty_world))))).
  { unfold unique_ids. apply (bool_decide_unpack _). vm_compute. exact I. }
  assert (I : In (id Sample.report)
                (id_strings (todos (data (this (Sample.ready_store Reference.empty_world)))))).
  { vm_compute. auto. }
  destruct (addTodo_unique_ids (RT := Reference.runtime)
              (Sample.ready_store Reference.empty_world)) as [H1 H2].
  assert (Hl : Forall (fun v => nullish v = false)
                 (todos (data (this (Sample.ready_store Reference.empty_world))))).
  { repeat constructor. }
  destruct (H2 (of_Todo Sample.report_again) (id Sample.report) eq_refl Hl eq_refl I)
    as [_ H3].
  split; [exact U|]. split; [reflexivity|]. split; [exact I|].
  split; [exact (H1 _ U)|].
  apply H3. vm_compute. discriminate.
Defined.

(** ** C4: updating a todo *)
Section ObjectFacts.

Lemma lookup_set_prop_eq props k v : lookup_prop (set_prop props k v) k = v.
Proof.
  induction props as [|[k' v'] props IH]; simpl.
  - now rewrite String.eqb_refl.
  - destruct (String.eqb_spec k' k) as [->|Hne]; simpl.
    + now rewrite String.eqb_refl.
    + destruct (String.eqb_spec k' k); [contradiction|exact IH].
Qed.

Lemma lookup_set_prop_ne props k k' v :
  k <> k' -> lookup_prop (set_prop props k v) k' = lookup_prop props k'.
Proof.
  intros Hne. induction props as [|[k0 v0] props IH]; simpl.
  - destruct (String.eqb_spec k k'); [contradiction|reflexivity].
  - destruct (String.eqb_spec k0 k) as [->|H0]; simpl.
    + destruct (String.eqb_spec k k'); [contradiction|reflexivity].
    + destruct (String.eqb_spec k0 k'); [reflexivity|exact IH].
Qed.

Lemma assign_all_snoc base over k v :
  assign_all base (over ++ [(k, v)]) = set_prop (assign_all base over) k v.
Proof. unfold assign_all. now rewrite fold_left_app. Qed.

Lemma has_key_app props1 props2 k :
  has_key (props1 ++ props2) k = has_key props1 k || has_key props2 k.
Proof. unfold has_key. apply existsb_app. Qed.

Lemma lookup_prop_app props1 props2 k :
  lookup_prop (props1 ++ props2) k =
  if has_key props1 k then lookup_prop props1 k else lookup_prop props2 k.
Proof.
  induction props1 as [|[k' v'] props1 IH]; simpl; [reflexivity|].
  destruct (String.eqb k' k); simpl; [reflexivity|exact IH].
Qed.

Lemma has_key_In props k : has_key props k = true -> In k (map fst props).
Proof.
  induction props as [|[k' v'] props IH]; simpl; [discriminate|].
  destruct (String.eqb_spec k' k); simpl; auto.
Qed.

(** [{...base, ...over}] read at [k]: the value given by [over] if it has
    the key, the value of [base] otherwise.  (An object has each key once.) *)
Lemma lookup_assign_all base over k :
  NoDup (map fst over) ->
  lookup_prop (assign_all base over) k =
  if has_key over k then lookup_prop over k else lookup_prop base k.
Proof.
  induction over as [|[k' v'] over IH] using rev_ind; intros Hd; [reflexivity|].
  rewrite assign_all_snoc, has_key_app, lookup_prop_app.
  rewrite map_app in Hd. apply NoDup_app in Hd as (Hd & Hnot & _).
  destruct (String.eqb_spec k' k) as [->|Hne].
  - rewrite lookup_set_prop_eq.
    destruct (has_key over k) eqn:Hk.
    + exfalso. apply has_key_In in Hk. apply (Hnot k).
      * now apply list_elem_of_In.
      * simpl. left.
    + simpl. now rewrite String.eqb_refl.
  - rewrite lookup_set_prop_ne by assumption. rewrite (IH Hd).
    destruct (has_key over k); simpl; [reflexivity|].
    destruct (String.eqb_spec k' k); [contradiction|reflexivity].
Qed.

End ObjectFacts.

(** C4, as the code has it.  [updateTodo] overlays every property present in
    the update over the existing todo, [createdAt] included when it is
    supplied (and [id] too, should a caller get past the type that omits
    it); properties absent from the update keep their value, so [id] and
    [createdAt] are unchanged when the update does not carry them;
    [updatedAt] is always set to the current time, whatever the update
    says, and is therefore not earlier than the previous [updatedAt]
    whenever that one was not later than the clock. *)
Theorem updateTodo_overlays {RT : Runtime}
  (existing updates : list (string * value)) (s : State) :
  NoDup (map fst updates) ->
  exists updated s',
    TodoUtils.updateTodo (VObj existing) (VObj updates) s = (Return (VObj updated), s') /\
    (forall k, k <> "updatedAt" ->
       lookup_prop updated k =
       if has_key updates k then lookup_prop updates k else lookup_prop existing k) /\
    lookup_prop updated "updatedAt" = VStr (toISOString (clock (ticks (world s)))) /\
    (has_key updates "id" = false ->
     lookup_prop updated "id" = lookup_prop existing "id") /\
    (has_key updates "createdAt" = false ->
     lookup_prop updated "createdAt" = lookup_prop existing "createdAt") /\
    (forall previous p,
       lookup_prop existing "updatedAt" = VStr previous ->
       Date_parse previous = Some p ->
       p <= clock (ticks (world s)) ->
       Date_parse (toISOString (clock (ticks (world s)))) = Some (clock (ticks (world s))) ->
       exists current n,
         lookup_prop updated "updatedAt" = VStr current /\
         Date_parse current = Some n /\ p <= n).
Proof.
  intros Hd. unfold TodoUtils.updateTodo. unfold bind. rewrite getCurrentTimestamp_spec.
  unfold ret. do 2 eexists. split; [reflexivity|].
  assert (Hk : forall k, k <> "updatedAt" ->
            lookup_prop (set_prop (assign_all existing updates) "updatedAt"
                           (VStr (toISOString (clock (ticks (world s)))))) k =
            if has_key updates k then lookup_prop updates k else lookup_prop existing k).
  { intros k Hne. rewrite lookup_set_prop_ne by congruence.
    now apply lookup_assign_all. }
  cbn [own_props]. split; [exact Hk|]. split; [apply lookup_set_prop_eq|].
  split; [|split].
  - intros H. rewrite Hk by discriminate. now rewrite H.
  - intros H. rewrite Hk by discriminate. now rewrite H.
  - intros previous p _ _ Hle Hparse. rewrite lookup_set_prop_eq. eauto.
Qed.

(** Renaming and completing [Sample.milk]. *)
Lemma updateTodo_overlays_witness :
  NoDup (map fst [("title", VStr "Buy oat milk"); ("completed", VBool true)]) /\
  exists updated s',
    TodoUtils.updateTodo (RT := Reference.runtime) (of_Todo Sample.milk)
      (VObj [("title", VStr "Buy oat milk"); ("completed", VBool true)])
      (Sample.ready_store Reference.empty_world) = (Return (VObj updated), s') /\
    lookup_prop updated "title" = VStr "Buy oat milk" /\
    lookup_prop updated "id" = VStr (id Sample.milk) /\
    lookup_prop updated "createdAt" = VStr (createdAt Sample.milk) /\
    lookup_prop updated "updatedAt" = VStr "2026-11-03T00:00:00.000Z" /\
    exists current n,
      lookup_prop updated "updatedAt" = VStr current /\
      @Date_parse Reference.runtime current = Some n /\
      1793611800000 <= n.
Proof.
  assert (Hd : NoDup (map fst [("title", VStr "Buy oat milk"); ("completed", VBool true)])).
  { apply (bool_decide_unpack _). vm_compute. exact I. }
  split; [exact Hd|].
  destruct (updateTodo_overlays (RT := Reference.runtime)
              [ ("id", VStr (id Sample.milk));
                ("title", VStr (title Sample.milk));
                ("description", VStr (description Sample.milk));
                ("completed", VBool (completed Sample.milk));
                ("createdAt", VStr (createdAt Sample.milk));
                ("updatedAt", VStr (updatedAt Sample.milk));
                ("dueDate", VUndefined);
                ("priority", VStr "medium");
                ("tags", VArr []) ]
              [("title", VStr "Buy oat milk"); ("completed", VBool true)]
              (Sample.ready_store Reference.empty_world) Hd)
    as (updated & s' & E & Hk & Hu & Hid & Hc & Ht).
  exists updated, s'. split; [exact E|].
  split; [exact (Hk "title" ltac:(discriminate))|].
  split; [exact (Hid eq_refl)|]. split; [exact (Hc eq_refl)|]. split; [exact Hu|].
  apply (Ht Sample.stamp 1793611800000); [reflexivity|reflexivity|vm_compute; discriminate|reflexivity].
Defined.

(** A match reported by the search is an element carrying the identifier. *)
Lemma findIndexM_found {RT : Runtime} id l : forall n s i s',
  findIndexM (TodoStorage.has_id (VStr id)) l n s = (Return (Some i), s') ->
  (n <= i)%nat /\
  exists x, nth_error l (i - n) = Some x /\ id_string x = Some id.
Proof.
  induction l as [|v l IH]; intros n s i s' E; simpl in E; [discriminate|].
  apply bind_Return in E as (b & s1 & E1 & E).
  destruct b.
  - inversion E; subst. split; [lia|]. exists v. rewrite Nat.sub_diag. split; [reflexivity|].
    unfold TodoStorage.has_id in E1. apply bind_Return in E1 as (x & s2 & P & E1).
    inversion E1 as [Q]. unfold prop in P. unfold id_string.
    destruct (get_prop v "id") as [y|]; [|discriminate]. inversion P; subst.
    destruct x; try discriminate. simpl in Q.
    apply String.eqb_eq in Q. now subst.
  - apply IH in E as (Hle & x & Hx & Hid). split; [lia|]. exists x. split; [|exact Hid].
    replace (i - n)%nat with (S (i - S n)) by lia. exact Hx.
Qed.

(** What [TodoStorage.updateTodo] returns is the overlay computed by
    [TodoUtils.updateTodo] from a stored todo that carries the identifier. *)
Lemma storage_updateTodo_result {RT : Runtime} id updates s updated s' :
  TodoStorage.updateTodo id updates s = (Return updated, s') ->
  exists existing s1,
    In existing (todos (data (this s))) /\
    id_string existing = Some id /\
    TodoUtils.updateTodo existing updates s = (Return updated, s1).
Proof.
  unfold TodoStorage.updateTodo. intros E.
  apply bind_Return in E as ([] & s0 & E0 & E).
  assert (s0 = s) as ->.
  { unfold TodoStorage.ensureInitialized in E0. unfold_monad.
    destruct (isInitialized (this s)); inversion E0; reflexivity. }
  apply bind_Return in E as (t & s0 & Et & E). inversion Et; subst t s0. clear Et.
  apply bind_Return in E as (found & s0 & F & E).
  pose proof (findIndexM_frame _ _ _ _ _ _ F); subst s0.
  destruct found as [i|]; [|discriminate].
  apply bind_Return in E as (u & s1 & Eu & E).
  apply bind_Return in E as ([] & s2 & _ & E).
  apply bind_Return in E as ([] & s3 & _ & E).
  apply bind_Return in E as ([] & s4 & _ & E).
  apply bind_Return in E as (ks & s5 & _ & E). inversion E; subst u s5. clear E.
  apply findIndexM_found in F as (_ & x & Hx & Hid). rewrite Nat.sub_0_r in Hx.
  exists x, s1. split; [eapply nth_error_In; eauto|]. split; [exact Hid|].
  rewrite (nth_error_nth _ _ VUndefined Hx) in Eu. exact Eu.
Qed.

(** C4, as the specification words it, fails: an update that supplies
    [createdAt] (which the parameter type of [TodoStorage.updateTodo],
    [Partial<Omit<Todo, 'id'>>], allows) replaces the stored [createdAt]. *)
Lemma updateTodo_overwrites_createdAt :
  exists updated s',
    TodoStorage.updateTodo (RT := Reference.runtime) (id Sample.milk)
      (VObj [("createdAt", VStr "2000-01-01T00:00:00.000Z")])
      (Sample.ready_store Reference.empty_world) = (Return updated, s') /\
    get_prop (of_Todo Sample.milk) "createdAt" = Some (VStr "2026-11-02T09:30:00.000Z") /\
    get_prop updated "createdAt" = Some (VStr "2000-01-01T00:00:00.000Z") /\
    List.nth 0 (todos (data (this s'))) VUndefined = updated.
Proof.
  do 2 eexists. split; [vm_compute; reflexivity|].
  split; [reflexivity|split; reflexivity].
Qed.

(** ** C3: reading the store file during [initialize] *)
Section InitializeFacts.

Context {RT : Runtime}.

Lemma mkdir_ok dir t f rest k u sl :
  mkdir dir (mkState t (mkWorld f (None :: rest) k u sl)) =
  (Return tt, mkState t (mkWorld f rest k u sl)).
Proof. reflexivity. Qed.

(** A read that fails makes [loadFromFile] fail with the same error. *)
Lemma loadFromFile_fault t f ft rest k u sl :
  TodoStorage.loadFromFile (mkState t (mkWorld f (Some ft :: rest) k u sl)) =
  (Throw (fault_error ft), mkState t (mkWorld f rest k u sl)).
Proof. reflexivity. Qed.

Lemma has_code_fault f c :
  errno f <> Some c -> has_code (fault_error f) c = false.
Proof.
  unfold has_code, fault_error; simpl. destruct (errno f) as [c'|]; [|reflexivity].
  intros H. destruct (String.eqb_spec c' c); [subst; contradiction|reflexivity].
Qed.

Ltac run_initialize :=
  repeat first
    [ rewrite mkdir_ok
    | rewrite loadFromFile_fault
    | progress unfold bind, try_catch, sleep, get_world, put_world, get_this,
        set_isInitialized, put_this, ret, throw, RetryHandler.fail_after, initialized
    | progress cbn [fault_error is_ValidationError is_NotFoundError orb Nat.eqb
                    world this fs faults ticks uuids sleeps filePath data
                    isInitialized error_message map app] ].

(** C3, as the code has it.  When the directory exists and the first read of
    the store file fails for a reason other than not-found, [initialize]
    reads again up to 3 times, sleeping 1 second before the second of these
    readings and 2 seconds before the third (the delay doubles).  If all
    three fail too, it throws a [StorageError] that names the last failure
    and the store stays uninitialized; if one of them succeeds, the store is
    initialized from it. *)
Theorem initialize_read_retry (s : State) (f0 : io_fault) :
  errno f0 <> Some "ENOENT" ->
  (forall f1 f2 f3 rest,
     faults (world s) = None :: Some f0 :: Some f1 :: Some f2 :: Some f3 :: rest ->
     TodoStorage.initialize s =
       (Throw (StorageError
                 ("Failed to initialize storage: Operation failed after 3 attempts: "
                  +:+ fault_message f3)),
        after_faults 5 [1000; 2000] s)) /\
  (forall failed rest s',
     (List.length failed <= 2)%nat ->
     faults (world s) = None :: Some f0 :: map Some failed ++ rest ->
     TodoStorage.loadFromFile
       (after_faults (2 + List.length failed)
          (firstn (List.length failed) [1000; 2000]) s) = (Return tt, s') ->
     TodoStorage.initialize s = (Return tt, initialized s')).
Proof.
  intros Hcode. destruct s as [t [f fl k u sl]]. cbn [world faults]. split.
  - intros f1 f2 f3 rest ->.
    unfold TodoStorage.initialize, RetryHandler.withRetry, RetryHandler.attempts.
    run_initialize. rewrite (has_code_fault _ _ Hcode). run_initialize.
    unfold after_faults; cbn. rewrite <- app_assoc. reflexivity.
  - intros failed rest s' Hlen -> Hload.
    unfold TodoStorage.initialize, RetryHandler.withRetry, RetryHandler.attempts.
    run_initialize. rewrite (has_code_fault _ _ Hcode).
    unfold after_faults in Hload.
    destruct failed as [|f1 [|f2 [|f3 failed]]]; [| | |simpl in Hlen; lia];
      cbn [this world fs faults ticks uuids sleeps skipn firstn List.length
           Nat.add map app] in Hload;
      rewrite drop_0 in Hload; run_initialize.
    + rewrite app_nil_r in Hload. rewrite Hload. reflexivity.
    + change (1000 * 2 ^ (Z.of_nat 1 - 1)) with 1000.
      rewrite Hload. reflexivity.
    + change (1000 * 2 ^ (Z.of_nat 1 - 1)) with 1000.
      change (1000 * 2 ^ (Z.of_nat 2 - 1)) with 2000.
      rewrite <- app_assoc. cbn [app]. rewrite Hload. reflexivity.
Qed.

End InitializeFacts.

(** Four denied reads exhaust the retries; two denied reads are survived. *)
Lemma initialize_read_retry_witness :
  errno Flaky.eacces <> Some "ENOENT" /\
  TodoStorage.initialize (RT := Reference.runtime) (Flaky.denied 4) =
    (Throw (StorageError
              ("Failed to initialize storage: Operation failed after 3 attempts: "
               +:+ fault_message Flaky.eacces)),
     after_faults 5 [1000; 2000] (Flaky.denied 4)) /\
  exists s',
    TodoStorage.initialize (RT := Reference.runtime) (Flaky.denied 2) = (Return tt, s') /\
    isInitialized (this s') = true /\
    sleeps (world s') = [1000].
Proof.
  assert (H : errno Flaky.eacces <> Some "ENOENT") by discriminate.
  destruct (initialize_read_retry (RT := Reference.runtime) (Flaky.denied 4)
              Flaky.eacces H) as [H4 _].
  destruct (initialize_read_retry (RT := Reference.runtime) (Flaky.denied 2)
              Flaky.eacces H) as [_ H2].
  split; [exact H|]. split; [exact (H4 _ _ _ [] eq_refl)|].
  eexists. split.
  - apply (H2 [Flaky.eacces] []); [simpl; lia|reflexivity|vm_compute; reflexivity].
  - split; reflexivity.
Defined.

(** C3, as the specification words it, fails on both counts.  With the
    store file present and every read denied, the two delays slept between
    the retries are 1 second and 2 seconds, not 1 second each.  With a store
    file that is not JSON, the parse failure is retried like any other
    failure (the same two delays are slept) and what [initialize] throws is
    a [StorageError], not a [FileError]. *)
Lemma initialize_backoff_not_fixed :
  (exists e s',
     TodoStorage.initialize (RT := Reference.runtime) (Flaky.denied 4) = (Throw e, s') /\
     is_StorageError e = true /\
     sleeps (world s') = [1000; 2000] /\
     ~ Forall (fun delay => delay = 1000) (sleeps (world s'))) /\
  (exists s',
     TodoStorage.initialize (RT := Reference.runtime) Flaky.malformed =
       (Throw (StorageError
                 "Failed to initialize storage: Operation failed after 3 attempts: Invalid JSON in storage file"),
        s') /\
     sleeps (world s') = [1000; 2000]).
Proof.
  split.
  - do 2 eexists. split; [vm_compute; reflexivity|].
    split; [reflexivity|split; [reflexivity|]].
    intros H. inversion H as [|? ? _ H']; subst. inversion H' as [|? ? H1 _]; subst.
    discriminate.
  - eexists. split; [vm_compute; reflexivity|reflexivity].
Qed.

(** ** C9: the backup path *)

Lemma replace_first_absent pattern replacement s :
  occurs pattern s = false -> replace_first pattern replacement s = s.
Proof.
  induction s as [|c s IH]; simpl; intros H; apply orb_false_iff in H as [-> H].
  - reflexivity.
  - now rewrite IH.
Qed.

(** When the store path does not contain [".json"], the path computed by
    [createBackup] is the store path itself: the "backup" is written over
    the store file. *)
Lemma createBackup_no_suffix {RT : Runtime} (s : State) :
  isInitialized (this s) = true ->
  faults (world s) = [] ->
  occurs ".json" (filePath (this s)) = false ->
  exists s',
    TodoStorage.createBackup s = (Return (filePath (this s)), s') /\
    fs (world s') =
      <[filePath (this s) := JSON_stringify (TodoList_to_value (data (this s)))]>
        (fs (world s)).
Proof.
  intros Hinit Hf Hno. destruct s as [t [f fl k u sl]]. cbn in Hinit, Hf, Hno. subst fl.
  unfold TodoStorage.createBackup, TodoStorage.ensureInitialized, TodoUtils.Date_now,
    writeFile, next_fault.
  unfold_monad. cbn. rewrite Hinit. cbn.
  rewrite (replace_first_absent _ _ _ Hno). cbn. eauto.
Qed.

(** C9, at the input where the code departs from it: for the store path
    [./todos.db], [createBackup] returns the store path itself and writes
    the serialized list over the store file; no sibling file is created. *)
Example createBackup_overwrites_store :
  exists s',
    TodoStorage.createBackup (RT := Reference.runtime) Plain.store =
      (Return (filePath (this Plain.store)), s') /\
    filePath (this Plain.store) = "./todos.db" /\
    fs (world s') =
      {[ "./todos.db" := JSON_stringify (TodoList_to_value (data (this Plain.store))) ]}.
Proof.
  eexists. split; [vm_compute; reflexivity|]. split; reflexivity.
Qed.

(** At the default path the backup is a sibling file, as the claim says. *)
Example createBackup_default_path :
  exists s',
    TodoStorage.createBackup (RT := Reference.runtime) Plain.default_store =
      (Return "./todos_backup_2026-11-03T00-00-00-000Z.json", s') /\
    fs (world s') !! "./todos_backup_2026-11-03T00-00-00-000Z.json" =
      Some (JSON_stringify (TodoList_to_value (data (this Plain.default_store)))) /\
    fs (world s') !! "./todos.json" = None.
Proof.
  eexists. split; [vm_compute; reflexivity|]. split; reflexivity.
Qed.

(** ** C1: reloading a migrated file *)

(** C1, at the input where the code departs from it.  The legacy array is
    migrated and persisted, and the first [initialize] succeeds with one
    todo whose [id] is still ["a"].  The file it has written is rejected by
    the same pipeline: [TodoListSchema] refuses it ([id] is not a UUID) and
    [migrateData] refuses it (it is not an array and it has [metadata]), so
    [validateAndMigrate] throws and a second [initialize] on the same path
    fails. *)
Example migrated_file_rejected_on_reload :
  exists s1 persisted,
    TodoStorage.initialize (RT := Reference.runtime) Legacy.store = (Return tt, s1) /\
    map id_string (todos (data (this s1))) = [Some "a"] /\
    fs (world s1) !! "/test/todos.json" = Some (JsonText persisted) /\
    persisted = json_roundtrip (TodoList_to_value (data (this s1))) /\
    TodoListSchema (RT := Reference.runtime) persisted = None /\
    TodoStorage.validateAndMigrate (RT := Reference.runtime) persisted s1 =
      (Throw (ValidationError "Unable to migrate todo data - unsupported format"), s1) /\
    fst (TodoStorage.initialize (RT := Reference.runtime)
           (TodoStorage.constructor (RT := Reference.runtime) "/test/todos.json" (world s1)))
    = Throw (StorageError
               "Failed to initialize storage: Unable to migrate todo data - unsupported format").
Proof.
  do 2 eexists. split; [vm_compute; reflexivity|].
  split; [reflexivity|]. split; [vm_compute; reflexivity|].
  split; [reflexivity|]. split; [reflexivity|]. split; vm_compute; reflexivity.
Qed.

(** ** C6: migrating a legacy array *)
Section ArrayMigration.

Context {RT : Runtime}.

Lemma coerced_mono u0 u1 k0 k1 u0' u1' k0' k1' x y :
  (u0' <= u0)%nat -> (u1 <= u1')%nat -> (k0' <= k0)%nat -> (k1 <= k1')%nat ->
  coerced u0 u1 k0 k1 x y -> coerced u0' u1' k0' k1' x y.
Proof.
  intros ? ? ? ? (i & c & u & -> & Hi & Hc & Hu). exists i, c, u.
  split; [reflexivity|]. repeat split.
  - destruct (truthy (read x "id")); [assumption|].
    destruct Hi as (n & ? & ?); exists n; split; [lia|assumption].
  - destruct (truthy (read x "createdAt")); [assumption|].
    destruct Hc as (n & ? & ?); exists n; split; [lia|assumption].
  - destruct (truthy (read x "updatedAt")); [assumption|].
    destruct Hu as (n & ? & ?); exists n; split; [lia|assumption].
Qed.

Lemma coerced_object u0 u1 k0 k1 x y : coerced u0 u1 k0 k1 x y -> nullish y = false.
Proof. intros (i & c & u & -> & _). reflexivity. Qed.

Lemma migrate_element_nullish x s r s' :
  nullish x = true -> TodoStorage.migrate_element x s = (r, s') ->
  exists e, r = Throw e.
Proof.
  intros Hx. unfold TodoStorage.migrate_element, prop.
  rewrite (get_prop_nullish x _ Hx). unfold_monad. intros E; inversion E; eauto.
Qed.

Lemma migrate_element_spec x s :
  nullish x = false ->
  exists y s',
    TodoStorage.migrate_element x s = (Return y, s') /\
    coerced (uuids (world s)) (uuids (world s')) (ticks (world s)) (ticks (world s')) x y /\
    counters_moved s s'.
Proof.
  intros Hx. destruct s as [t [f fl k u sl]].
  unfold TodoStorage.migrate_element, prop, coerced, counters_moved, read.
  unfold TodoUtils.generateId, TodoUtils.getCurrentTimestamp, TodoUtils.Date_now.
  destruct x as [| |b|n|str|xs|props]; try discriminate; cbn [get_prop];
    unfold_monad;
    [cbn [truthy]..|
     destruct (truthy (lookup_prop props "id")),
              (truthy (lookup_prop props "createdAt")),
              (truthy (lookup_prop props "updatedAt"))];
    cbn [this world fs faults ticks uuids sleeps];
    do 2 eexists; (split; [reflexivity|]);
    (split; [do 3 eexists; split; [reflexivity|]|]);
    cbn [this world fs faults ticks uuids sleeps];
    repeat split; try reflexivity; try lia;
    try (eexists; split; [|reflexivity]; lia).
Qed.

Lemma counters_moved_refl s : counters_moved s s.
Proof. unfold counters_moved; auto 10. Qed.

Lemma counters_moved_trans s1 s2 s3 :
  counters_moved s1 s2 -> counters_moved s2 s3 -> counters_moved s1 s3.
Proof.
  unfold counters_moved; intros (?&?&?&?&?&?) (?&?&?&?&?&?).
  repeat split; try congruence; lia.
Qed.

(** The [map] of the array migration, run to the end. *)
Lemma map_migrate_spec xs : forall s,
  Forall (fun v => nullish v = false) xs ->
  exists ys s',
    mapM' TodoStorage.migrate_element xs s = (Return ys, s') /\
    Forall2 (coerced (uuids (world s)) (uuids (world s'))
               (ticks (world s)) (ticks (world s'))) xs ys /\
    counters_moved s s'.
Proof.
  induction xs as [|x xs IH]; intros s Hxs.
  - exists [], s. split; [reflexivity|split; [constructor|apply counters_moved_refl]].
  - inversion Hxs as [|? ? Hx Hxs']; subst.
    destruct (migrate_element_spec x s Hx) as (y & s1 & E1 & C1 & M1).
    destruct (IH s1 Hxs') as (ys & s2 & E2 & C2 & M2).
    exists (y :: ys), s2. split; [|split].
    + simpl. unfold bind at 1. rewrite E1. unfold bind at 1. rewrite E2. reflexivity.
    + destruct M1 as (_&_&_&_&?&?), M2 as (_&_&_&_&?&?).
      constructor.
      * eapply coerced_mono; [| | | |exact C1]; lia.
      * eapply Forall2_impl; [exact C2|]. intros a b Hab.
        eapply coerced_mono; [| | | |exact Hab]; lia.
    + eapply counters_moved_trans; eauto.
Qed.

(** A [map] that returns has read every element. *)
Lemma map_migrate_Return xs : forall s ys s',
  mapM' TodoStorage.migrate_element xs s = (Return ys, s') ->
  Forall (fun v => nullish v = false) xs.
Proof.
  induction xs as [|x xs IH]; intros s ys s' E; [constructor|].
  simpl in E. apply bind_Return in E as (y & s1 & E1 & E).
  apply bind_Return in E as (ys' & s2 & E2 & _).
  constructor; [|eauto].
  destruct (nullish x) eqn:Hx; [|reflexivity].
  destruct (migrate_element_nullish x s _ _ Hx E1) as [e He]. discriminate.
Qed.

Lemma filter_completed_spec xs : forall s,
  Forall (fun v => nullish v = false) xs ->
  filterM TodoStorage.is_completed xs s = (Return (List.filter is_done xs), s).
Proof.
  induction xs as [|x xs IH]; intros s Hxs; [reflexivity|].
  inversion Hxs as [|? ? Hx Hxs']; subst. simpl.
  assert (Hx' : TodoStorage.is_completed x s = (Return (is_done x), s)).
  { unfold TodoStorage.is_completed, is_done, prop.
    destruct (get_prop_not_nullish x "completed" Hx) as [c ->]. reflexivity. }
  unfold bind at 1. rewrite Hx'. unfold bind at 1. rewrite (IH s Hxs').
  unfold ret. destruct (is_done x); reflexivity.
Qed.

Lemma Forall2_coerced_objects u0 u1 k0 k1 xs ys :
  Forall2 (coerced u0 u1 k0 k1) xs ys -> Forall (fun v => nullish v = false) ys.
Proof. induction 1; constructor; eauto using coerced_object. Qed.

End ArrayMigration.

(** C6.  In the legacy array migration every element of the array is
    coerced into a full todo by the rules of [coerced] above, the metadata
    is synthesized from the coerced list (version "1.0.0", counts
    computed), and whenever the migration returns the list it returns is
    the one the store holds and the one that has been written to the store
    file.  The migration does return when no element is [null] and no I/O
    fault occurs. *)
Theorem migrateData_array {RT : Runtime} (elements : list value) (s : State) :
  (forall migrated s',
     TodoStorage.migrateData (VArr elements) s = (Return migrated, s') ->
     Forall2 (coerced (uuids (world s)) (uuids (world s'))
                (ticks (world s)) (ticks (world s')))
       elements (todos migrated) /\
     version (metadata migrated) = "1.0.0" /\
     live_counts migrated /\
     data (this s') = migrated /\
     fs (world s') !! filePath (this s) =
       Some (JSON_stringify (TodoList_to_value migrated))) /\
  (Forall (fun v => nullish v = false) elements ->
   faults (world s) = [] ->
   exists migrated s',
     TodoStorage.migrateData (VArr elements) s = (Return migrated, s')).
Proof.
  split.
  - intros migrated s' E. unfold TodoStorage.migrateData in E.
    apply try_catch_Return in E; [|rethrows].
    apply bind_Return in E as (ts & sA & E1 & E).
    apply bind_Return in E as (now & sB & E2 & E).
    apply bind_Return in E as (done & sC & E3 & E).
    apply save_and_return in E as [Es ->].
    pose proof (map_migrate_Return _ _ _ _ E1) as Hxs.
    destruct (map_migrate_spec elements s Hxs) as (ys & s1 & E1' & C & M).
    rewrite E1' in E1. inversion E1; subst ts sA. clear E1.
    rewrite getCurrentTimestamp_spec in E2. inversion E2; subst now sB. clear E2.
    rewrite (filter_completed_spec elements _ Hxs) in E3. inversion E3; subst done sC.
    clear E3.
    pose proof (preserves_saveToFile _ _ _ Es) as (_ & _ & _ & Tk & _).
    apply saveToFile_post in Es as (P & _ & T & U & D & F).
    cbn in P, T, U, Tk, F. destruct M as (Mt & _ & _ & _ & Mk & Mu).
    split; [|split; [|split; [|split]]].
    + rewrite T. eapply Forall2_impl; [exact C|]. intros a b Hab.
      eapply coerced_mono; [| | | |exact Hab]; lia.
    + rewrite D. reflexivity.
    + rewrite D. apply live_counts_refreshed.
    + reflexivity.
    + rewrite F, D, Mt. apply lookup_insert_eq.
  - intros Hxs Hf.
    destruct (map_migrate_spec elements s Hxs) as (ys & s1 & E1 & C & M).
    destruct M as (Mt & _ & Mf & _).
    unfold TodoStorage.migrateData, try_catch. unfold bind at 1. rewrite E1.
    unfold bind at 1. rewrite getCurrentTimestamp_spec.
    unfold bind at 1. rewrite (filter_completed_spec elements _ Hxs).
    unfold bind at 1. unfold set_data at 1. unfold_monad. cbn [this world].
    match goal with
    | |- context [TodoStorage.saveToFile ?st] =>
        rewrite (saveToFile_no_fault st)
    end.
    + eauto.
    + cbn. eapply Forall2_coerced_objects; eauto.
    + cbn. congruence.
Qed.

(** Migrating an array of two incomplete elements. *)
Lemma migrateData_array_witness :
  Forall (fun v => nullish v = false) [VObj [("title", VStr "Old")]; VObj []] /\
  faults (world Legacy.store) = [] /\
  exists migrated s',
    TodoStorage.migrateData (RT := Reference.runtime)
      (VArr [VObj [("title", VStr "Old")]; VObj []]) Legacy.store
      = (Return migrated, s') /\
    Forall2 (coerced (RT := Reference.runtime)
               (uuids (world Legacy.store)) (uuids (world s'))
               (ticks (world Legacy.store)) (ticks (world s')))
      [VObj [("title", VStr "Old")]; VObj []] (todos migrated) /\
    fs (world s') !! "/test/todos.json" =
      Some (JSON_stringify (TodoList_to_value migrated)).
Proof.
  assert (H : Forall (fun v => nullish v = false) [VObj [("title", VStr "Old")]; VObj []]).
  { repeat constructor. }
  split; [exact H|]. split; [reflexivity|].
  destruct (migrateData_array (RT := Reference.runtime)
              [VObj [("title", VStr "Old")]; VObj []] Legacy.store) as [H1 H2].
  destruct (H2 H eq_refl) as (migrated & s' & E).
  destruct (H1 migrated s' E) as (C & _ & _ & _ & F).
  exists migrated, s'. split; [exact E|split; [exact C|exact F]].
Defined.

(** When the migrated todos do satisfy the schema, the reload returns the
    list that the migration wrote, and writes nothing. *)
Example migrated_file_reloads_when_valid :
  exists s1 persisted reloaded,
    TodoStorage.initialize (RT := Reference.runtime) LegacyValid.store = (Return tt, s1) /\
    fs (world s1) !! "/test/todos.json" = Some (JsonText persisted) /\
    persisted = json_roundtrip (TodoList_to_value (data (this s1))) /\
    TodoStorage.validateAndMigrate (RT := Reference.runtime) persisted s1 =
      (Return reloaded, s1) /\
    TodoList_to_value reloaded = persisted.
Proof.
  do 3 eexists. split; [vm_compute; reflexivity|].
  split; [vm_compute; reflexivity|]. split; [reflexivity|].
  split; vm_compute; reflexivity.
Qed.

(** The rules of [coerced] on an element that has none of the properties:
    every field takes its default. *)
Lemma coerced_defaults {RT : Runtime} u0 u1 k0 k1 x y :
  (forall k, read x k = VUndefined) ->
  coerced u0 u1 k0 k1 x y ->
  exists n k k',
    (u0 <= n < u1)%nat /\ (k0 <= k < k1)%nat /\ (k0 <= k' < k1)%nat /\
    y = VObj [ ("id", VStr (randomUUID n));
               ("title", VStr "Untitled");
               ("description", VStr "");
               ("completed", VBool false);
               ("createdAt", VStr (toISOString (clock k)));
               ("updatedAt", VStr (toISOString (clock k')));
               ("dueDate", VUndefined);
               ("priority", VStr "medium");
               ("tags", VArr []) ].
Proof.
  intros Hx (i & c & u & -> & Hi & Hc & Hu).
  rewrite !Hx in *. cbn in Hi, Hc, Hu.
  destruct Hi as (n & Hn & ->), Hc as (k & Hk & ->), Hu as (k' & Hk' & ->).
  exists n, k, k'. repeat split; try lia.
Qed.

(** * Further properties of the store *)

(** ** Looking up, deleting and clearing *)

Section Lookup.
Context {RT : Runtime}.

Lemma findIndexM_index_of id l : forall n s,
  Forall (fun v => nullish v = false) l ->
  findIndexM (TodoStorage.has_id (VStr id)) l n s =
  (Return (option_map (Nat.add n) (index_of id l)), s).
Proof.
  induction l as [|v l IH]; intros n s Hl; [reflexivity|].
  inversion Hl as [|? ? Hv Hl']; subst. simpl.
  unfold bind at 1. rewrite (has_id_spec id v s Hv).
  destruct (id_string v) as [j|].
  - destruct (String.eqb j id); [simpl; now rewrite Nat.add_0_r|].
    rewrite (IH (S n) s Hl'). destruct (index_of id l); simpl; [|reflexivity].
    repeat f_equal. lia.
  - rewrite (IH (S n) s Hl'). destruct (index_of id l); simpl; [|reflexivity].
    repeat f_equal. lia.
Qed.

Lemma index_of_None id l : index_of id l = None -> ~ In id (id_strings l).
Proof.
  induction l as [|v l IH]; simpl; [tauto|].
  unfold id_strings in *; simpl. destruct (id_string v) as [j|]; simpl.
  - destruct (String.eqb_spec j id) as [->|Hne]; [discriminate|].
    destruct (index_of id l); simpl; [discriminate|].
    intros _ [H|H]; [contradiction|]. now apply IH.
  - destruct (index_of id l); simpl; [discriminate|]. intros _. now apply IH.
Qed.

Lemma index_of_In id l : In id (id_strings l) -> exists i, index_of id l = Some i.
Proof.
  intros H. destruct (index_of id l) as [i|] eqn:E; [eauto|].
  now apply index_of_None in E.
Qed.

(** The position found splits the list around the first todo that carries
    the identifier. *)
Lemma index_of_Some id l : forall i,
  index_of id l = Some i ->
  exists before x after,
    l = before ++ x :: after /\
    List.length before = i /\
    id_string x = Some id /\
    ~ In id (id_strings before).
Proof.
  induction l as [|v l IH]; intros i E; [discriminate|]. simpl in E.
  assert (Hrest : forall i', option_map S (index_of id l) = Some i' ->
            (id_string v <> Some id) ->
            exists before x after,
              v :: l = before ++ x :: after /\ List.length before = i' /\
              id_string x = Some id /\ ~ In id (id_strings before)).
  { intros i' E' Hv. destruct (index_of id l) as [k|]; [|discriminate].
    inversion E'; subst. destruct (IH k eq_refl) as (b & x & a & -> & Hlen & Hx & Hb).
    exists (v :: b), x, a. repeat split; simpl; auto.
    unfold id_strings; simpl. destruct (id_string v) as [j|]; simpl; [|exact Hb].
    intros [->|H]; [congruence|contradiction]. }
  destruct (id_string v) as [j|] eqn:Ev.
  - destruct (String.eqb_spec j id) as [->|Hne].
    + inversion E; subst. exists [], v, l. repeat split; auto.
    + apply Hrest; [exact E|congruence].
  - apply Hrest; [exact E|discriminate].
Qed.

Lemma index_of_split id before x after :
  id_string x = Some id ->
  ~ In id (id_strings before) ->
  index_of id (before ++ x :: after) = Some (List.length before).
Proof.
  intros Hx. induction before as [|v before IH]; intros Hb; simpl.
  - rewrite Hx, String.eqb_refl. reflexivity.
  - unfold id_strings in Hb; simpl in Hb.
    destruct (id_string v) as [j|]; simpl in Hb.
    + destruct (String.eqb_spec j id) as [->|Hne]; [exfalso; apply Hb; now left|].
      rewrite IH by tauto. reflexivity.
    + rewrite IH by tauto. reflexivity.
Qed.

Lemma In_id_strings_middle id before x after :
  id_string x = Some id -> In id (id_strings (before ++ x :: after)).
Proof.
  intros Hx. rewrite id_strings_app. apply in_or_app. right.
  unfold id_strings; simpl. rewrite Hx. now left.
Qed.

End Lookup.

(** X1.  On an initialized store whose elements can all be read,
    [getTodoById] returns the first stored todo that carries the identifier,
    and [null] (not an error) when none does; in both cases the state is
    exactly as before. *)
Theorem getTodoById_result {RT : Runtime} (s : State) (id : string) :
  isInitialized (this s) = true ->
  Forall (fun v => nullish v = false) (todos (data (this s))) ->
  (~ In id (id_strings (todos (data (this s)))) ->
   TodoStorage.getTodoById id s = (Return VNull, s)) /\
  (forall before x after,
     todos (data (this s)) = before ++ x :: after ->
     id_string x = Some id ->
     ~ In id (id_strings before) ->
     TodoStorage.getTodoById id s = (Return x, s)).
Proof.
  intros Hinit Hl.
  assert (E : TodoStorage.getTodoById id s =
              (Return match index_of id (todos (data (this s))) with
                      | Some i => or_else (List.nth i (todos (data (this s))) VUndefined) VNull
                      | None => VNull
                      end, s)).
  { unfold TodoStorage.getTodoById, TodoStorage.ensureInitialized.
    unfold bind at 1. unfold bind at 1. unfold get_this at 1. rewrite Hinit.
    unfold ret at 1. unfold bind at 1. unfold get_this at 1. unfold bind at 1.
    rewrite (findIndexM_index_of id _ 0%nat s Hl).
    destruct (index_of id (todos (data (this s)))); reflexivity. }
  split.
  - intros Hno. rewrite E. destruct (index_of id _) as [i|] eqn:Ei; [|reflexivity].
    apply index_of_Some in Ei as (b & x & a & Hsplit & _ & Hx & _).
    exfalso. apply Hno. rewrite Hsplit. now apply In_id_strings_middle.
  - intros before x after Hsplit Hx Hb. rewrite E, Hsplit.
    rewrite (index_of_split id before x after Hx Hb), nth_middle.
    unfold id_string in Hx. destruct x; try discriminate; reflexivity.
Qed.

Section Delete.
Context {RT : Runtime}.

Lemma without_middle (before : list value) x after :
  without (List.length before) (before ++ x :: after) = before ++ after.
Proof.
  unfold without. induction before as [|b before IH]; cbn; [reflexivity|].
  f_equal. exact IH.
Qed.

(** [deleteTodo] once the guard has passed and every element can be read. *)
Lemma deleteTodo_run s id :
  isInitialized (this s) = true ->
  Forall (fun v => nullish v = false) (todos (data (this s))) ->
  TodoStorage.deleteTodo id s =
  match index_of id (todos (data (this s))) with
  | None => (Return false, s)
  | Some i =>
      match TodoStorage.saveToFile
              (with_data (mkTodoList (without i (todos (data (this s))))
                            (metadata (data (this s)))) s) with
      | (Return _, s') => (Return true, s')
      | (Throw e, s') => (Throw e, s')
      end
  end.
Proof.
  intros Hinit Hl. unfold TodoStorage.deleteTodo, TodoStorage.ensureInitialized.
  unfold bind at 1. unfold bind at 1. unfold get_this at 1. rewrite Hinit.
  unfold ret at 1. unfold bind at 1. unfold get_this at 1. unfold bind at 1.
  rewrite (findIndexM_index_of id _ 0%nat s Hl).
  destruct (index_of id (todos (data (this s)))) as [i|]; [|reflexivity].
  cbn [option_map Nat.add]. unfold bind at 1. unfold set_data at 1. unfold_monad.
  unfold with_data, without.
  destruct (TodoStorage.saveToFile _) as [[[]|e] s']; reflexivity.
Qed.

End Delete.

(** X2.  Deleting an identifier that no stored todo carries returns [false]
    and changes nothing: no error, no write, the sequence as it was. *)
Theorem deleteTodo_absent {RT : Runtime} (s : State) (id : string) :
  isInitialized (this s) = true ->
  Forall (fun v => nullish v = false) (todos (data (this s))) ->
  ~ In id (id_strings (todos (data (this s)))) ->
  TodoStorage.deleteTodo id s = (Return false, s).
Proof.
  intros Hinit Hl Hno. rewrite (deleteTodo_run s id Hinit Hl).
  destruct (index_of id _) as [i|] eqn:E; [|reflexivity].
  apply index_of_Some in E as (b & x & a & Hsplit & _ & Hx & _).
  exfalso. apply Hno. rewrite Hsplit. now apply In_id_strings_middle.
Qed.

(** X3.  Deleting an identifier that is present removes exactly one record,
    the first that carries it, and keeps the others in order.  The removal
    from memory happens whatever the outcome: the call either returns
    [true], with the shortened list written to the store file under
    recomputed counts, or fails with a write [FileError] and leaves the file
    system untouched.  Without I/O faults it returns [true]. *)
Theorem deleteTodo_present {RT : Runtime} (s : State) (id : string)
  (before : list value) (x : value) (after : list value) :
  isInitialized (this s) = true ->
  Forall (fun v => nullish v = false) (todos (data (this s))) ->
  todos (data (this s)) = before ++ x :: after ->
  id_string x = Some id ->
  ~ In id (id_strings before) ->
  (forall r s',
     TodoStorage.deleteTodo id s = (r, s') ->
     todos (data (this s')) = before ++ after /\
     ((r = Return true /\ live_counts (data (this s')) /\
       fs (world s') !! filePath (this s) =
         Some (JSON_stringify (TodoList_to_value (data (this s'))))) \/
      ((exists m, r = Throw (FileError m op_write (filePath (this s)))) /\
       fs (world s') = fs (world s)))) /\
  (faults (world s) = [] ->
   exists s', TodoStorage.deleteTodo id s = (Return true, s')).
Proof.
  intros Hinit Hl Hsplit Hx Hb.
  pose proof (deleteTodo_run s id Hinit Hl) as E.
  rewrite Hsplit, (index_of_split id before x after Hx Hb), without_middle in E.
  assert (Hl' : Forall (fun v => nullish v = false) (before ++ after)).
  { rewrite Hsplit in Hl. apply Forall_app in Hl as [H1 H2]. inversion H2; subst.
    apply Forall_app; auto. }
  split.
  - intros r s' D. rewrite E in D.
    destruct (TodoStorage.saveToFile _) as [[[]|e] s1] eqn:S;
      inversion D; subst r s'; clear D.
    + pose proof (saveToFile_post _ _ _ S) as (P & _).
      apply saveToFile_saved in S as [(_ & _ & Hc & Hf) T]. cbn in T, Hf, P.
      split; [exact T|]. left. rewrite <- P. auto.
    + apply saveToFile_post in S as (_ & _ & T & _ & (m & ->) & F & _). cbn in T, F.
      split; [exact T|]. right. eauto.
  - intros Hf. rewrite E.
    rewrite saveToFile_no_fault; [eauto|exact Hl'|exact Hf].
Qed.

(** The three sample todos: [report] is found in second position, and no
    todo carries the seventh identifier. *)
Lemma getTodoById_result_witness :
  TodoStorage.getTodoById (id Sample.report)
    (Sample.ready_store Reference.empty_world) =
    (Return (of_Todo Sample.report), Sample.ready_store Reference.empty_world) /\
  TodoStorage.getTodoById (Reference.uuid 7)
    (Sample.ready_store Reference.empty_world) =
    (Return VNull, Sample.ready_store Reference.empty_world).
Proof.
  assert (Hl : Forall (fun v => nullish v = false)
                 (todos (data (this (Sample.ready_store Reference.empty_world))))).
  { repeat constructor. }
  split.
  - destruct (getTodoById_result (RT := Reference.runtime)
                (Sample.ready_store Reference.empty_world) (id Sample.report)
                eq_refl Hl) as [_ H].
    apply (H [of_Todo Sample.milk] (of_Todo Sample.report) [of_Todo Sample.taxes]).
    + reflexivity.
    + reflexivity.
    + vm_compute. intros [E|[]]. discriminate.
  - destruct (getTodoById_result (RT := Reference.runtime)
                (Sample.ready_store Reference.empty_world) (Reference.uuid 7)
                eq_refl Hl) as [H _].
    apply H. vm_compute. intros [E|[E|[E|[]]]]; discriminate.
Defined.

(** Deleting the seventh identifier from the sample store. *)
Lemma deleteTodo_absent_witness :
  TodoStorage.deleteTodo (RT := Reference.runtime) (Reference.uuid 7)
    (Sample.ready_store Reference.empty_world) =
    (Return false, Sample.ready_store Reference.empty_world).
Proof.
  apply (deleteTodo_absent (RT := Reference.runtime)
           (Sample.ready_store Reference.empty_world) (Reference.uuid 7)).
  - reflexivity.
  - repeat constructor.
  - vm_compute. intros [E|[E|[E|[]]]]; discriminate.
Defined.

(** Deleting [report] from the sample store leaves [milk] and [taxes]. *)
Lemma deleteTodo_present_witness :
  exists s',
    TodoStorage.deleteTodo (RT := Reference.runtime) (id Sample.report)
      (Sample.ready_store Reference.empty_world) = (Return true, s') /\
    todos (data (this s')) = [of_Todo Sample.milk; of_Todo Sample.taxes].
Proof.
  destruct (deleteTodo_present (RT := Reference.runtime)
              (Sample.ready_store Reference.empty_world) (id Sample.report)
              [of_Todo Sample.milk] (of_Todo Sample.report) [of_Todo Sample.taxes])
    as [H1 H2].
  - reflexivity.
  - repeat constructor.
  - reflexivity.
  - reflexivity.
  - vm_compute. intros [E|[]]. discriminate.
  - destruct (H2 eq_refl) as [s' E]. exists s'. split; [exact E|].
    exact (proj1 (H1 _ _ E)).
Defined.

(** X4.  [clearAllTodos] empties the list in memory whatever happens next.
    If it returns, the store file holds the empty list with both counts at
    zero and the version it had; if it fails, the error is a write
    [FileError] and no file has changed.  Without I/O faults it returns,
    even when the list held elements that cannot be read. *)
Theorem clearAllTodos_result {RT : Runtime} (s : State) :
  isInitialized (this s) = true ->
  (forall r s',
     TodoStorage.clearAllTodos s = (r, s') ->
     todos (data (this s')) = [] /\
     ((r = Return tt /\
       totalCount (metadata (data (this s'))) = 0 /\
       completedCount (metadata (data (this s'))) = 0 /\
       version (metadata (data (this s'))) = version (metadata (data (this s))) /\
       fs (world s') !! filePath (this s) =
         Some (JSON_stringify (TodoList_to_value (data (this s'))))) \/
      ((exists m, r = Throw (FileError m op_write (filePath (this s)))) /\
       fs (world s') = fs (world s)))) /\
  (faults (world s) = [] ->
   exists s', TodoStorage.clearAllTodos s = (Return tt, s')).
Proof.
  intros Hinit.
  assert (E : TodoStorage.clearAllTodos s =
              TodoStorage.saveToFile
                (with_data (mkTodoList [] (metadata (data (this s)))) s)).
  { unfold TodoStorage.clearAllTodos, TodoStorage.ensureInitialized.
    unfold bind at 1. unfold bind at 1. unfold get_this at 1. rewrite Hinit.
    unfold_monad. reflexivity. }
  rewrite E. split.
  - intros r s' S. apply saveToFile_post in S as (P & _ & T & _ & R).
    cbn in T, P. split; [exact T|]. destruct r as [[]|e].
    + destruct R as [D F]. left. rewrite D, F, <- D. cbn.
      rewrite D. cbn. repeat split. apply lookup_insert_eq.
    + destruct R as ((m & ->) & F & _). right. cbn in F. eauto.
  - intros Hf. rewrite saveToFile_no_fault; [eauto|constructor|exact Hf].
Qed.

(** Clearing the sample store. *)
Lemma clearAllTodos_result_witness :
  exists s',
    TodoStorage.clearAllTodos (RT := Reference.runtime)
      (Sample.ready_store Reference.empty_world) = (Return tt, s') /\
    todos (data (this s')) = [].
Proof.
  destruct (clearAllTodos_result (RT := Reference.runtime)
              (Sample.ready_store Reference.empty_world) eq_refl) as [H1 H2].
  destruct (H2 eq_refl) as [s' E]. exists s'. split; [exact E|].
  exact (proj1 (H1 _ _ E)).
Defined.

(** X5.  The four queries never touch the file system, never consume an
    I/O fault and never sleep, whatever their outcome.  [getAllTodos] and
    [getTodoById] leave the whole state as it was; [getStats] only reads
    the clock; [getTodoList] also rewrites the metadata in memory but keeps
    the todos. *)
Theorem queries_do_not_write {RT : Runtime} (s : State) :
  (forall r s', TodoStorage.getAllTodos s = (r, s') -> s' = s) /\
  (forall id r s', TodoStorage.getTodoById id s = (r, s') -> s' = s) /\
  (forall r s', TodoStorage.getStats s = (r, s') -> only_ticks s s') /\
  (forall r s',
     TodoStorage.getTodoList s = (r, s') ->
     fs (world s') = fs (world s) /\
     faults (world s') = faults (world s) /\
     sleeps (world s') = sleeps (world s) /\
     todos (data (this s')) = todos (data (this s))).
Proof.
  split; [|split; [|split]].
  - intros r s'.
    unfold TodoStorage.getAllTodos, TodoStorage.ensureInitialized. unfold_monad.
    destruct (isInitialized (this s)); congruence.
  - intros i r s'. unfold TodoStorage.getTodoById, TodoStorage.ensureInitialized.
    unfold bind at 1. unfold bind at 1. unfold get_this at 1.
    destruct (isInitialized (this s)); [|unfold_monad; congruence].
    unfold ret at 1. unfold bind at 1. unfold get_this at 1. unfold bind at 1.
    destruct (findIndexM _ _ _ s) as [[[k|]|e] s1] eqn:F;
      apply findIndexM_frame in F; subst s1; unfold_monad; congruence.
  - intros r s'. unfold TodoStorage.getStats, TodoStorage.ensureInitialized.
    unfold bind at 1. unfold bind at 1. unfold get_this at 1.
    destruct (isInitialized (this s)).
    + unfold ret at 1. unfold bind at 1. unfold get_this at 1.
      apply getStats_frame.
    + unfold_monad. intros E; inversion E. apply only_ticks_refl.
  - intros r s'. unfold TodoStorage.getTodoList, TodoStorage.ensureInitialized.
    unfold bind at 1. unfold bind at 1. unfold get_this at 1.
    destruct (isInitialized (this s));
      [|unfold_monad; intros E; inversion E; auto].
    unfold ret at 1. unfold bind at 1.
    destruct (TodoStorage.updateMetadata s) as [[[]|e] s1] eqn:U.
    + unfold_monad. intros E; inversion E; subst.
      destruct (nullish_somewhere (todos (data (this s)))) as [Hl|Hl].
      * rewrite (updateMetadata_ok s Hl) in U. inversion U. cbn. auto.
      * exfalso. unfold TodoStorage.updateMetadata in U.
        apply bind_Return in U as (t & s2 & Et & U). inversion Et; subst.
        apply bind_Return in U as (st & s3 & U & _).
        eapply forEach_nullish; eauto.
    + intros E; inversion E; subst.
      apply updateMetadata_throws in U as [_ (T&F&Fa&_&Sl&_)].
      rewrite T. auto.
Qed.

(** The statistics query on the sample store only reads the clock. *)
Lemma queries_do_not_write_witness :
  only_ticks (Sample.ready_store Reference.empty_world)
    (snd (TodoStorage.getStats (RT := Reference.runtime)
            (Sample.ready_store Reference.empty_world))) /\
  snd (TodoStorage.getAllTodos (Sample.ready_store Reference.empty_world)) =
    Sample.ready_store Reference.empty_world.
Proof.
  destruct (queries_do_not_write (RT := Reference.runtime)
              (Sample.ready_store Reference.empty_world)) as (H1 & _ & H3 & _).
  split.
  - exact (H3 _ _ (surjective_pairing _)).
  - exact (H1 _ _ (surjective_pairing _)).
Defined.

(** ** Adding and updating *)

Section AddUpdate.
Context {RT : Runtime}.

Lemma prop_Some v k x s : get_prop v k = Some x -> prop v k s = (Return x, s).
Proof. unfold prop. intros ->. reflexivity. Qed.

(** [addTodo] of a todo that passes the schema, once the guard has passed. *)
Lemma addTodo_run s todo y i :
  isInitialized (this s) = true ->
  Forall (fun v => nullish v = false) (todos (data (this s))) ->
  TodoUtils.validateTodo todo = Some y ->
  get_prop todo "id" = Some (VStr i) ->
  TodoStorage.addTodo todo s =
  match index_of i (todos (data (this s))) with
  | Some _ =>
      (Throw (ValidationError ("Todo with ID " +:+ i +:+ " already exists")), s)
  | None =>
      match TodoStorage.saveToFile
              (with_data (mkTodoList (todos (data (this s)) ++ [todo])
                            (metadata (data (this s)))) s) with
      | (Return _, s') => (Return todo, s')
      | (Throw e, s') => (Throw e, s')
      end
  end.
Proof.
  intros Hinit Hl Hv Hi. unfold TodoStorage.addTodo, TodoStorage.ensureInitialized.
  unfold bind at 1. unfold bind at 1. unfold get_this at 1. rewrite Hinit.
  unfold ret at 1. unfold bind at 1. rewrite Hv. unfold ret at 1.
  unfold bind at 1. rewrite (prop_Some _ _ _ _ Hi).
  unfold bind at 1. unfold get_this at 1. unfold bind at 1.
  rewrite (findIndexM_index_of i _ 0%nat s Hl).
  destruct (index_of i (todos (data (this s)))) as [k|]; [reflexivity|].
  cbn [option_map]. unfold bind at 1. unfold set_data at 1. unfold_monad.
  unfold with_data.
  destruct (TodoStorage.saveToFile _) as [[[]|e] s']; reflexivity.
Qed.

(** [updateTodo] once the guard has passed: the element found is merged,
    validated, stored in place and saved. *)
Lemma updateTodo_run s id updates :
  isInitialized (this s) = true ->
  Forall (fun v => nullish v = false) (todos (data (this s))) ->
  TodoStorage.updateTodo id updates s =
  match index_of id (todos (data (this s))) with
  | None => (Throw (NotFoundError "todo" id), s)
  | Some i =>
      match TodoUtils.updateTodo (List.nth i (todos (data (this s))) VUndefined)
              updates s with
      | (Throw e, s1) => (Throw e, s1)
      | (Return updated, s1) =>
          match TodoUtils.validateTodo updated with
          | None =>
              match Object_keys updates s1 with
              | (Return _, s2) =>
                  (Throw (ValidationError "Updated todo data is invalid"), s2)
              | (Throw e, s2) => (Throw e, s2)
              end
          | Some _ =>
              match TodoStorage.saveToFile
                      (with_data (mkTodoList (<[i := updated]> (todos (data (this s))))
                                    (metadata (data (this s)))) s1) with
              | (Return _, s2) =>
                  match Object_keys updates s2 with
                  | (Return _, s3) => (Return updated, s3)
                  | (Throw e, s3) => (Throw e, s3)
                  end
              | (Throw e, s2) => (Throw e, s2)
              end
          end
      end
  end.
Proof.
  intros Hinit Hl. unfold TodoStorage.updateTodo, TodoStorage.ensureInitialized.
  unfold bind at 1. unfold bind at 1. unfold get_this at 1. rewrite Hinit.
  unfold ret at 1. unfold bind at 1. unfold get_this at 1. unfold bind at 1.
  rewrite (findIndexM_index_of id _ 0%nat s Hl).
  destruct (index_of id (todos (data (this s)))) as [i|]; [|reflexivity].
  cbn [option_map Nat.add]. unfold bind at 1.
  destruct (TodoUtils.updateTodo _ updates s) as [[updated|e] s1]; [|reflexivity].
  unfold bind at 1.
  destruct (TodoUtils.validateTodo updated).
  - unfold ret at 1. unfold bind at 1. unfold set_data at 1.
    unfold bind at 1. unfold get_this at 1. unfold put_this at 1.
    unfold bind at 1. unfold with_data.
    destruct (TodoStorage.saveToFile _) as [[[]|e] s2]; [|reflexivity].
    unfold bind at 1. destruct (Object_keys updates s2) as [[ks|e] s3]; reflexivity.
  - unfold bind at 1. unfold bind at 1.
    destruct (Object_keys updates s1) as [[ks|e] s2]; reflexivity.
Qed.

Lemma util_updateTodo_run existing updates s :
  TodoUtils.updateTodo existing updates s =
  (Return (VObj (set_prop (assign_all (own_props existing) (own_props updates))
                   "updatedAt" (VStr (toISOString (clock (ticks (world s))))))),
   advance 1 s).
Proof.
  unfold TodoUtils.updateTodo, TodoUtils.getCurrentTimestamp, TodoUtils.Date_now, advance.
  unfold_monad. cbn. repeat f_equal. lia.
Qed.

Lemma Object_keys_run v s :
  nullish v = false -> exists ks, Object_keys v s = (Return ks, s).
Proof. destruct v; try discriminate; intros _; eexists; reflexivity. Qed.

Lemma insert_middle (before : list value) x y after :
  <[List.length before := y]> (before ++ x :: after) = before ++ y :: after.
Proof. induction before as [|b before IH]; cbn; [reflexivity|]. now f_equal. Qed.

End AddUpdate.

(** X6.  Adding a todo that passes the schema under an identifier not yet
    in use appends the argument itself, as the last element.  The todo is in
    memory whatever happens next: the call either returns it, with the
    longer list written to the store file under recomputed counts, or fails
    with a write [FileError], in which case no file has changed although
    the todo is already stored in memory.  Without I/O faults it returns. *)
Theorem addTodo_appends {RT : Runtime} (s : State) (todo : value) (i : string) :
  isInitialized (this s) = true ->
  Forall (fun v => nullish v = false) (todos (data (this s))) ->
  TodoUtils.validateTodo todo <> None ->
  get_prop todo "id" = Some (VStr i) ->
  ~ In i (id_strings (todos (data (this s)))) ->
  (forall r s',
     TodoStorage.addTodo todo s = (r, s') ->
     todos (data (this s')) = todos (data (this s)) ++ [todo] /\
     ((r = Return todo /\ live_counts (data (this s')) /\
       fs (world s') !! filePath (this s) =
         Some (JSON_stringify (TodoList_to_value (data (this s'))))) \/
      ((exists m, r = Throw (FileError m op_write (filePath (this s)))) /\
       fs (world s') = fs (world s)))) /\
  (faults (world s) = [] ->
   exists s', TodoStorage.addTodo todo s = (Return todo, s')).
Proof.
  intros Hinit Hl Hv Hi Hfresh.
  destruct (TodoUtils.validateTodo todo) as [y|] eqn:V; [clear Hv|congruence].
  pose proof (addTodo_run s todo y i Hinit Hl V Hi) as E.
  destruct (index_of i (todos (data (this s)))) as [k|] eqn:Ei.
  { apply index_of_Some in Ei as (b & x & a & Hsplit & _ & Hx & _).
    exfalso. apply Hfresh. rewrite Hsplit. now apply In_id_strings_middle. }
  assert (Hl' : Forall (fun v => nullish v = false) (todos (data (this s)) ++ [todo])).
  { apply Forall_app. split; [exact Hl|]. constructor; [|constructor].
    destruct todo; try discriminate; reflexivity. }
  split.
  - intros r s' A. rewrite E in A.
    destruct (TodoStorage.saveToFile _) as [[[]|e] s1] eqn:S;
      inversion A; subst r s'; clear A.
    + pose proof (saveToFile_post _ _ _ S) as (P & _).
      apply saveToFile_saved in S as [(_ & _ & Hc & Hf) T]. cbn in T, Hf, P.
      split; [exact T|]. left. rewrite <- P. auto.
    + apply saveToFile_post in S as (_ & _ & T & _ & (m & ->) & F & _). cbn in T, F.
      split; [exact T|]. right. eauto.
  - intros Hf. rewrite E. rewrite saveToFile_no_fault; [eauto|exact Hl'|exact Hf].
Qed.

(** X7.  A todo that does not pass [TodoSchema] is refused with the
    [ValidationError] "Invalid todo data" before anything else is looked
    at: the state is exactly as before. *)
Theorem addTodo_invalid {RT : Runtime} (s : State) (todo : value) :
  isInitialized (this s) = true ->
  nullish todo = false ->
  TodoUtils.validateTodo todo = None ->
  TodoStorage.addTodo todo s = (Throw (ValidationError "Invalid todo data"), s).
Proof.
  intros Hinit Hn Hv. unfold TodoStorage.addTodo, TodoStorage.ensureInitialized.
  unfold bind at 1. unfold bind at 1. unfold get_this at 1. rewrite Hinit.
  unfold ret at 1. unfold bind at 1. rewrite Hv. unfold bind at 1.
  destruct todo; try discriminate; reflexivity.
Qed.

(** X8.  Updating an identifier that no stored todo carries fails with
    [NotFoundError] for the resource [todo] and that identifier, and the
    state is exactly as before. *)
Theorem updateTodo_missing {RT : Runtime} (s : State) (id : string) (updates : value) :
  isInitialized (this s) = true ->
  Forall (fun v => nullish v = false) (todos (data (this s))) ->
  ~ In id (id_strings (todos (data (this s)))) ->
  TodoStorage.updateTodo id updates s = (Throw (NotFoundError "todo" id), s) /\
  error_message (NotFoundError "todo" id) = "todo not found: " +:+ id /\
  error_code (NotFoundError "todo" id) = Some "TODO_NOT_FOUND".
Proof.
  intros Hinit Hl Hno. rewrite (updateTodo_run s id updates Hinit Hl).
  destruct (index_of id _) as [i|] eqn:E; [|auto].
  apply index_of_Some in E as (b & x & a & Hsplit & _ & Hx & _).
  exfalso. apply Hno. rewrite Hsplit. now apply In_id_strings_middle.
Qed.

(** X9.  When the merged todo does not pass [TodoSchema], [updateTodo]
    fails with the [ValidationError] "Updated todo data is invalid" and
    nothing is stored or written: only the clock has been read, once. *)
Theorem updateTodo_invalid {RT : Runtime} (s : State) (id : string) (updates : value)
  (before : list value) (x : value) (after : list value)
  (updated : value) (s1 : State) :
  isInitialized (this s) = true ->
  Forall (fun v => nullish v = false) (todos (data (this s))) ->
  todos (data (this s)) = before ++ x :: after ->
  id_string x = Some id ->
  ~ In id (id_strings before) ->
  nullish updates = false ->
  TodoUtils.updateTodo x updates s = (Return updated, s1) ->
  TodoUtils.validateTodo updated = None ->
  TodoStorage.updateTodo id updates s =
    (Throw (ValidationError "Updated todo data is invalid"), advance 1 s).
Proof.
  intros Hinit Hl Hsplit Hx Hb Hu U V.
  rewrite (updateTodo_run s id updates Hinit Hl), Hsplit.
  rewrite (index_of_split id before x after Hx Hb), nth_middle, U, V.
  rewrite util_updateTodo_run in U. inversion U; subst s1.
  destruct (Object_keys_run updates (advance 1 s) Hu) as [ks ->]. reflexivity.
Qed.

(** X10.  When the merged todo passes [TodoSchema], [updateTodo] puts it in
    the place of the todo found (the first that carries the identifier) and
    leaves every other element where it was.  The replacement happens in
    memory whatever follows: the call either returns the merged todo, with
    the list written to the store file under recomputed counts, or fails
    with a write [FileError] and no file has changed.  Without I/O faults
    it returns. *)
Theorem updateTodo_replaces {RT : Runtime} (s : State) (id : string) (updates : value)
  (before : list value) (x : value) (after : list value)
  (updated : value) (s1 : State) :
  isInitialized (this s) = true ->
  Forall (fun v => nullish v = false) (todos (data (this s))) ->
  todos (data (this s)) = before ++ x :: after ->
  id_string x = Some id ->
  ~ In id (id_strings before) ->
  nullish updates = false ->
  TodoUtils.updateTodo x updates s = (Return updated, s1) ->
  TodoUtils.validateTodo updated <> None ->
  (forall r s',
     TodoStorage.updateTodo id updates s = (r, s') ->
     todos (data (this s')) = before ++ updated :: after /\
     ((r = Return updated /\ live_counts (data (this s')) /\
       fs (world s') !! filePath (this s) =
         Some (JSON_stringify (TodoList_to_value (data (this s'))))) \/
      ((exists m, r = Throw (FileError m op_write (filePath (this s)))) /\
       fs (world s') = fs (world s)))) /\
  (faults (world s) = [] ->
   exists s', TodoStorage.updateTodo id updates s = (Return updated, s')).
Proof.
  intros Hinit Hl Hsplit Hx Hb Hu U V.
  destruct (TodoUtils.validateTodo updated) as [y|] eqn:Vy; [clear V|congruence].
  pose proof (updateTodo_run s id updates Hinit Hl) as E.
  rewrite Hsplit, (index_of_split id before x after Hx Hb), nth_middle, U, Vy,
    insert_middle in E.
  assert (s1 = advance 1 s) by (rewrite util_updateTodo_run in U; congruence).
  subst s1.
  assert (Hu' : nullish updated = false).
  { rewrite util_updateTodo_run in U. inversion U. reflexivity. }
  assert (Hl' : Forall (fun v => nullish v = false) (before ++ updated :: after)).
  { rewrite Hsplit in Hl. apply Forall_app in Hl as [H1 H2]. inversion H2; subst.
    apply Forall_app; split; [auto|]. constructor; [exact Hu'|auto]. }
  split.
  - intros r s' A. rewrite E in A.
    destruct (TodoStorage.saveToFile _) as [[[]|e] s2] eqn:S.
    + destruct (Object_keys_run updates s2 Hu) as [ks K]. rewrite K in A.
      inversion A; subst r s'; clear A.
      pose proof (saveToFile_post _ _ _ S) as (P & _).
      apply saveToFile_saved in S as [(_ & _ & Hc & Hf) T]. cbn in T, Hf, P.
      split; [exact T|]. left. rewrite <- P. auto.
    + inversion A; subst r s'; clear A.
      apply saveToFile_post in S as (_ & _ & T & _ & (m & ->) & F & _). cbn in T, F.
      split; [exact T|]. right. eauto.
  - intros Hf. rewrite E. rewrite saveToFile_no_fault; [|exact Hl'|exact Hf].
    match goal with
    | |- context [Object_keys updates ?st] =>
        destruct (Object_keys_run updates st Hu) as [ks ->]
    end. eauto.
Qed.

(** Adding [Inbox.call] to the sample store. *)
Lemma addTodo_appends_witness :
  exists s',
    TodoStorage.addTodo (RT := Reference.runtime) (of_Todo Inbox.call)
      (Sample.ready_store Reference.empty_world) = (Return (of_Todo Inbox.call), s') /\
    todos (data (this s')) =
      [of_Todo Sample.milk; of_Todo Sample.report; of_Todo Sample.taxes;
       of_Todo Inbox.call].
Proof.
  destruct (addTodo_appends (RT := Reference.runtime)
              (Sample.ready_store Reference.empty_world) (of_Todo Inbox.call)
              (id Inbox.call)) as [H1 H2].
  - reflexivity.
  - repeat constructor.
  - vm_compute. discriminate.
  - reflexivity.
  - vm_compute. intros [E|[E|[E|[]]]]; discriminate.
  - destruct (H2 eq_refl) as [s' E]. exists s'. split; [exact E|].
    exact (proj1 (H1 _ _ E)).
Defined.

(** An object that has a title and nothing else is refused. *)
Lemma addTodo_invalid_witness :
  TodoStorage.addTodo (RT := Reference.runtime) Inbox.title_only
    (Sample.ready_store Reference.empty_world) =
    (Throw (ValidationError "Invalid todo data"),
     Sample.ready_store Reference.empty_world).
Proof.
  apply (addTodo_invalid (RT := Reference.runtime)
           (Sample.ready_store Reference.empty_world) Inbox.title_only);
    reflexivity.
Defined.

(** Updating the seventh identifier in the sample store. *)
Lemma updateTodo_missing_witness :
  TodoStorage.updateTodo (RT := Reference.runtime) (Reference.uuid 7) Inbox.complete
    (Sample.ready_store Reference.empty_world) =
    (Throw (NotFoundError "todo" (Reference.uuid 7)),
     Sample.ready_store Reference.empty_world).
Proof.
  apply (updateTodo_missing (RT := Reference.runtime)
           (Sample.ready_store Reference.empty_world) (Reference.uuid 7) Inbox.complete).
  - reflexivity.
  - repeat constructor.
  - vm_compute. intros [E|[E|[E|[]]]]; discriminate.
Defined.

(** Blanking the title of [milk] is refused. *)
Lemma updateTodo_invalid_witness :
  TodoStorage.updateTodo (RT := Reference.runtime) (id Sample.milk) Inbox.blank_title
    (Sample.ready_store Reference.empty_world) =
    (Throw (ValidationError "Updated todo data is invalid"),
     advance 1 (Sample.ready_store Reference.empty_world)).
Proof.
  eapply (updateTodo_invalid (RT := Reference.runtime)
            (Sample.ready_store Reference.empty_world) (id Sample.milk)
            Inbox.blank_title [] (of_Todo Sample.milk)
            [of_Todo Sample.report; of_Todo Sample.taxes]).
  - reflexivity.
  - repeat constructor.
  - reflexivity.
  - reflexivity.
  - intros [].
  - reflexivity.
  - apply util_updateTodo_run.
  - vm_compute. reflexivity.
Defined.

(** Completing [milk] in the sample store. *)
Lemma updateTodo_replaces_witness :
  exists updated s',
    TodoStorage.updateTodo (RT := Reference.runtime) (id Sample.milk) Inbox.complete
      (Sample.ready_store Reference.empty_world) = (Return updated, s') /\
    todos (data (this s')) =
      [updated; of_Todo Sample.report; of_Todo Sample.taxes] /\
    get_prop updated "completed" = Some (VBool true).
Proof.
  edestruct (updateTodo_replaces (RT := Reference.runtime)
               (Sample.ready_store Reference.empty_world) (id Sample.milk)
               Inbox.complete [] (of_Todo Sample.milk)
               [of_Todo Sample.report; of_Todo Sample.taxes]) as [H1 H2].
  - reflexivity.
  - repeat constructor.
  - reflexivity.
  - reflexivity.
  - intros [].
  - reflexivity.
  - apply util_updateTodo_run.
  - vm_compute. discriminate.
  - destruct (H2 eq_refl) as [s' E]. eexists. exists s'. split; [exact E|].
    split; [exact (proj1 (H1 _ _ E))|reflexivity].
Defined.

(** ** Starting up and saving *)

Section Startup.
Context {RT : Runtime}.

Lemma preserves_loadFromFile : preserves TodoStorage.loadFromFile.
Proof.
  unfold TodoStorage.loadFromFile; frame. apply preserves_validateAndMigrate.
Qed.

(** A computation followed by [this.isInitialized = true]: the flag is set
    exactly when the computation returns. *)
Lemma then_initialized (m : M unit) s r s' :
  preserves m ->
  (m ;; set_isInitialized true) s = (r, s') ->
  filePath (this s') = filePath (this s) /\
  match r with
  | Return _ => isInitialized (this s') = true
  | Throw e => isInitialized (this s') = isInitialized (this s) /\ m s = (Throw e, s')
  end.
Proof.
  intros Hm. unfold bind. destruct (m s) as [[[]|e] s1] eqn:E;
    apply Hm in E as HS; destruct HS as (P & I & _).
  - unfold_monad. intros X; inversion X; subst. cbn. auto.
  - intros X; inversion X; subst. auto.
Qed.

Lemma loadFromFile_absent s :
  faults (world s) = [] ->
  fs (world s) !! filePath (this s) = None ->
  TodoStorage.loadFromFile s =
  (Throw (SystemError (Some "ENOENT")
            ("ENOENT: no such file or directory, open '" +:+ filePath (this s) +:+ "'")),
   s).
Proof.
  destruct s as [t [f fl k u sl]]. cbn. intros -> Hf.
  unfold TodoStorage.loadFromFile, readFile, next_fault. unfold_monad. cbn.
  rewrite Hf. reflexivity.
Qed.

Lemma loadFromFile_valid s raw l :
  faults (world s) = [] ->
  fs (world s) !! filePath (this s) = Some (JsonText raw) ->
  TodoListSchema raw = Some l ->
  TodoStorage.loadFromFile s = (Return tt, with_data l s).
Proof.
  destruct s as [t [f fl k u sl]]. cbn. intros -> Hf Hs.
  unfold TodoStorage.loadFromFile, readFile, next_fault, TodoStorage.validateAndMigrate.
  unfold_monad. cbn. rewrite Hf. cbn. rewrite Hs. reflexivity.
Qed.

Lemma initialize_valid_run s raw l :
  faults (world s) = [] ->
  fs (world s) !! filePath (this s) = Some (JsonText raw) ->
  TodoListSchema raw = Some l ->
  TodoStorage.initialize s =
    (Return tt, mkState (mkTodoStorage (filePath (this s)) l true) (world s)).
Proof.
  intros Hf Ha Hs. unfold TodoStorage.initialize.
  unfold try_catch at 1. unfold bind at 1. unfold get_this at 1. unfold bind at 1.
  assert (Mk : mkdir (dirname (filePath (this s))) s = (Return tt, s)).
  { destruct s as [t [f fl k u sl]]. cbn in Hf; subst fl. reflexivity. }
  rewrite Mk. unfold try_catch at 1. unfold bind at 1.
  rewrite (loadFromFile_valid s raw l Hf Ha Hs). reflexivity.
Qed.

End Startup.

(** X11.  [initialize] sets the [isInitialized] flag exactly when it
    returns.  Every failure, whatever its cause, reaches the caller as a
    [StorageError] whose message starts with "Failed to initialize
    storage: ", and leaves the flag as it was.  The path never changes. *)
Theorem initialize_outcome {RT : Runtime} (s : State) (r : outcome unit) (s' : State) :
  TodoStorage.initialize s = (r, s') ->
  filePath (this s') = filePath (this s) /\
  match r with
  | Return _ => isInitialized (this s') = true
  | Throw e =>
      (exists m, e = StorageError ("Failed to initialize storage: " +:+ m)) /\
      isInitialized (this s') = isInitialized (this s)
  end.
Proof.
  unfold TodoStorage.initialize. unfold try_catch at 1.
  match goal with |- context [bind get_this ?k s] => set (inner := bind get_this k) end.
  assert (H : forall r1 s1, inner s = (r1, s1) ->
            filePath (this s1) = filePath (this s) /\
            match r1 with
            | Return _ => isInitialized (this s1) = true
            | Throw _ => isInitialized (this s1) = isInitialized (this s)
            end).
  { subst inner. intros r1 s1. unfold bind at 1. unfold get_this at 1. unfold bind at 1.
    destruct (mkdir _ s) as [[[]|e0] sA] eqn:Mk;
      apply preserves_mkdir in Mk as (PA & IA & _).
    2:{ intros X; inversion X; subst. auto. }
    unfold try_catch.
    destruct (bind TodoStorage.loadFromFile _ sA) as [[[]|e1] sB] eqn:L;
      apply then_initialized in L as (PB & L); try apply preserves_loadFromFile.
    { intros X; inversion X; subst. split; congruence. }
    destruct L as (IB & _).
    destruct (has_code e1 "ENOENT"); intros X;
      apply then_initialized in X as (PC & X);
      try apply preserves_saveToFile; try apply preserves_withRetry;
      try apply preserves_loadFromFile.
    all: split; [congruence|]; destruct r1; [exact X|destruct X; congruence]. }
  destruct (inner s) as [[[]|e] s1]; destruct (H _ _ eq_refl) as (P & I).
  - intros X; inversion X; subst. auto.
  - unfold throw. intros X; inversion X; subst. eauto.
Qed.

(** X12.  When the store file does not exist and no I/O fails,
    [initialize] writes the list held in memory to the store file, with
    refreshed counts and timestamp, and marks the store initialized,
    without sleeping.  For a store just constructed this creates the file
    with an empty list at version 1.0.0. *)
Theorem initialize_creates_file {RT : Runtime} (s : State) :
  faults (world s) = [] ->
  fs (world s) !! filePath (this s) = None ->
  Forall (fun v => nullish v = false) (todos (data (this s))) ->
  exists s',
    TodoStorage.initialize s = (Return tt, s') /\
    isInitialized (this s') = true /\
    data (this s') = refreshed s /\
    fs (world s') =
      <[filePath (this s) := JSON_stringify (TodoList_to_value (refreshed s))]>
        (fs (world s)) /\
    sleeps (world s') = sleeps (world s).
Proof.
  intros Hf Ha Hl. unfold TodoStorage.initialize.
  unfold try_catch at 1. unfold bind at 1. unfold get_this at 1. unfold bind at 1.
  assert (Mk : mkdir (dirname (filePath (this s))) s = (Return tt, s)).
  { destruct s as [t [f fl k u sl]]. cbn in Hf; subst fl. reflexivity. }
  rewrite Mk. unfold try_catch at 1. unfold bind at 1.
  rewrite (loadFromFile_absent s Hf Ha).
  change (has_code _ "ENOENT") with true. cbn iota.
  unfold bind at 1. rewrite (saveToFile_no_fault s Hl Hf).
  unfold_monad. cbn. eauto 10.
Qed.

(** X13.  When creating the directory fails, [initialize] stops there: it
    throws a [StorageError] carrying the failure's message, without trying
    to read or write the store file and without retrying. *)
Theorem initialize_mkdir_fails {RT : Runtime} (s : State) (f : io_fault)
  (rest : list (option io_fault)) :
  faults (world s) = Some f :: rest ->
  TodoStorage.initialize s =
    (Throw (StorageError ("Failed to initialize storage: " +:+ fault_message f)),
     after_faults 1 [] s).
Proof.
  destruct s as [t [fi fl k u sl]]. cbn. intros ->.
  unfold after_faults. cbn. rewrite app_nil_r. reflexivity.
Qed.

(** X14.  When the store file holds a list that passes [TodoListSchema] and
    no I/O fails, [initialize] takes the parsed list as it is, counts and
    timestamp included (they are not recomputed), marks the store
    initialized and writes nothing. *)
Theorem initialize_loads_valid_file {RT : Runtime} (s : State) (raw : value)
  (l : TodoList) :
  faults (world s) = [] ->
  fs (world s) !! filePath (this s) = Some (JsonText raw) ->
  TodoListSchema raw = Some l ->
  TodoStorage.initialize s =
    (Return tt, mkState (mkTodoStorage (filePath (this s)) l true) (world s)).
Proof.
  intros Hf Ha Hs. now apply (initialize_valid_run s raw l).
Qed.

(** A malformed store file leaves the store uninitialized; two denied reads
    do not. *)
Lemma initialize_outcome_witness :
  isInitialized
    (this (snd (TodoStorage.initialize (RT := Reference.runtime) Flaky.malformed)))
    = false /\
  isInitialized
    (this (snd (TodoStorage.initialize (RT := Reference.runtime) (Flaky.denied 2))))
    = true.
Proof.
  split.
  - pose proof (initialize_outcome (RT := Reference.runtime) Flaky.malformed
                  (fst (TodoStorage.initialize (RT := Reference.runtime) Flaky.malformed))
                  (snd (TodoStorage.initialize (RT := Reference.runtime) Flaky.malformed))
                  (surjective_pairing _)) as [_ H].
    vm_compute in H. destruct H as [_ H]. exact H.
  - pose proof (initialize_outcome (RT := Reference.runtime) (Flaky.denied 2)
                  (fst (TodoStorage.initialize (RT := Reference.runtime) (Flaky.denied 2)))
                  (snd (TodoStorage.initialize (RT := Reference.runtime) (Flaky.denied 2)))
                  (surjective_pairing _)) as [_ H].
    vm_compute in H. exact H.
Defined.

(** The first start of a store creates its file, holding an empty list. *)
Lemma initialize_creates_file_witness :
  exists s',
    TodoStorage.initialize (RT := Reference.runtime) Fresh.store = (Return tt, s') /\
    isInitialized (this s') = true /\
    fs (world s') !! "/test/todos.json" =
      Some (JsonText
              (json_roundtrip
                 (TodoList_to_value
                    (mkTodoList [] (mkMetadata "1.0.0" "2026-11-03T00:00:01.000Z" 0 0))))).
Proof.
  destruct (initialize_creates_file (RT := Reference.runtime) Fresh.store)
    as (s' & E & I & _ & F & _).
  - reflexivity.
  - reflexivity.
  - constructor.
  - exists s'. split; [exact E|]. split; [exact I|].
    rewrite F. apply lookup_insert_eq.
Defined.

(** The directory of the store cannot be created. *)
Lemma initialize_mkdir_fails_witness :
  TodoStorage.initialize (RT := Reference.runtime) Fresh.no_directory =
    (Throw (StorageError
              "Failed to initialize storage: EACCES: permission denied, open '/test/todos.json'"),
     after_faults 1 [] Fresh.no_directory).
Proof.
  apply (initialize_mkdir_fails (RT := Reference.runtime) Fresh.no_directory
           Flaky.eacces []).
  reflexivity.
Defined.

(** Starting over a store file that holds one todo. *)
Lemma initialize_loads_valid_file_witness :
  exists l,
    TodoStorage.initialize (RT := Reference.runtime) Fresh.existing =
      (Return tt,
       mkState (mkTodoStorage "/test/todos.json" l true) (world Fresh.existing)) /\
    List.length (todos l) = 1%nat.
Proof.
  eexists. split.
  - apply (initialize_loads_valid_file (RT := Reference.runtime) Fresh.existing
             Backup.content).
    + reflexivity.
    + reflexivity.
    + vm_compute. reflexivity.
  - reflexivity.
Defined.

(** ** Retrying *)

Section Retry.
Context {T : Type}.

Lemma attempts_outcome (op : M T) n d : forall remaining attempt lastError s r s',
  RetryHandler.attempts op n d remaining attempt lastError s = (r, s') ->
  match r with
  | Return a => exists s0, op s0 = (Return a, s')
  | Throw e =>
      (is_ValidationError e || is_NotFoundError e = true /\
       exists s0, op s0 = (Throw e, s')) \/
      (exists last,
         e = StorageError ("Operation failed after " +:+ string_of_nat n +:+
                           " attempts: " +:+ error_message last)) \/
      (lastError = None /\ remaining = 0%nat /\
       e = TypeError "Cannot read properties of undefined (reading 'message')")
  end.
Proof.
  induction remaining as [|remaining IH]; intros attempt lastError s r s'.
  - cbn. destruct lastError as [e0|]; unfold throw; intros X; inversion X; subst; eauto 10.
  - cbn [RetryHandler.attempts]. unfold try_catch.
    destruct (op s) as [[a|e1] s1] eqn:O.
    + intros X; inversion X; subst. eauto.
    + destruct (is_ValidationError e1 || is_NotFoundError e1) eqn:K.
      * unfold throw. intros X; inversion X; subst. left. rewrite K. eauto.
      * destruct (attempt =? n)%nat.
        -- cbn. unfold throw. intros X; inversion X; subst. eauto.
        -- unfold bind at 1. unfold sleep at 1. unfold_monad. intros X.
           apply IH in X. destruct r as [a|e]; [exact X|].
           destruct X as [X|[X|(X & _)]]; [auto|auto|discriminate].
Qed.

Lemma attempts_backoff (op : M T) n d :
  (forall s r s', op s = (r, s') -> sleeps (world s') = sleeps (world s)) ->
  forall remaining attempt lastError s r s',
    RetryHandler.attempts op n d remaining attempt lastError s = (r, s') ->
    (attempt + remaining = S n)%nat ->
    exists k,
      (k <= remaining - 1)%nat /\
      sleeps (world s') =
        sleeps (world s) ++ map (fun i => d * 2 ^ (Z.of_nat i - 1)) (seq attempt k) /\
      match r with
      | Throw e =>
          is_ValidationError e || is_NotFoundError e = false -> k = (remaining - 1)%nat
      | Return _ => True
      end.
Proof.
  intros Hop. induction remaining as [|remaining IH]; intros attempt lastError s r s'.
  - cbn. intros X _. exists 0%nat. cbn. rewrite app_nil_r.
    destruct lastError; unfold throw in X; inversion X; subst; auto.
  - cbn [RetryHandler.attempts]. unfold try_catch. intros X Hn.
    destruct (op s) as [[a|e1] s1] eqn:O; apply Hop in O.
    + inversion X; subst. exists 0%nat. cbn. rewrite app_nil_r. split; [lia|auto].
    + destruct (is_ValidationError e1 || is_NotFoundError e1) eqn:K.
      * unfold throw in X. inversion X; subst. exists 0%nat. cbn. rewrite app_nil_r.
        split; [lia|]. split; [auto|]. congruence.
      * destruct (Nat.eqb_spec attempt n) as [->|Hne].
        -- cbn in X. unfold throw in X. inversion X; subst. exists 0%nat. cbn.
           rewrite app_nil_r. split; [lia|]. split; [auto|]. intros _. lia.
        -- unfold bind at 1 in X. unfold sleep at 1 in X. unfold_monad.
           apply IH in X; [|lia]. destruct X as (k & Hk & Hs & Hr). cbn in Hs.
           exists (S k). split; [lia|]. split.
           ++ rewrite Hs, O, <- app_assoc. reflexivity.
           ++ destruct r as [a|e]; [exact I|]. intros He. rewrite (Hr He). lia.
Qed.

End Retry.

(** X15.  Whatever the operation, what [withRetry] returns is a value the
    operation returned, and what it throws is one of three things: a
    [ValidationError] or [NotFoundError] that the operation threw, passed on
    as it is; a [StorageError] "Operation failed after <maxRetries>
    attempts: <message of the last failure>"; or, only when [maxRetries] is
    zero, a [TypeError] from reading the message of an error that was never
    set.  No other error of the operation reaches the caller. *)
Theorem withRetry_outcome {T : Type} (operation : M T) (maxRetries : nat) (delayMs : Z)
  (s : State) (r : outcome T) (s' : State) :
  RetryHandler.withRetry operation maxRetries delayMs s = (r, s') ->
  match r with
  | Return a => exists s0, operation s0 = (Return a, s')
  | Throw e =>
      (is_ValidationError e || is_NotFoundError e = true /\
       exists s0, operation s0 = (Throw e, s')) \/
      (exists last,
         e = StorageError ("Operation failed after " +:+ string_of_nat maxRetries +:+
                           " attempts: " +:+ error_message last)) \/
      (maxRetries = 0%nat /\
       e = TypeError "Cannot read properties of undefined (reading 'message')")
  end.
Proof.
  unfold RetryHandler.withRetry. intros X. apply attempts_outcome in X.
  destruct r as [a|e]; [exact X|]. destruct X as [X|[X|(_ & X & Y)]]; auto.
Qed.

(** X16.  For an operation that does not itself sleep, [withRetry] sleeps
    only between attempts: [delayMs] after the first failure, twice that
    after the second, and so on, doubling each time, at most
    [maxRetries - 1] times in all and never after the last attempt.  When
    it ends with an error other than a [ValidationError] or
    [NotFoundError], every one of these delays has been slept. *)
Theorem withRetry_backoff {T : Type} (operation : M T) (maxRetries : nat) (delayMs : Z)
  (s : State) (r : outcome T) (s' : State) :
  (forall s0 r0 s1, operation s0 = (r0, s1) -> sleeps (world s1) = sleeps (world s0)) ->
  RetryHandler.withRetry operation maxRetries delayMs s = (r, s') ->
  exists k,
    (k <= maxRetries - 1)%nat /\
    sleeps (world s') =
      sleeps (world s) ++ map (fun i => delayMs * 2 ^ Z.of_nat i) (seq 0 k) /\
    match r with
    | Throw e =>
        is_ValidationError e || is_NotFoundError e = false -> k = (maxRetries - 1)%nat
    | Return _ => True
    end.
Proof.
  unfold RetryHandler.withRetry. intros Hop X.
  apply (attempts_backoff operation maxRetries delayMs Hop) in X; [|lia].
  destruct X as (k & Hk & Hs & Hr). exists k. split; [exact Hk|]. split; [|exact Hr].
  rewrite Hs. f_equal. rewrite <- seq_shift, map_map. apply map_ext.
  intros i. do 2 f_equal. lia.
Qed.

Lemma writeFile_sleeps path content s r s' :
  writeFile path content s = (r, s') -> sleeps (world s') = sleeps (world s).
Proof.
  destruct s as [t [f [|[ft|] fl] k u sl]]; intros X; inversion X; reflexivity.
Qed.

(** Three denied writes in a row. *)
Lemma withRetry_outcome_witness :
  exists last s',
    RetryHandler.withRetry (writeFile "/data/todos.json" (JsonText VNull)) 3 500
      (Fresh.write_denied 3) =
    (Throw (StorageError ("Operation failed after 3 attempts: " +:+ error_message last)),
     s').
Proof.
  destruct (RetryHandler.withRetry (writeFile "/data/todos.json" (JsonText VNull)) 3 500
              (Fresh.write_denied 3)) as [r s'] eqn:E.
  pose proof (withRetry_outcome _ _ _ _ _ _ E) as H.
  vm_compute in E. injection E as <- <-.
  destruct H as [[H _]|[[last H]|[H _]]]; [discriminate| |discriminate].
  exists last. eexists. rewrite H. reflexivity.
Defined.

(** The two delays slept around three denied writes. *)
Lemma withRetry_backoff_witness :
  sleeps (world (snd (RetryHandler.withRetry
                        (writeFile "/data/todos.json" (JsonText VNull)) 3 500
                        (Fresh.write_denied 3)))) = [500; 1000].
Proof.
  destruct (withRetry_backoff (writeFile "/data/todos.json" (JsonText VNull)) 3 500
              (Fresh.write_denied 3) _ _
              (writeFile_sleeps "/data/todos.json" (JsonText VNull))
              (surjective_pairing _)) as (k & _ & Hs & Hk).
  cbn in Hk. rewrite (Hk eq_refl) in Hs. exact Hs.
Defined.

(** X17.  [saveToFile] refreshes the metadata in memory first and then
    tries the write up to three times, sleeping 500 ms after the first
    failure and 1000 ms after the second.  If the third write fails too it
    throws a write [FileError] that names the attempts and the last
    failure, with no file changed; if a write goes through, the file holds
    the refreshed list. *)
Theorem saveToFile_write_retry {RT : Runtime} (s : State) :
  Forall (fun v => nullish v = false) (todos (data (this s))) ->
  (forall f1 f2 f3 rest,
     faults (world s) = Some f1 :: Some f2 :: Some f3 :: rest ->
     TodoStorage.saveToFile s =
       (Throw (FileError
                 ("Failed to save todos to file: Operation failed after 3 attempts: "
                  +:+ fault_message f3)
                 op_write (filePath (this s))),
        after_faults 3 [500; 1000]
          (with_data (refreshed s)
             (advance (clock_reads (todos (data (this s))) + 1) s)))) /\
  (forall failed rest,
     (List.length failed <= 2)%nat ->
     faults (world s) = map Some failed ++ None :: rest ->
     exists s',
       TodoStorage.saveToFile s = (Return tt, s') /\
       data (this s') = refreshed s /\
       fs (world s') =
         <[filePath (this s) := JSON_stringify (TodoList_to_value (refreshed s))]>
           (fs (world s)) /\
       faults (world s') = rest /\
       sleeps (world s') =
         sleeps (world s) ++ firstn (List.length failed) [500; 1000]).
Proof.
  intros Hl. split.
  - intros f1 f2 f3 rest Hf.
    unfold TodoStorage.saveToFile, try_catch. unfold bind at 1.
    rewrite (updateMetadata_ok s Hl). unfold bind at 1. unfold get_this at 1.
    destruct s as [t [f fl k u sl]]. cbn in Hf. subst fl.
    unfold with_data, advance, after_faults. cbn. rewrite <- app_assoc. reflexivity.
  - intros failed rest Hlen Hf.
    unfold TodoStorage.saveToFile, try_catch. unfold bind at 1.
    rewrite (updateMetadata_ok s Hl). unfold bind at 1. unfold get_this at 1.
    destruct s as [t [f fl k u sl]]. cbn in Hf. subst fl.
    unfold with_data, advance.
    destruct failed as [|f1 [|f2 [|f3 failed]]]; [| | |simpl in Hlen; lia]; cbn.
    + eexists. split; [reflexivity|]. cbn. rewrite app_nil_r. auto.
    + eexists. split; [reflexivity|]. cbn. auto.
    + eexists. split; [reflexivity|]. cbn. rewrite <- app_assoc. auto.
Qed.

(** Three denied writes, then one denied write, on the sample store. *)
Lemma saveToFile_write_retry_witness :
  (exists s',
     TodoStorage.saveToFile (RT := Reference.runtime) (Fresh.write_denied 3) =
       (Throw (FileError
                 ("Failed to save todos to file: Operation failed after 3 attempts: "
                  +:+ fault_message Flaky.eacces)
                 op_write "/data/todos.json"), s') /\
     sleeps (world s') = [500; 1000]) /\
  (exists s',
     TodoStorage.saveToFile (RT := Reference.runtime)
       (Sample.ready_store (mkWorld ∅ [Some Flaky.eacces; None] 0 0 [])) =
       (Return tt, s') /\
     sleeps (world s') = [500]).
Proof.
  split.
  - destruct (saveToFile_write_retry (RT := Reference.runtime) (Fresh.write_denied 3))
      as [H _]; [repeat constructor|].
    eexists. split; [exact (H _ _ _ [] eq_refl)|reflexivity].
  - destruct (saveToFile_write_retry (RT := Reference.runtime)
                (Sample.ready_store (mkWorld ∅ [Some Flaky.eacces; None] 0 0 [])))
      as [_ H]; [repeat constructor|].
    destruct (H [Flaky.eacces] []) as (s' & E & _ & _ & _ & S);
      [simpl; lia|reflexivity|].
    exists s'. split; [exact E|exact S].
Defined.

(** ** Migrating files of other shapes *)

Section OtherShapes.
Context {RT : Runtime}.

(** The migration of an object that has [todos] and no [metadata]. *)
Lemma migrateData_object_run props elements s :
  lookup_prop props "todos" = VArr elements ->
  truthy (lookup_prop props "metadata") = false ->
  TodoStorage.migrateData (VObj props) s =
  try_catch
    (now <- TodoUtils.getCurrentTimestamp ;;
     completed' <- filterM TodoStorage.is_completed elements ;;
     set_data (mkTodoList elements
                 (mkMetadata "1.0.0" now (Z.of_nat (List.length elements))
                    (Z.of_nat (List.length completed')))) ;;
     TodoStorage.saveToFile ;;
     t <- get_this ;;
     ret (data t))
    (fun _ => throw (ValidationError "Failed to add metadata to existing todo data")) s.
Proof.
  intros Ht Hm. unfold TodoStorage.migrateData.
  unfold bind at 1. rewrite prop_of_object, Ht. cbn [truthy].
  unfold bind at 1. rewrite prop_of_object, Hm. reflexivity.
Qed.

Lemma filter_completed_frame xs : forall s r s',
  filterM TodoStorage.is_completed xs s = (r, s') -> s' = s.
Proof.
  induction xs as [|x xs IH]; intros s r s'; cbn [filterM].
  - unfold ret. congruence.
  - unfold bind at 1. unfold TodoStorage.is_completed at 1. unfold bind at 1.
    destruct (prop x "completed" s) as [[c|e] s1] eqn:P; apply prop_frame in P; subst s1.
    + unfold ret at 1. unfold bind at 1.
      destruct (filterM TodoStorage.is_completed xs s) as [[ys|e] s2] eqn:Fl;
        apply IH in Fl; subst s2; unfold ret; congruence.
    + congruence.
Qed.

Lemma migrateData_unsupported raw s :
  nullish raw = false ->
  (forall elements, raw <> VArr elements) ->
  truthy (read raw "todos") && negb (truthy (read raw "metadata")) = false ->
  TodoStorage.migrateData raw s =
  (Throw (ValidationError "Unable to migrate todo data - unsupported format"), s).
Proof.
  intros Hn Ha Hc. destruct raw as [| | | | |elements|props];
    try discriminate; try reflexivity.
  - now destruct (Ha elements).
  - unfold read in Hc. cbn [get_prop] in Hc.
    unfold TodoStorage.migrateData. unfold bind at 1. rewrite prop_of_object.
    unfold bind at 1.
    destruct (truthy (lookup_prop props "todos")); [|reflexivity].
    rewrite prop_of_object. cbn [andb] in *. rewrite Hc. reflexivity.
Qed.

(** [loadFromFile] over a file whose content [validateAndMigrate]
    refuses. *)
Lemma loadFromFile_throws s raw e :
  (forall s0, TodoStorage.validateAndMigrate raw s0 = (Throw e, s0)) ->
  faults (world s) = [] ->
  fs (world s) !! filePath (this s) = Some (JsonText raw) ->
  TodoStorage.loadFromFile s = (Throw e, s).
Proof.
  intros V Hf Hfs. destruct s as [t [f fl k u sl]]. cbn in Hf, Hfs. subst fl.
  unfold TodoStorage.loadFromFile, readFile, next_fault.
  unfold bind at 1. unfold get_this at 1. cbn [this filePath].
  unfold bind at 1. unfold bind at 1. unfold get_world at 1.
  cbn [world faults]. unfold bind at 1. unfold put_world at 1.
  cbn [this world fs]. rewrite Hfs. unfold ret at 1.
  unfold bind at 1. unfold try_catch at 1. unfold JSON_parse at 1. unfold ret at 1.
  unfold bind at 1. rewrite V. reflexivity.
Qed.

Lemma mkdir_no_fault dir s : faults (world s) = [] -> mkdir dir s = (Return tt, s).
Proof. destruct s as [t [f fl k u sl]]. cbn. intros ->. reflexivity. Qed.

End OtherShapes.

(** X18.  A file that holds an object with a [todos] array and no
    [metadata] is migrated by adding metadata only: the elements are taken
    over exactly as they are, neither validated nor completed with
    defaults.  The result is at version 1.0.0, has counts that agree with
    the elements, replaces the list in memory and is written to the store
    file.  If anything goes wrong the error is the [ValidationError]
    "Failed to add metadata to existing todo data".  The migration
    succeeds when every element can be read and no I/O fails. *)
Theorem migrateData_adds_metadata {RT : Runtime}
  (props : list (string * value)) (elements : list value) (s : State) :
  lookup_prop props "todos" = VArr elements ->
  truthy (lookup_prop props "metadata") = false ->
  (forall migrated s',
     TodoStorage.migrateData (VObj props) s = (Return migrated, s') ->
     todos migrated = elements /\
     version (metadata migrated) = "1.0.0" /\
     live_counts migrated /\
     data (this s') = migrated /\
     fs (world s') !! filePath (this s) =
       Some (JSON_stringify (TodoList_to_value migrated))) /\
  (forall e s',
     TodoStorage.migrateData (VObj props) s = (Throw e, s') ->
     e = ValidationError "Failed to add metadata to existing todo data") /\
  (Forall (fun v => nullish v = false) elements ->
   faults (world s) = [] ->
   exists migrated s',
     TodoStorage.migrateData (VObj props) s = (Return migrated, s')).
Proof.
  intros Ht Hm. rewrite (migrateData_object_run props elements s Ht Hm).
  split; [|split].
  - intros migrated s' E.
    apply try_catch_Return in E; [|rethrows].
    apply bind_Return in E as (now & sB & E2 & E).
    apply bind_Return in E as (done & sC & E3 & E).
    apply save_and_return in E as [Es ->].
    rewrite getCurrentTimestamp_spec in E2. inversion E2; subst now sB. clear E2.
    apply filter_completed_frame in E3. subst sC.
    apply saveToFile_post in Es as (P & _ & T & U & D & F).
    cbn in P, T, U, F.
    split; [exact T|]. split; [rewrite D; reflexivity|].
    split; [rewrite D; apply live_counts_refreshed|].
    split; [reflexivity|]. rewrite F, D. apply lookup_insert_eq.
  - intros e s'. unfold try_catch.
    match goal with |- context [bind ?m ?k s] => destruct (bind m k s) as [[v|e0] s1] end.
    + discriminate.
    + unfold throw. congruence.
  - intros Hxs Hf. unfold try_catch.
    unfold bind at 1. rewrite getCurrentTimestamp_spec.
    unfold bind at 1. rewrite (filter_completed_spec elements _ Hxs).
    unfold bind at 1. unfold set_data at 1. unfold_monad. cbn [this world].
    match goal with
    | |- context [TodoStorage.saveToFile ?st] =>
        rewrite (saveToFile_no_fault st)
    end.
    + eauto.
    + exact Hxs.
    + exact Hf.
Qed.

(** An element without identifier or dates is taken over as it is. *)
Lemma migrateData_adds_metadata_witness :
  exists migrated s',
    TodoStorage.migrateData (RT := Reference.runtime) (VObj Bare.props) Fresh.store =
      (Return migrated, s') /\
    todos migrated = [VObj [("title", VStr "No id")]] /\
    totalCount (metadata migrated) = 1.
Proof.
  destruct (migrateData_adds_metadata (RT := Reference.runtime) Bare.props
              [VObj [("title", VStr "No id")]] Fresh.store eq_refl eq_refl)
    as (H1 & _ & H3).
  destruct (H3 ltac:(repeat constructor) eq_refl) as (migrated & s' & E).
  exists migrated, s'. split; [exact E|].
  destruct (H1 _ _ E) as (T & _ & (C & _) & _).
  split; [exact T|]. rewrite C, T. reflexivity.
Defined.

(** X19.  Data other than [null] that is neither a valid list, nor an
    array, nor an object with [todos] and without [metadata] cannot be
    migrated: [validateAndMigrate] throws the [ValidationError] "Unable to
    migrate todo data - unsupported format" and changes nothing.  When such
    data is what the store file holds, [initialize] reads the file twice
    (the error is one that the retry passes on at once, so nothing is
    slept) and fails with a [StorageError] carrying that message, the state
    being exactly as before.  On [null] the failure is another one: reading
    [rawData.todos] is a [TypeError], which [validateAndMigrate] lets
    through with the state unchanged; [initialize] retries it like an I/O
    failure, sleeping 1 second and then 2 seconds, and fails with a
    [StorageError] that names the three attempts and the [TypeError]. *)
Theorem unsupported_format_rejected {RT : Runtime} (s : State) (raw : value) :
  (nullish raw = false ->
   (forall elements, raw <> VArr elements) ->
   truthy (read raw "todos") && negb (truthy (read raw "metadata")) = false ->
   TodoListSchema raw = None ->
   TodoStorage.validateAndMigrate raw s =
     (Throw (ValidationError "Unable to migrate todo data - unsupported format"), s) /\
   (faults (world s) = [] ->
    fs (world s) !! filePath (this s) = Some (JsonText raw) ->
    TodoStorage.initialize s =
      (Throw (StorageError
                "Failed to initialize storage: Unable to migrate todo data - unsupported format"),
       s))) /\
  (nullish raw = true ->
   TodoStorage.validateAndMigrate raw s =
     (Throw (TypeError ("Cannot read properties of " +:+ to_string raw +:+
                        " (reading 'todos')")), s) /\
   (faults (world s) = [] ->
    fs (world s) !! filePath (this s) = Some (JsonText raw) ->
    TodoStorage.initialize s =
      (Throw (StorageError
                ("Failed to initialize storage: Operation failed after 3 attempts: " +:+
                 "Cannot read properties of " +:+ to_string raw +:+ " (reading 'todos')")),
       after_faults 0 [1000; 2000] s))).
Proof.
  split.
  - intros Hn Ha Hc Hs.
    assert (V : forall s0, TodoStorage.validateAndMigrate raw s0 =
              (Throw (ValidationError "Unable to migrate todo data - unsupported format"),
               s0)).
    { intros s0. unfold TodoStorage.validateAndMigrate. rewrite Hs.
      now apply migrateData_unsupported. }
    split; [apply V|]. intros Hf Hfs.
    pose proof (loadFromFile_throws s raw _ V Hf Hfs) as L.
    unfold TodoStorage.initialize.
    unfold try_catch at 1. unfold bind at 1. unfold get_this at 1. unfold bind at 1.
    rewrite (mkdir_no_fault _ s Hf). unfold try_catch at 1. unfold bind at 1. rewrite L.
    change (has_code _ "ENOENT") with false. cbn iota.
    unfold bind at 1. unfold RetryHandler.withRetry, RetryHandler.attempts.
    unfold try_catch at 1. rewrite L. reflexivity.
  - intros Hn.
    assert (V : forall s0, TodoStorage.validateAndMigrate raw s0 =
              (Throw (TypeError ("Cannot read properties of " +:+ to_string raw +:+
                                 " (reading 'todos')")), s0)).
    { intros s0. destruct raw; try discriminate; reflexivity. }
    split; [apply V|]. intros Hf Hfs.
    assert (L : forall sl,
              TodoStorage.loadFromFile
                (mkState (this s)
                   (mkWorld (fs (world s)) [] (ticks (world s)) (uuids (world s)) sl)) =
              (Throw (TypeError ("Cannot read properties of " +:+ to_string raw +:+
                                 " (reading 'todos')")),
               mkState (this s)
                 (mkWorld (fs (world s)) [] (ticks (world s)) (uuids (world s)) sl))).
    { intros sl. apply (loadFromFile_throws _ raw _ V); [reflexivity|exact Hfs]. }
    destruct s as [t [f fl k u sl]]. cbn [this world fs faults ticks uuids sleeps] in *.
    subst fl. unfold after_faults. cbn [this world fs faults ticks uuids sleeps skipn].
    unfold TodoStorage.initialize.
    unfold try_catch at 1. unfold bind at 1. unfold get_this at 1. unfold bind at 1.
    rewrite mkdir_no_fault by reflexivity.
    unfold try_catch at 1. unfold bind at 1. rewrite L.
    change (has_code _ "ENOENT") with false. cbn iota.
    unfold bind at 1. unfold RetryHandler.withRetry, RetryHandler.attempts.
    unfold try_catch at 1. rewrite L.
    cbn [is_ValidationError is_NotFoundError orb Nat.eqb].
    unfold bind at 1. unfold sleep at 1. unfold bind at 1. unfold get_world at 1.
    unfold put_world at 1. cbn [this world fs faults ticks uuids sleeps].
    unfold try_catch at 1. rewrite L.
    cbn [is_ValidationError is_NotFoundError orb Nat.eqb].
    unfold bind at 1. unfold sleep at 1. unfold bind at 1. unfold get_world at 1.
    unfold put_world at 1. cbn [this world fs faults ticks uuids sleeps].
    unfold try_catch at 1. rewrite L.
    cbn [is_ValidationError is_NotFoundError orb Nat.eqb].
    unfold RetryHandler.fail_after, throw. cbn [error_message].
    rewrite <- app_assoc. reflexivity.
Qed.

(** A store file that holds the number 42, and one that holds [null]. *)
Lemma unsupported_format_rejected_witness :
  TodoStorage.initialize (RT := Reference.runtime) Bare.number_store =
    (Throw (StorageError
              "Failed to initialize storage: Unable to migrate todo data - unsupported format"),
     Bare.number_store) /\
  TodoStorage.initialize (RT := Reference.runtime) Bare.null_store =
    (Throw (StorageError
              "Failed to initialize storage: Operation failed after 3 attempts: Cannot read properties of null (reading 'todos')"),
     after_faults 0 [1000; 2000] Bare.null_store).
Proof.
  split.
  - destruct (unsupported_format_rejected (RT := Reference.runtime) Bare.number_store
                (VNum 42)) as [H _].
    destruct H as [_ H].
    + reflexivity.
    + discriminate.
    + reflexivity.
    + reflexivity.
    + apply H; reflexivity.
  - destruct (unsupported_format_rejected (RT := Reference.runtime) Bare.null_store
                VNull) as [_ H].
    destruct (H eq_refl) as [_ H']. apply H'; reflexivity.
Defined.

(** ** Backing up and restoring *)

Section BackupPath.

Lemma append_empty_r (s : string) : s +:+ "" = s.
Proof.
  induction s as [|c s IH]; [reflexivity|].
  change (String c (s +:+ "") = String c s). now rewrite IH.
Qed.

Lemma occurs_prefix pattern s : occurs pattern s = false -> String.prefix pattern s = false.
Proof. destruct s; cbn; intros H; apply orb_false_iff in H as [H _]; exact H. Qed.

Lemma prefix_cons a s1 b s2 :
  String.prefix (String a s1) (String b s2) = Ascii.eqb a b && String.prefix s1 s2.
Proof.
  simpl. destruct (ascii_dec a b) as [->|H].
  - now rewrite Ascii.eqb_refl.
  - apply Ascii.eqb_neq in H. now rewrite H.
Qed.

Lemma prefix_empty s : String.prefix "" s = true.
Proof. destruct s; reflexivity. Qed.

(** [".json"] does not overlap itself: it starts in front of a trailing
    [".json"] only where it already starts a match inside the front part. *)
Lemma prefix_json_app c base :
  String.prefix ".json" (String c base +:+ ".json") = true ->
  String.prefix ".json" (String c base) = true.
Proof.
  destruct base as [|c2 [|c3 [|c4 [|c5 base]]]];
    repeat (change (String ?a ?x +:+ ?y) with (String a (x +:+ y)));
    change ("" +:+ ".json") with ".json";
    rewrite ?prefix_cons, ?prefix_empty;
    repeat match goal with
           | |- context [Ascii.eqb ?a ?b] =>
               first [ is_var b; destruct (Ascii.eqb_spec a b); subst
                     | let v := eval vm_compute in (Ascii.eqb a b) in
                       change (Ascii.eqb a b) with v ]
           end; cbn [andb]; try discriminate; auto.
Qed.

Lemma replace_first_suffix replacement base :
  occurs ".json" base = false ->
  replace_first ".json" replacement (base +:+ ".json") = base +:+ replacement.
Proof.
  induction base as [|c base IH]; intros H.
  - change (replacement +:+ "" = replacement). apply append_empty_r.
  - pose proof (occurs_prefix _ _ H) as Hp.
    assert (String.prefix ".json" (String c base +:+ ".json") = false) as Hq.
    { destruct (String.prefix ".json" (String c base +:+ ".json")) eqn:E; [|reflexivity].
      apply prefix_json_app in E. congruence. }
    change (String c base +:+ ".json") with (String c (base +:+ ".json")) in *.
    change (replace_first ".json" replacement (String c (base +:+ ".json")))
      with (if String.prefix ".json" (String c (base +:+ ".json"))
            then replacement +:+
                 String.substring 5 (String.length (String c (base +:+ ".json")) - 5)
                   (String c (base +:+ ".json"))
            else String c (replace_first ".json" replacement (base +:+ ".json"))).
    rewrite Hq. change (String c base +:+ replacement) with (String c (base +:+ replacement)).
    f_equal. apply IH.
    change (String.prefix ".json" (String c base) || occurs ".json" base = false) in H.
    apply orb_false_iff in H as [_ H]. exact H.
Qed.

Lemma append_inj_l (a b c : string) : a +:+ b = a +:+ c -> b = c.
Proof.
  induction a as [|x a IH]; intros H; [exact H|].
  change (String x (a +:+ b) = String x (a +:+ c)) in H. inversion H; auto.
Qed.

End BackupPath.

(** X20.  For a store path that ends in [.json] and has no other [.json]
    in it, [createBackup] computes the sibling path
    [<base>_backup_<timestamp>.json], the timestamp being the current time
    in ISO form with [:] and [.] replaced by [-]; this path differs from
    the store path.  Without I/O fault the call returns that path after
    writing the list held in memory to it, as it is (the metadata is not
    recomputed); the store object is unchanged and so is every other file.
    If the write fails the call throws a plain [Error] "Failed to create
    backup: <message>" at once, without retrying, and no file changes. *)
Theorem createBackup_sibling {RT : Runtime} (s : State) (base : string) :
  isInitialized (this s) = true ->
  filePath (this s) = base +:+ ".json" ->
  occurs ".json" base = false ->
  let backupPath :=
    base +:+ "_backup_" +:+
    replace_colons_dots (toISOString (clock (ticks (world s)))) +:+ ".json" in
  backupPath <> filePath (this s) /\
  (faults (world s) = [] ->
   exists s',
     TodoStorage.createBackup s = (Return backupPath, s') /\
     this s' = this s /\
     fs (world s') =
       <[backupPath := JSON_stringify (TodoList_to_value (data (this s)))]>
         (fs (world s)) /\
     fs (world s') !! filePath (this s) = fs (world s) !! filePath (this s)) /\
  (forall f rest,
     faults (world s) = Some f :: rest ->
     exists s',
       TodoStorage.createBackup s =
         (Throw (Error ("Failed to create backup: " +:+ fault_message f)), s') /\
       this s' = this s /\
       fs (world s') = fs (world s) /\
       faults (world s') = rest /\
       sleeps (world s') = sleeps (world s)).
Proof.
  intros Hinit Hp Hno backupPath.
  assert (Hne : backupPath <> filePath (this s)).
  { subst backupPath. rewrite Hp. intros E. apply append_inj_l in E. discriminate. }
  assert (Hb : replace_first ".json"
                 ("_backup_" +:+
                  replace_colons_dots (toISOString (clock (ticks (world s)))) +:+ ".json")
                 (filePath (this s)) = backupPath).
  { rewrite Hp. now apply replace_first_suffix. }
  split; [exact Hne|]. destruct s as [t [f fl k u sl]].
  cbn [this world fs faults ticks uuids sleeps] in *. split.
  - intros ->.
    unfold TodoStorage.createBackup, TodoStorage.ensureInitialized, TodoUtils.Date_now,
      writeFile, next_fault.
    unfold_monad. cbn. rewrite Hinit. cbn. rewrite Hb. cbn.
    eexists. split; [reflexivity|]. cbn. split; [reflexivity|]. split; [reflexivity|].
    apply lookup_insert_ne. exact Hne.
  - intros ft rest ->.
    unfold TodoStorage.createBackup, TodoStorage.ensureInitialized, TodoUtils.Date_now,
      writeFile, next_fault.
    unfold_monad. cbn. rewrite Hinit. cbn.
    eexists. split; [reflexivity|]. cbn. auto.
Qed.

(** Backing up the sample store, and a backup whose write is denied. *)
Lemma createBackup_sibling_witness :
  (exists s',
     TodoStorage.createBackup (RT := Reference.runtime)
       (Sample.ready_store Reference.empty_world) =
       (Return "/data/todos_backup_2026-11-03T00-00-00-000Z.json", s') /\
     this s' = this (Sample.ready_store Reference.empty_world)) /\
  (exists s',
     TodoStorage.createBackup (RT := Reference.runtime) (Fresh.write_denied 1) =
       (Throw (Error ("Failed to create backup: " +:+ fault_message Flaky.eacces)), s') /\
     sleeps (world s') = []).
Proof.
  split.
  - destruct (createBackup_sibling (RT := Reference.runtime)
                (Sample.ready_store Reference.empty_world) "/data/todos"
                eq_refl eq_refl eq_refl) as (_ & H & _).
    destruct (H eq_refl) as (s' & E & T & _). exists s'. split; [exact E|exact T].
  - destruct (createBackup_sibling (RT := Reference.runtime)
                (Fresh.write_denied 1) "/data/todos"
                eq_refl eq_refl eq_refl) as (_ & _ & H).
    destruct (H Flaky.eacces [] eq_refl) as (s' & E & _ & _ & _ & S).
    exists s'. split; [exact E|exact S].
Defined.

(** X21.  Whatever goes wrong in [restoreFromBackup] reaches the caller as
    a plain [Error] whose message starts with "Failed to restore from
    backup: ".  A backup file that does not exist, or that does not hold
    JSON, leaves the state exactly as it was; the message then ends with
    the file system's not-found message, or with the parser's message. *)
Theorem restoreFromBackup_failure {RT : Runtime} (s : State) (backupPath : string) :
  (forall e s',
     TodoStorage.restoreFromBackup backupPath s = (Throw e, s') ->
     exists m, e = Error ("Failed to restore from backup: " +:+ m)) /\
  (faults (world s) = [] ->
   fs (world s) !! backupPath = None ->
   TodoStorage.restoreFromBackup backupPath s =
     (Throw (Error ("Failed to restore from backup: " +:+
                    "ENOENT: no such file or directory, open '" +:+ backupPath +:+ "'")),
      s)) /\
  (forall syntax_error,
     faults (world s) = [] ->
     fs (world s) !! backupPath = Some (BadText syntax_error) ->
     TodoStorage.restoreFromBackup backupPath s =
       (Throw (Error ("Failed to restore from backup: " +:+ syntax_error)), s)).
Proof.
  split; [|split].
  - intros e s'. unfold TodoStorage.restoreFromBackup, try_catch.
    match goal with |- context [bind ?m ?k s] => destruct (bind m k s) as [[v|e0] s1] end.
    + discriminate.
    + unfold throw. intros X; inversion X; subst. eauto.
  - intros Hf Hb. destruct s as [t [f fl k u sl]]. cbn in Hf, Hb. subst fl.
    unfold TodoStorage.restoreFromBackup, try_catch, readFile, next_fault.
    unfold_monad. cbn. rewrite Hb. reflexivity.
  - intros msg Hf Hb. destruct s as [t [f fl k u sl]]. cbn in Hf, Hb. subst fl.
    unfold TodoStorage.restoreFromBackup, try_catch, readFile, next_fault.
    unfold_monad. cbn. rewrite Hb. reflexivity.
Qed.

(** Restoring from a path where there is no file. *)
Lemma restoreFromBackup_failure_witness :
  TodoStorage.restoreFromBackup (RT := Reference.runtime) "/backup/none.json"
    (Sample.ready_store Reference.empty_world) =
    (Throw (Error
              "Failed to restore from backup: ENOENT: no such file or directory, open '/backup/none.json'"),
     Sample.ready_store Reference.empty_world).
Proof.
  destruct (restoreFromBackup_failure (RT := Reference.runtime)
              (Sample.ready_store Reference.empty_world) "/backup/none.json")
    as (_ & H & _).
  apply H; reflexivity.
Defined.

(** ** Reading back what was written *)

Section RoundTrip.
Context {RT : Runtime}.


Lemma parse_tags (l : list string) :
  forallb (max_length 50) l = true ->
  mapM (z_string (max_length 50)) (map VStr l) = Some (map VStr l).
Proof.
  induction l as [|x l IH]; cbn; [reflexivity|].
  intros H. apply andb_true_iff in H as [Hx Hl]. rewrite Hx. cbn.
  rewrite (IH Hl). reflexivity.
Qed.

Lemma z_string_ok check s :
  check s = true -> z_string check (VStr s) = Some (VStr s).
Proof. unfold z_string. now intros ->. Qed.


End RoundTrip.

Section Reload.
Context {RT : Runtime}.










End Reload.





(** ** Creating todos *)

Section Create.
Context {RT : Runtime}.

Lemma z_string_inv check v y :
  z_string check v = Some y -> exists s, y = VStr s /\ check s = true.
Proof.
  unfold z_string. destruct v; try discriminate.
  destruct (check s) eqn:E; [|discriminate]. intros X; inversion X; eauto.
Qed.

Lemma z_optional_string_inv check v y :
  z_optional (z_string check) v = Some y ->
  y = VUndefined \/ exists s, y = VStr s /\ check s = true.
Proof.
  unfold z_optional. destruct v; try (intros X; right; eapply z_string_inv; exact X).
  intros X; inversion X; auto.
Qed.

Lemma priority_inv v y :
  z_optional TodoPrioritySchema v = Some y ->
  y = VUndefined \/ exists p, y = VStr (priority_name p).
Proof.
  intros X. apply z_optional_string_inv in X as [->|(s & -> & H)]; [auto|right].
  apply orb_true_iff in H as [H|H]; [apply orb_true_iff in H as [H|H]|];
    apply String.eqb_eq in H; subst; [exists low|exists medium|exists high]; reflexivity.
Qed.

Lemma parse_strings_inv check xs : forall ys,
  mapM (z_string check) xs = Some ys ->
  exists l, ys = map VStr l /\ forallb check l = true /\ List.length l = List.length xs.
Proof.
  induction xs as [|x xs IH]; intros ys.
  - intros X; inversion X. exists []. auto.
  - change (mapM (z_string check) (x :: xs))
      with (z_string check x ≫= λ y, mapM (z_string check) xs ≫= λ k, mret (y :: k)).
    destruct (z_string check x) as [y|] eqn:Ex; [|discriminate].
    destruct (mapM (z_string check) xs) as [k|] eqn:Exs; [|discriminate].
    intros X; inversion X; subst ys.
    apply z_string_inv in Ex as (s & -> & Hs).
    destruct (IH k eq_refl) as (l & -> & Hl & Hn).
    exists (s :: l). cbn. rewrite Hs, Hl, Hn. auto.
Qed.

Lemma tags_inv v y :
  z_optional (z_array (z_string (max_length 50)) (Some 10%nat)) v = Some y ->
  y = VUndefined \/
  exists l, y = VArr (map VStr l) /\ forallb (max_length 50) l = true /\
            (List.length l <=? 10)%nat = true.
Proof.
  unfold z_optional, z_array. destruct v; try discriminate.
  - intros X; inversion X; auto.
  - destruct (mapM (z_string (max_length 50)) xs) as [ys|] eqn:E; [|discriminate].
    cbn. destruct (List.length xs <=? 10)%nat eqn:L; [|discriminate].
    intros X; inversion X; subst y. right.
    apply parse_strings_inv in E as (l & -> & Hl & Hn). exists l. rewrite Hn. auto.
Qed.

(** What [CreateTodoInputSchema] lets through: an object whose [title] is a
    string of 1 to 200 characters and whose other four fields are either
    [undefined] or of the kind the todo schema asks for. *)
Lemma CreateTodoInputSchema_fields input parsed :
  CreateTodoInputSchema input = Some parsed ->
  exists props,
    parsed = VObj props /\
    (exists s, lookup_prop props "title" = VStr s /\ min_max 1 200 s = true) /\
    (lookup_prop props "description" = VUndefined \/
     exists s, lookup_prop props "description" = VStr s /\ max_length 1000 s = true) /\
    (lookup_prop props "dueDate" = VUndefined \/
     exists s, lookup_prop props "dueDate" = VStr s /\ zod_date s = true) /\
    (lookup_prop props "priority" = VUndefined \/
     exists p, lookup_prop props "priority" = VStr (priority_name p)) /\
    (lookup_prop props "tags" = VUndefined \/
     exists l, lookup_prop props "tags" = VArr (map VStr l) /\
               forallb (max_length 50) l = true /\
               (List.length l <=? 10)%nat = true).
Proof.
  unfold CreateTodoInputSchema. destruct input as [| | | | | |props0]; try discriminate.
  destruct (z_string (min_max 1 200) (lookup_prop props0 "title")) as [ti|] eqn:E1;
    [|discriminate].
  destruct (z_optional (z_string (max_length 1000)) (lookup_prop props0 "description"))
    as [de|] eqn:E2; [|discriminate].
  destruct (z_optional (z_string zod_date) (lookup_prop props0 "dueDate"))
    as [du|] eqn:E3; [|discriminate].
  destruct (z_optional TodoPrioritySchema (lookup_prop props0 "priority"))
    as [pr|] eqn:E4; [|discriminate].
  destruct (z_optional (z_array (z_string (max_length 50)) (Some 10%nat))
              (lookup_prop props0 "tags")) as [ta|] eqn:E5; [|discriminate].
  cbn [mbind option_bind]. intros X; inversion X; subst parsed. clear X.
  apply z_string_inv in E1. apply z_optional_string_inv in E2, E3.
  apply priority_inv in E4. apply tags_inv in E5.
  eexists. split; [reflexivity|].
  destruct (has_key props0 "description"), (has_key props0 "dueDate"),
    (has_key props0 "priority"), (has_key props0 "tags");
    cbn [app lookup_prop String.eqb Ascii.eqb Bool.eqb]; auto 10.
Qed.

End Create.

(** X24.  A todo created from validated input is a valid todo.  When
    [input] has passed [CreateTodoInputSchema], and the platform's
    identifier and timestamp have the formats the schema asks for,
    [createTodo] returns a todo that [TodoSchema] accepts unchanged.  The
    todo carries the next generated identifier, is not completed, and has
    the current time as both [createdAt] and [updatedAt]; the call reads
    the clock once and draws one identifier, and touches nothing else. *)
Theorem createTodo_valid {RT : Runtime} (input parsed : value) (s : State) :
  TodoUtils.validateCreateInput input = Some parsed ->
  zod_uuid (randomUUID (uuids (world s))) = true ->
  zod_datetime (toISOString (clock (ticks (world s)))) = true ->
  exists todo,
    TodoUtils.createTodo parsed s =
      (Return todo,
       mkState (this s)
         (mkWorld (fs (world s)) (faults (world s)) (S (ticks (world s)))
            (S (uuids (world s))) (sleeps (world s)))) /\
    TodoUtils.validateTodo todo = Some todo /\
    get_prop todo "id" = Some (VStr (randomUUID (uuids (world s)))) /\
    get_prop todo "completed" = Some (VBool false) /\
    get_prop todo "createdAt" = Some (VStr (toISOString (clock (ticks (world s))))) /\
    get_prop todo "updatedAt" = Some (VStr (toISOString (clock (ticks (world s))))) /\
    get_prop todo "title" = get_prop parsed "title".
Proof.
  intros Hv Hu Hd. apply CreateTodoInputSchema_fields in Hv
    as (props & -> & (ti & Eti & Hti) & Hde & Hdu & Hpr & Hta).
  eexists. split; [reflexivity|].
  cbn [get_prop lookup_prop String.eqb Ascii.eqb Bool.eqb world this uuids ticks].
  split; [|auto 10].
  unfold TodoUtils.validateTodo, TodoSchema.
  cbn [lookup_prop String.eqb Ascii.eqb Bool.eqb has_key existsb fst orb app].
  rewrite Eti, (z_string_ok _ _ Hu), (z_string_ok _ _ Hti), (z_string_ok _ _ Hd).
  cbn [mbind option_bind].
  assert (E1 : z_default (VStr "") (z_string (max_length 1000))
                 (or_else (lookup_prop props "description") (VStr "")) =
               Some (or_else (lookup_prop props "description") (VStr ""))).
  { destruct Hde as [->|(d & -> & Hd1)]; [reflexivity|].
    unfold or_else. destruct (truthy (VStr d)); [|reflexivity].
    unfold z_default. now apply z_string_ok. }
  assert (E2 : z_optional (z_string zod_date) (lookup_prop props "dueDate") =
               Some (lookup_prop props "dueDate")).
  { destruct Hdu as [->|(d & -> & Hd1)]; [reflexivity|].
    unfold z_optional. now apply z_string_ok. }
  assert (E3 : z_default (VStr "medium") TodoPrioritySchema
                 (or_else (lookup_prop props "priority") (VStr "medium")) =
               Some (or_else (lookup_prop props "priority") (VStr "medium"))).
  { destruct Hpr as [->|(p & ->)]; [reflexivity|]. destruct p; reflexivity. }
  assert (E4 : z_default (VArr []) (z_array (z_string (max_length 50)) (Some 10%nat))
                 (or_else (lookup_prop props "tags") (VArr [])) =
               Some (or_else (lookup_prop props "tags") (VArr []))).
  { destruct Hta as [->|(l & -> & Hl & Hn)]; [reflexivity|].
    unfold or_else, z_default, z_array. cbn [truthy].
    rewrite (parse_tags l Hl), length_map, Hn. reflexivity. }
  rewrite E1, E2, E3, E4. reflexivity.
Qed.

(** Creating a todo from a title and a priority. *)
Lemma createTodo_valid_witness :
  exists todo s',
    TodoUtils.createTodo (RT := Reference.runtime)
      (VObj [("title", VStr "Call the bank"); ("priority", VStr "high")])
      (Sample.ready_store Reference.empty_world) = (Return todo, s') /\
    TodoUtils.validateTodo (RT := Reference.runtime) todo = Some todo /\
    get_prop todo "id" = Some (VStr (Reference.uuid 0)).
Proof.
  destruct (createTodo_valid (RT := Reference.runtime)
              (VObj [("title", VStr "Call the bank"); ("priority", VStr "high")])
              (VObj [("title", VStr "Call the bank"); ("priority", VStr "high")])
              (Sample.ready_store Reference.empty_world))
    as (todo & C & V & I & _).
  - reflexivity.
  - reflexivity.
  - reflexivity.
  - exists todo. eexists. split; [exact C|]. split; [exact V|exact I].
Defined.

(** ** Looking up before changing *)

(** X25.  The tool handlers look a todo up with [getTodoById] before they
    update or delete it.  Whenever that lookup has returned a todo (a
    truthy value), [deleteTodo] with the same identifier in the same state
    does not return [false], and [updateTodo] does not throw
    [NotFoundError]: both act on the element that the lookup found. *)
Theorem found_then_not_missing {RT : Runtime} (s : State) (id : string)
  (x : value) (s0 : State) :
  TodoStorage.getTodoById id s = (Return x, s0) ->
  truthy x = true ->
  (forall r s', TodoStorage.deleteTodo id s = (r, s') -> r <> Return false) /\
  (forall updates r s',
     TodoStorage.updateTodo id updates s = (r, s') ->
     forall resource identifier, r <> Throw (NotFoundError resource identifier)).
Proof.
  intros G Hx.
  assert (F : isInitialized (this s) = true /\
              exists i, findIndexM (TodoStorage.has_id (VStr id))
                          (todos (data (this s))) 0 s = (Return (Some i), s)).
  { unfold TodoStorage.getTodoById, TodoStorage.ensureInitialized in G.
    unfold bind at 1 in G. unfold bind at 1 in G. unfold get_this at 1 in G.
    destruct (isInitialized (this s)); [|discriminate]. split; [reflexivity|].
    unfold ret at 1 in G. unfold bind at 1 in G. unfold get_this at 1 in G.
    unfold bind at 1 in G.
    destruct (findIndexM _ _ _ s) as [[[i|]|e] s1] eqn:E; try discriminate.
    - pose proof (findIndexM_frame _ _ _ _ _ _ E). subst s1. eauto.
    - unfold ret in G. inversion G; subst. discriminate. }
  destruct F as (Hinit & i & F). split.
  - intros r s'. unfold TodoStorage.deleteTodo, TodoStorage.ensureInitialized.
    unfold bind at 1. unfold bind at 1. unfold get_this at 1. rewrite Hinit.
    unfold ret at 1. unfold bind at 1. unfold get_this at 1. unfold bind at 1.
    rewrite F. unfold bind at 1. unfold set_data at 1. unfold bind at 1.
    unfold get_this at 1. unfold put_this at 1. unfold bind at 1.
    destruct (TodoStorage.saveToFile _) as [[[]|e] s1]; unfold ret;
      intros X; inversion X; discriminate.
  - intros updates r s'. unfold TodoStorage.updateTodo, TodoStorage.ensureInitialized.
    unfold bind at 1. unfold bind at 1. unfold get_this at 1. rewrite Hinit.
    unfold ret at 1. unfold bind at 1. unfold get_this at 1. unfold bind at 1.
    rewrite F. unfold bind at 1. rewrite util_updateTodo_run. unfold bind at 1.
    destruct (TodoUtils.validateTodo _).
    + unfold ret at 1. unfold bind at 1. unfold set_data at 1. unfold bind at 1.
      unfold get_this at 1. unfold put_this at 1. unfold bind at 1.
      destruct (TodoStorage.saveToFile _) as [[[]|e] s1] eqn:S.
      * unfold bind at 1. destruct updates; unfold Object_keys; unfold_monad;
          intros X; inversion X; discriminate.
      * apply saveToFile_post in S as (_ & _ & _ & _ & (m & ->) & _).
        intros X; inversion X; discriminate.
    + unfold bind at 1. unfold bind at 1.
      destruct updates; unfold Object_keys; unfold_monad;
        intros X; inversion X; discriminate.
Qed.

(** Looking up [report] in the sample store, then deleting it. *)
Lemma found_then_not_missing_witness :
  fst (TodoStorage.deleteTodo (RT := Reference.runtime) (id Sample.report)
         (Sample.ready_store Reference.empty_world)) <> Return false.
Proof.
  destruct (found_then_not_missing (RT := Reference.runtime)
              (Sample.ready_store Reference.empty_world) (id Sample.report)
              (of_Todo Sample.report) (Sample.ready_store Reference.empty_world)
              eq_refl eq_refl) as [H _].
  exact (H _ _ (surjective_pairing _)).
Defined.

(** ** Filtering and ordering *)

Section Filtering.
Context {RT : Runtime}.

Lemma reads_only_ret {A} (a : A) : reads_only (ret a).
Proof. intros s r s' X; inversion X; apply only_ticks_refl. Qed.

Lemma reads_only_bind {A B} (m : M A) (k : A -> M B) :
  reads_only m -> (forall a, reads_only (k a)) -> reads_only (bind m k).
Proof.
  intros Hm Hk s r s'. unfold bind. destruct (m s) as [[a|e] s1] eqn:E; apply Hm in E.
  - intros X. apply Hk in X. eapply only_ticks_trans; eauto.
  - intros X; inversion X; subst; exact E.
Qed.

Lemma reads_only_prop v k : reads_only (prop v k).
Proof. intros s r s' X. apply prop_frame in X. subst. apply only_ticks_refl. Qed.

Lemma reads_only_isOverdue todo : reads_only (TodoUtils.isOverdue todo).
Proof. intros s r s'. apply isOverdue_frame. Qed.

Lemma reads_only_includes v tag : reads_only (includes v tag).
Proof.
  intros s r s'. destruct v; unfold includes, ret, throw; intros X; inversion X;
    apply only_ticks_refl.
Qed.

Lemma reads_only_someM {A} (p : A -> M bool) l :
  (forall x, reads_only (p x)) -> reads_only (someM p l).
Proof.
  intros Hp. induction l as [|x l IH]; cbn [someM]; [apply reads_only_ret|].
  apply reads_only_bind; [apply Hp|]. intros []; [apply reads_only_ret|exact IH].
Qed.

(** The filter callback reads the clock at most once and changes nothing
    else. *)
Lemma keeps_frame filter todo s r s' :
  TodoLists.keeps filter todo s = (r, s') -> only_ticks s s'.
Proof.
  revert s r s'. change (reads_only (TodoLists.keeps filter todo)).
  unfold TodoLists.keeps.
  destruct filter as [[fc|] [fp|] [fo|] [[|tag wanted]|]];
    cbn [Filter.completed Filter.priority Filter.overdue Filter.tags];
    repeat first
      [ apply reads_only_ret
      | apply reads_only_prop
      | apply reads_only_isOverdue
      | apply reads_only_includes
      | apply reads_only_someM; intros
      | apply reads_only_bind; [|intros]
      | match goal with
        | |- reads_only (if ?b then _ else _) => destruct b
        end ].
Qed.

Lemma filterTodos_frame filter todos : forall s r s',
  TodoLists.filterTodos todos filter s = (r, s') ->
  only_ticks s s' /\ forall ys, r = Return ys -> sublist ys todos.
Proof.
  unfold TodoLists.filterTodos.
  induction todos as [|x todos IH]; intros s r s'; cbn [filterM].
  - unfold ret. intros X; inversion X; subst. split; [apply only_ticks_refl|].
    intros ys Y; inversion Y. constructor.
  - unfold bind at 1.
    destruct (TodoLists.keeps filter x s) as [[b|e] s1] eqn:K; apply keeps_frame in K.
    2:{ intros X; inversion X; subst. split; [exact K|discriminate]. }
    unfold bind at 1.
    destruct (filterM (TodoLists.keeps filter) todos s1) as [[ys|e] s2] eqn:F;
      apply IH in F as [T S].
    + unfold ret. intros X; inversion X; subst.
      split; [eapply only_ticks_trans; eauto|].
      intros zs Z; inversion Z; subst. specialize (S ys eq_refl).
      destruct b; [now apply sublist_skip|now apply sublist_cons].
    + intros X; inversion X; subst.
      split; [eapply only_ticks_trans; eauto|discriminate].
Qed.

Lemma filterTodos_no_criterion todos filter : forall s,
  Filter.completed filter = None ->
  Filter.priority filter = None ->
  Filter.overdue filter = None ->
  Filter.tags filter = None \/ Filter.tags filter = Some [] ->
  TodoLists.filterTodos todos filter s = (Return todos, s).
Proof.
  intros s H1 H2 H3 H4. unfold TodoLists.filterTodos.
  assert (K : forall x s0, TodoLists.keeps filter x s0 = (Return true, s0)).
  { intros x s0. unfold TodoLists.keeps. rewrite H1, H2, H3.
    destruct H4 as [-> | ->]; reflexivity. }
  induction todos as [|x todos IH]; cbn [filterM]; [reflexivity|].
  unfold bind at 1. rewrite K. unfold bind at 1. rewrite IH. reflexivity.
Qed.

End Filtering.

(** X26.  [filterTodos] never invents or reorders: whatever the filter,
    the todos it returns form a subsequence of the ones it was given, and
    the call changes nothing (it may read the clock).  With a filter that
    has no criterion (an empty [tags] array counts as none), it returns the
    list it was given without looking at any element. *)
Theorem filterTodos_subsequence {RT : Runtime} (todos : list value)
  (filter : Filter.t) (s : State) :
  (forall r s',
     TodoLists.filterTodos todos filter s = (r, s') ->
     only_ticks s s' /\ forall kept, r = Return kept -> sublist kept todos) /\
  (Filter.completed filter = None ->
   Filter.priority filter = None ->
   Filter.overdue filter = None ->
   Filter.tags filter = None \/ Filter.tags filter = Some [] ->
   TodoLists.filterTodos todos filter s = (Return todos, s)).
Proof.
  split.
  - intros r s'. apply filterTodos_frame.
  - apply filterTodos_no_criterion.
Qed.

(** Filtering the sample todos without criterion. *)
Lemma filterTodos_subsequence_witness :
  TodoLists.filterTodos (RT := Reference.runtime)
    [of_Todo Sample.milk; VNull; of_Todo Sample.taxes] Filters.none
    (Sample.ready_store Reference.empty_world) =
    (Return [of_Todo Sample.milk; VNull; of_Todo Sample.taxes],
     Sample.ready_store Reference.empty_world) /\
  only_ticks (Sample.ready_store Reference.empty_world)
    (snd (TodoLists.filterTodos (RT := Reference.runtime)
            [of_Todo Sample.milk; of_Todo Sample.report] Filters.late_work
            (Sample.ready_store Reference.empty_world))).
Proof.
  split.
  - destruct (filterTodos_subsequence (RT := Reference.runtime)
                [of_Todo Sample.milk; VNull; of_Todo Sample.taxes] Filters.none
                (Sample.ready_store Reference.empty_world)) as [_ H].
    apply H; auto.
  - destruct (filterTodos_subsequence (RT := Reference.runtime)
                [of_Todo Sample.milk; of_Todo Sample.report] Filters.late_work
                (Sample.ready_store Reference.empty_world)) as [H _].
    exact (proj1 (H _ _ (surjective_pairing _))).
Defined.

Section TypedFiltering.
Context {RT : Runtime}.






End TypedFiltering.



(** X28.  The comparator of [sortTodos] is a consistent ordering of
    well-typed todos.  Swapping the arguments negates the result; if [a] is
    not after [b] and [b] is not after [c] then [a] is not after [c]
    (whenever the results are numbers, the result for [a] and [c] is one
    too).  It puts a todo still to do before a completed one, and between
    two todos of the same completion state the one of higher priority
    first. *)
Theorem sortTodos_compare_consistent {RT : Runtime} (a b c : Todo) :
  (forall x,
     TodoLists.sortTodos_compare a b = Some x ->
     TodoLists.sortTodos_compare b a = Some (- x)) /\
  (forall x y,
     TodoLists.sortTodos_compare a b = Some x ->
     TodoLists.sortTodos_compare b c = Some y ->
     x <= 0 -> y <= 0 ->
     exists z, TodoLists.sortTodos_compare a c = Some z /\ z <= 0) /\
  (completed a = false -> completed b = true ->
   TodoLists.sortTodos_compare a b = Some (-1)) /\
  (completed a = completed b ->
   TodoLists.priorityOrder (priority b) < TodoLists.priorityOrder (priority a) ->
   exists x, TodoLists.sortTodos_compare a b = Some x /\ x < 0).
Proof.
  unfold TodoLists.sortTodos_compare, TodoLists.time_difference.
  split; [|split; [|split]].
  - intros x.
    destruct (completed a), (completed b); cbn [Bool.eqb negb];
      try (intros X; inversion X; reflexivity).
    all: destruct (priority a), (priority b); cbn;
      try (intros X; inversion X; reflexivity).
    all: destruct (TodoLists.due a) as [da|], (TodoLists.due b) as [db|];
      try (intros X; inversion X; reflexivity).
    all: repeat match goal with
                | |- context [Date_parse ?d] => destruct (Date_parse d)
                end; intros X; inversion X; f_equal; lia.
  - intros x y.
    destruct (completed a), (completed b), (completed c); cbn [Bool.eqb negb];
      try (intros X Y; inversion X; inversion Y; subst; intros; lia);
      try (intros X Y; eexists; split; [reflexivity|lia]).
    all: destruct (priority a), (priority b), (priority c); cbn;
      try (intros X Y; inversion X; inversion Y; subst; intros; lia);
      try (intros X Y; eexists; split; [reflexivity|lia]).
    all: destruct (TodoLists.due a) as [da|], (TodoLists.due b) as [db|],
           (TodoLists.due c) as [dc|];
      try (intros X Y; inversion X; inversion Y; subst; intros; lia);
      try (intros X Y; eexists; split; [reflexivity|lia]).
    all: repeat match goal with
                | |- context [Date_parse ?d] => destruct (Date_parse d)
                end;
      intros X Y; inversion X; inversion Y; subst; intros;
      eexists; split; try reflexivity; lia.
  - intros -> ->. reflexivity.
  - intros -> H. rewrite Bool.eqb_reflx. cbn [negb].
    destruct (priority a), (priority b); cbn in H |- *; try lia;
      eexists; split; try reflexivity; lia.
Qed.

(** [report] (high priority) comes before [milk] (medium), and [milk]
    (still to do) before [taxes] (completed). *)
Lemma sortTodos_compare_consistent_witness :
  (exists x,
     TodoLists.sortTodos_compare (RT := Reference.runtime) Sample.report Sample.milk
       = Some x /\ x < 0) /\
  TodoLists.sortTodos_compare (RT := Reference.runtime) Sample.milk Sample.taxes
    = Some (-1) /\
  TodoLists.sortTodos_compare (RT := Reference.runtime) Sample.milk Sample.report
    = Some 1.
Proof.
  destruct (sortTodos_compare_consistent (RT := Reference.runtime)
              Sample.report Sample.milk Sample.taxes) as (H1 & _ & _ & H4).
  destruct (sortTodos_compare_consistent (RT := Reference.runtime)
              Sample.milk Sample.taxes Sample.report) as (_ & _ & H3 & _).
  split; [apply H4; [reflexivity|cbn; lia]|].
  split; [apply H3; reflexivity|].
  apply (H1 (-1)). reflexivity.
Defined.

(** ** What the mutators keep *)

Section Invariants.
Context {RT : Runtime}.

Lemma id_strings_sublist (l k : list value) :
  sublist l k -> sublist (id_strings l) (id_strings k).
Proof.
  unfold id_strings. induction 1 as [|x l k H IH|x l k H IH]; cbn.
  - constructor.
  - destruct (id_string x); [now constructor|exact IH].
  - destruct (id_string x); [now apply sublist_cons|exact IH].
Qed.

Lemma without_sublist i (l : list value) : sublist (without i l) l.
Proof. unfold without. rewrite <- delete_take_drop. apply sublist_delete. Qed.

Lemma id_strings_insert (y : value) : forall (l : list value) i x,
  nth_error l i = Some x ->
  id_string y = id_string x ->
  id_strings (<[i := y]> l) = id_strings l.
Proof.
  unfold id_strings. induction l as [|z l IH]; intros [|i] x Hx Hy; try discriminate.
  - cbn in Hx. inversion Hx; subst z. cbn. now rewrite Hy.
  - cbn in Hx. specialize (IH i x Hx Hy).
    change (<[S i := y]> (z :: l)) with (z :: <[i := y]> l).
    change (omap id_string (z :: <[i := y]> l))
      with (match id_string z with
            | Some j => j :: omap id_string (<[i := y]> l)
            | None => omap id_string (<[i := y]> l)
            end).
    rewrite IH. reflexivity.
Qed.

Lemma lookup_assign_all_absent over k : forall base,
  has_key over k = false ->
  lookup_prop (assign_all base over) k = lookup_prop base k.
Proof.
  unfold assign_all, has_key.
  induction over as [|[k' v] over IH]; intros base H; [reflexivity|].
  cbn in H. apply orb_false_iff in H as [Hk H]. cbn [fold_left fst snd].
  rewrite (IH _ H). apply lookup_set_prop_ne.
  intros ->. now rewrite String.eqb_refl in Hk.
Qed.

(** The merged todo has the identifier of the existing one when the update
    does not carry one. *)
Lemma merged_id (x updates : value) (now id : string) :
  id_string x = Some id ->
  has_key (own_props updates) "id" = false ->
  id_string (VObj (set_prop (assign_all (own_props x) (own_props updates))
                     "updatedAt" (VStr now))) = Some id.
Proof.
  unfold id_string. intros Hx Hu. cbn [get_prop].
  rewrite lookup_set_prop_ne by discriminate.
  rewrite (lookup_assign_all_absent _ _ _ Hu).
  destruct x; try discriminate. exact Hx.
Qed.

Lemma Object_keys_frame v s r s' : Object_keys v s = (r, s') -> s' = s.
Proof. destruct v; unfold Object_keys, ret, throw; congruence. Qed.

(** The list after [deleteTodo], whatever the outcome. *)
Lemma deleteTodo_todos id s r s' :
  TodoStorage.deleteTodo id s = (r, s') ->
  todos (data (this s')) = todos (data (this s)) \/
  exists i, todos (data (this s')) = without i (todos (data (this s))).
Proof.
  unfold TodoStorage.deleteTodo, TodoStorage.ensureInitialized.
  unfold bind at 1. unfold bind at 1. unfold get_this at 1.
  destruct (isInitialized (this s)); [|unfold throw; intros X; inversion X; auto].
  unfold ret at 1. unfold bind at 1. unfold get_this at 1. unfold bind at 1.
  destruct (findIndexM _ _ _ s) as [[[i|]|e] s1] eqn:F;
    apply findIndexM_frame in F; subst s1;
    try solve [unfold ret; intros X; inversion X; auto].
  unfold bind at 1. unfold set_data at 1. unfold bind at 1. unfold get_this at 1.
  unfold put_this at 1. unfold bind at 1.
  destruct (TodoStorage.saveToFile _) as [[[]|e] s1] eqn:S;
    apply saveToFile_post in S as (_ & _ & T & _); cbn in T;
    unfold ret; intros X; inversion X; subst; right; exists i; exact T.
Qed.

(** The list after [updateTodo], whatever the outcome. *)
Lemma updateTodo_todos id updates s r s' :
  TodoStorage.updateTodo id updates s = (r, s') ->
  todos (data (this s')) = todos (data (this s)) \/
  exists i x now,
    nth_error (todos (data (this s))) i = Some x /\
    id_string x = Some id /\
    TodoUtils.validateTodo
      (VObj (set_prop (assign_all (own_props x) (own_props updates))
               "updatedAt" (VStr now))) <> None /\
    todos (data (this s')) =
      <[i := VObj (set_prop (assign_all (own_props x) (own_props updates))
                     "updatedAt" (VStr now))]> (todos (data (this s))).
Proof.
  unfold TodoStorage.updateTodo, TodoStorage.ensureInitialized.
  unfold bind at 1. unfold bind at 1. unfold get_this at 1.
  destruct (isInitialized (this s)); [|unfold throw; intros X; inversion X; auto].
  unfold ret at 1. unfold bind at 1. unfold get_this at 1. unfold bind at 1.
  destruct (findIndexM _ _ _ s) as [[[i|]|e] s1] eqn:F;
    pose proof (findIndexM_frame _ _ _ _ _ _ F); subst s1;
    try solve [unfold throw; intros X; inversion X; auto].
  apply findIndexM_found in F as (_ & x & Hx & Hid). rewrite Nat.sub_0_r in Hx.
  rewrite (nth_error_nth _ _ VUndefined Hx).
  unfold bind at 1. rewrite util_updateTodo_run. unfold bind at 1.
  destruct (TodoUtils.validateTodo _) eqn:V.
  - unfold ret at 1. unfold bind at 1. unfold set_data at 1. unfold bind at 1.
    unfold get_this at 1. unfold put_this at 1. unfold bind at 1.
    assert (R : forall s2, todos (data (this s2)) =
                  <[i := VObj (set_prop (assign_all (own_props x) (own_props updates))
                                 "updatedAt"
                                 (VStr (toISOString (clock (ticks (world s))))))]>
                    (todos (data (this s))) ->
                todos (data (this s2)) = todos (data (this s)) \/
                exists i x now,
                  nth_error (todos (data (this s))) i = Some x /\
                  id_string x = Some id /\
                  TodoUtils.validateTodo
                    (VObj (set_prop (assign_all (own_props x) (own_props updates))
                             "updatedAt" (VStr now))) <> None /\
                  todos (data (this s2)) =
                    <[i := VObj (set_prop (assign_all (own_props x) (own_props updates))
                                   "updatedAt" (VStr now))]> (todos (data (this s)))).
    { intros s2 T. right. exists i, x, (toISOString (clock (ticks (world s)))).
      split; [exact Hx|]. split; [exact Hid|]. split; [congruence|exact T]. }
    destruct (TodoStorage.saveToFile _) as [[[]|e] s1] eqn:S;
      apply saveToFile_post in S as (_ & _ & T & _); cbn in T.
    + unfold bind at 1. destruct (Object_keys updates s1) as [[ks|e] s2] eqn:K;
        apply Object_keys_frame in K; subst s2;
        unfold ret; intros X; inversion X; subst; apply R; exact T.
    + intros X; inversion X; subst. apply R; exact T.
  - unfold bind at 1. unfold bind at 1.
    destruct (Object_keys updates _) as [[ks|e] s2] eqn:K;
      apply Object_keys_frame in K; subst s2;
      unfold throw; intros X; inversion X; subst; left; reflexivity.
Qed.

(** The list after [addTodo], whatever the outcome. *)
Lemma addTodo_todos todo s r s' :
  TodoStorage.addTodo todo s = (r, s') ->
  todos (data (this s')) = todos (data (this s)) \/
  (TodoUtils.validateTodo todo <> None /\
   todos (data (this s')) = todos (data (this s)) ++ [todo]).
Proof.
  unfold TodoStorage.addTodo, TodoStorage.ensureInitialized.
  unfold bind at 1. unfold bind at 1. unfold get_this at 1.
  destruct (isInitialized (this s)); [|unfold throw; intros X; inversion X; auto].
  unfold ret at 1. unfold bind at 1.
  destruct (TodoUtils.validateTodo todo) eqn:V.
  2:{ unfold bind at 1. destruct (prop todo "id" s) as [[i|e] s1] eqn:P;
        apply prop_frame in P; subst s1; unfold throw; intros X; inversion X; auto. }
  unfold ret at 1. unfold bind at 1.
  destruct (prop todo "id" s) as [[i|e] s1] eqn:P; apply prop_frame in P; subst s1;
    [|intros X; inversion X; auto].
  unfold bind at 1. unfold get_this at 1. unfold bind at 1.
  destruct (findIndexM _ _ _ s) as [[[k|]|e] s1] eqn:F;
    apply findIndexM_frame in F; subst s1;
    try solve [unfold throw; intros X; inversion X; auto].
  unfold bind at 1. unfold set_data at 1. unfold bind at 1. unfold get_this at 1.
  unfold put_this at 1. unfold bind at 1.
  destruct (TodoStorage.saveToFile _) as [[[]|e] s1] eqn:S;
    apply saveToFile_post in S as (_ & _ & T & _); cbn in T;
    unfold ret; intros X; inversion X; subst; right; (split; [congruence|exact T]).
Qed.

Lemma clearAllTodos_todos s r s' :
  TodoStorage.clearAllTodos s = (r, s') ->
  todos (data (this s')) = todos (data (this s)) \/ todos (data (this s')) = [].
Proof.
  unfold TodoStorage.clearAllTodos, TodoStorage.ensureInitialized.
  unfold bind at 1. unfold bind at 1. unfold get_this at 1.
  destruct (isInitialized (this s)); [|unfold throw; intros X; inversion X; auto].
  unfold ret at 1. unfold bind at 1. unfold get_this at 1.
  unfold bind at 1. unfold set_data at 1. unfold bind at 1. unfold get_this at 1.
  unfold put_this at 1. intros S.
  apply saveToFile_post in S as (_ & _ & T & _). cbn in T. auto.
Qed.

End Invariants.

(** X29.  The mutators other than [addTodo] never introduce an identifier.
    After [deleteTodo] the identifiers held are a subsequence of those held
    before; after [updateTodo] with an update that carries no [id] (the
    parameter type excludes it) they are the same identifiers in the same
    order; so both, like [clearAllTodos], leave the identifiers unique if
    they were.  This holds whatever the outcome of the call. *)
Theorem identifiers_kept {RT : Runtime} (s : State) :
  (forall id r s',
     TodoStorage.deleteTodo id s = (r, s') ->
     sublist (id_strings (todos (data (this s')))) (id_strings (todos (data (this s))))) /\
  (forall id updates r s',
     has_key (own_props updates) "id" = false ->
     TodoStorage.updateTodo id updates s = (r, s') ->
     id_strings (todos (data (this s'))) = id_strings (todos (data (this s)))) /\
  (unique_ids (todos (data (this s))) ->
   (forall id r s',
      TodoStorage.deleteTodo id s = (r, s') -> unique_ids (todos (data (this s')))) /\
   (forall id updates r s',
      has_key (own_props updates) "id" = false ->
      TodoStorage.updateTodo id updates s = (r, s') ->
      unique_ids (todos (data (this s')))) /\
   (forall r s',
      TodoStorage.clearAllTodos s = (r, s') -> unique_ids (todos (data (this s'))))).
Proof.
  assert (D : forall id r s',
            TodoStorage.deleteTodo id s = (r, s') ->
            sublist (id_strings (todos (data (this s'))))
              (id_strings (todos (data (this s))))).
  { intros id r s' E. apply deleteTodo_todos in E as [-> |(i & ->)]; [reflexivity|].
    apply id_strings_sublist, without_sublist. }
  assert (U : forall id updates r s',
            has_key (own_props updates) "id" = false ->
            TodoStorage.updateTodo id updates s = (r, s') ->
            id_strings (todos (data (this s'))) = id_strings (todos (data (this s)))).
  { intros id updates r s' Hk E.
    apply updateTodo_todos in E as [-> |(i & x & now & Hx & Hid & _ & ->)]; [reflexivity|].
    apply (id_strings_insert _ _ _ x Hx). rewrite Hid. now apply merged_id. }
  split; [exact D|]. split; [exact U|]. intros Hu. unfold unique_ids in *.
  split; [|split].
  - intros id r s' E. eapply sublist_NoDup; [exact Hu|]. eapply D; eauto.
  - intros id updates r s' Hk E. rewrite (U _ _ _ _ Hk E). exact Hu.
  - intros r s' E. apply clearAllTodos_todos in E as [-> | ->]; [exact Hu|constructor].
Qed.

(** Deleting [report], then completing [milk], in the sample store. *)
Lemma identifiers_kept_witness :
  unique_ids
    (todos (data (this (snd (TodoStorage.deleteTodo (RT := Reference.runtime)
                               (id Sample.report)
                               (Sample.ready_store Reference.empty_world)))))) /\
  id_strings
    (todos (data (this (snd (TodoStorage.updateTodo (RT := Reference.runtime)
                               (id Sample.milk) Inbox.complete
                               (Sample.ready_store Reference.empty_world)))))) =
  [id Sample.milk; id Sample.report; id Sample.taxes].
Proof.
  destruct (identifiers_kept (RT := Reference.runtime)
              (Sample.ready_store Reference.empty_world)) as (_ & U & K).
  assert (Hu : unique_ids (todos (data (this (Sample.ready_store Reference.empty_world))))).
  { unfold unique_ids. apply (bool_decide_unpack _). vm_compute. exact I. }
  destruct (K Hu) as (D & _ & _).
  split.
  - exact (D _ _ _ (surjective_pairing _)).
  - rewrite (U (id Sample.milk) Inbox.complete _ _ eq_refl (surjective_pairing _)).
    reflexivity.
Defined.

(** X30.  A store whose todos all pass [TodoSchema] still holds only such
    todos after [addTodo], [updateTodo], [deleteTodo] or [clearAllTodos],
    whatever the arguments and whatever the outcome of the call: [addTodo]
    and [updateTodo] store nothing that they have not validated. *)
Theorem valid_todos_kept {RT : Runtime} (s : State) :
  all_valid (todos (data (this s))) ->
  (forall todo r s',
     TodoStorage.addTodo todo s = (r, s') -> all_valid (todos (data (this s')))) /\
  (forall id updates r s',
     TodoStorage.updateTodo id updates s = (r, s') ->
     all_valid (todos (data (this s')))) /\
  (forall id r s',
     TodoStorage.deleteTodo id s = (r, s') -> all_valid (todos (data (this s')))) /\
  (forall r s',
     TodoStorage.clearAllTodos s = (r, s') -> all_valid (todos (data (this s')))).
Proof.
  unfold all_valid. intros Hv. split; [|split; [|split]].
  - intros todo r s' E. apply addTodo_todos in E as [-> |(V & ->)]; [exact Hv|].
    apply Forall_app. split; [exact Hv|]. constructor; [exact V|constructor].
  - intros id updates r s' E.
    apply updateTodo_todos in E as [-> |(i & x & now & _ & _ & V & ->)]; [exact Hv|].
    apply Forall_insert; assumption.
  - intros id r s' E. apply deleteTodo_todos in E as [-> |(i & ->)]; [exact Hv|].
    unfold without. apply Forall_app. split; [now apply Forall_take|now apply Forall_drop].
  - intros r s' E. apply clearAllTodos_todos in E as [-> | ->]; [exact Hv|constructor].
Qed.

(** The three sample todos are valid, and stay so when [Inbox.call] is
    added. *)
Lemma valid_todos_kept_witness :
  all_valid (RT := Reference.runtime)
    (todos (data (this (snd (TodoStorage.addTodo (RT := Reference.runtime)
                               (of_Todo Inbox.call)
                               (Sample.ready_store Reference.empty_world)))))).
Proof.
  destruct (valid_todos_kept (RT := Reference.runtime)
              (Sample.ready_store Reference.empty_world)) as (A & _).
  - repeat constructor; vm_compute; discriminate.
  - exact (A _ _ _ (surjective_pairing _)).
Defined.
